(** * smallcart: cart, checkout and order ledger of [app.py]

    A shallow embedding of the Flask/SQLAlchemy storefront.  The
    [db.Model] classes become records, each table is the list of its
    rows in rowid order, and every view function becomes a function
    from the session's user and the database before the request to the
    response and the database after [db.session.commit()].  A view that
    returns (or raises) before its commit leaves the database as it
    found it.

    Integers are Python's, unbounded, and floats include NaN; the
    database is SQLite, whose driver raises OverflowError when asked to
    bind an integer outside 64 bits and binds NaN as NULL, which a
    [nullable=False] column refuses.  Either way the request is
    answered 500 and nothing is written.  What a view reads from a
    stored row SQLite took when the row was written, so a view can be
    refused only over what a form or a URL carries or what it computes:
    those are the values the views below test.  Form fields arrive
    parsed ([int(...)], [float(...)]); requests are served one at a
    time.
    Logging and telemetry write nothing to the database and are left
    out.  The views of the first part take the user the login manager
    resolved, or none; the second part adds the user table, the
    account views, the remaining admin routes and the start-up block,
    and serves requests that carry a session. *)

From Stdlib Require Import ZArith QArith List String Bool Lia.
From Stdlib Require Import Sorted Permutation.
Import ListNotations.

Open Scope string_scope.
Open Scope list_scope.
Open Scope Z_scope.

(** ** Tables

    [db.Model] gives every class an integer primary key [id]. *)

Class Model (A : Type) := { pk : A -> Z }.

Section Query.
Context {A : Type} {model : Model A}.

(** [Query.get] / [Query.get_or_404]: the row with this primary key. *)
Definition get (id : Z) (t : list A) : option A :=
  find (fun r => pk r =? id) t.

(** The id SQLite gives the next inserted row: one past the largest. *)
Definition next_id (t : list A) : Z :=
  1 + fold_right Z.max 0 (map pk t).

(** [db.session.add(row)] followed by a flush. *)
Definition insert (mk : Z -> A) (t : list A) : list A :=
  t ++ [mk (next_id t)].

(** Attribute assignment on a loaded row: UPDATE ... WHERE id = ?. *)
Definition update (id : Z) (f : A -> A) (t : list A) : list A :=
  map (fun r => if pk r =? id then f r else r) t.

(** [db.session.delete(row)]: DELETE ... WHERE id = ?. *)
Definition delete (id : Z) (t : list A) : list A :=
  filter (fun r => negb (pk r =? id)) t.
End Query.

(** ** Exceptions inside a view: [None] is a raised exception. *)

Definition bind {A B : Type} (m : option A) (k : A -> option B) : option B :=
  match m with
  | Some a => k a
  | None => None
  end.

Notation "x <- m ;; k" := (bind m (fun x => k))
  (at level 61, m at next level, right associativity).

Fixpoint mapM {A B : Type} (f : A -> option B) (l : list A) : option (list B) :=
  match l with
  | [] => Some []
  | a :: l' => b <- f a ;; bs <- mapM f l' ;; Some (b :: bs)
  end.

Fixpoint foldM {A S : Type} (f : S -> A -> option S) (l : list A) (s : S) : option S :=
  match l with
  | [] => Some s
  | a :: l' => s' <- f s a ;; foldM f l' s'
  end.

(** ** What SQLite can hold

    An INTEGER is a signed 64-bit value.  Binding any other Python int,
    as a column value or as a key in a WHERE clause, raises
    OverflowError. *)

Definition sqlite_integer (n : Z) : bool :=
  (-9223372036854775808 <=? n) && (n <=? 9223372036854775807).

(** [get_or_404] on an id without a row: 404, unless the id cannot be
    bound at all and the lookup raises.  A stored row has an id that
    was bound when it was written, so such an id never has a row. *)
Definition missing (id : Z) : Z :=
  if sqlite_integer id then 404 else 500.

(** [datetime] values, as a count of clock ticks. *)

Definition datetime := Z.

(** Python floats ([db.Float]) and the two operations [checkout] applies
    to them: [int * float] and the built-in [sum] of a float sequence.
    [isnan] is [math.isnan]: it tells the one float that SQLite stores
    as NULL. *)

Class PyFloat := {
  float : Type;
  int_mul_float : Z -> float -> float;
  py_sum : list float -> float;
  isnan : float -> bool
}.

Section App.
Context {py_float : PyFloat}.

(** *** Database models *)

Record User := {
  u_id : Z;
  username : string;
  email : string;
  password_hash : string;
  is_admin : bool
}.

Record Product := {
  p_id : Z;
  p_name : string;
  p_description : string;
  p_price : float;
  p_stock : Z;
  p_image_url : string;
  p_created_at : datetime
}.

Record Order := {
  o_id : Z;
  o_user_id : Z;
  total_amount : float;
  status : string;
  created_at : datetime
}.

Record OrderItem := {
  oi_id : Z;
  oi_order_id : Z;
  oi_product_id : Z;
  oi_quantity : Z;
  oi_price : float
}.

Record CartItem := {
  c_id : Z;
  c_user_id : Z;
  c_product_id : Z;
  c_quantity : Z
}.

#[export] Instance Product_Model : Model Product := {| pk := p_id |}.
#[export] Instance Order_Model : Model Order := {| pk := o_id |}.
#[export] Instance OrderItem_Model : Model OrderItem := {| pk := oi_id |}.
#[export] Instance CartItem_Model : Model CartItem := {| pk := c_id |}.

Record Database := {
  products : list Product;
  orders : list Order;
  order_items : list OrderItem;
  cart_items : list CartItem
}.

Definition set_quantity (q : Z) (c : CartItem) : CartItem :=
  {| c_id := c_id c; c_user_id := c_user_id c;
     c_product_id := c_product_id c; c_quantity := q |}.

Definition set_stock (n : Z) (p : Product) : Product :=
  {| p_id := p_id p; p_name := p_name p; p_description := p_description p;
     p_price := p_price p; p_stock := n; p_image_url := p_image_url p;
     p_created_at := p_created_at p |}.

Definition set_status (s : string) (o : Order) : Order :=
  {| o_id := o_id o; o_user_id := o_user_id o; total_amount := total_amount o;
     status := s; created_at := created_at o |}.

Definition with_products (db : Database) (t : list Product) : Database :=
  {| products := t; orders := orders db;
     order_items := order_items db; cart_items := cart_items db |}.

Definition with_orders (db : Database) (t : list Order) : Database :=
  {| products := products db; orders := t;
     order_items := order_items db; cart_items := cart_items db |}.

Definition with_order_items (db : Database) (t : list OrderItem) : Database :=
  {| products := products db; orders := orders db;
     order_items := t; cart_items := cart_items db |}.

Definition with_cart_items (db : Database) (t : list CartItem) : Database :=
  {| products := products db; orders := orders db;
     order_items := order_items db; cart_items := t |}.

(** *** Responses

    [flash(msg, category)] followed by [redirect(url_for(endpoint))],
    [render_template], and the two aborts: [get_or_404] and an
    unhandled exception. *)

Inductive context :=
| no_context
| orders_context (orders : list Order)
| product_context (product : Product).

Inductive response :=
| redirect (endpoint : string) (flashed : list (string * string))
| render_template (template : string) (ctx : context)
| abort (code : Z).

Definition view := option User -> Database -> response * Database.

(** *** Decorators *)

(** [@login_required]: an anonymous session is sent to [login_view]. *)
Definition login_required (f : User -> Database -> response * Database) : view :=
  fun current_user db =>
    match current_user with
    | None => (redirect "login" [("Please log in to access this page.", "message")], db)
    | Some u => f u db
    end.

Definition admin_required (f : User -> Database -> response * Database)
    (current_user : User) (db : Database) : response * Database :=
  if negb (is_admin current_user)
  then (redirect "login" [("Admin access required.", "error")], db)
  else f current_user db.

(** *** Cart *)

(** [db.session.commit()] of a view that wrote to the cart table only:
    [None] is a cart the flush could not write, and the view raises. *)
Definition commit_cart (cart' : option (list CartItem)) (ok : response)
    (db : Database) : response * Database :=
  match cart' with
  | Some t => (ok, with_cart_items db t)
  | None => (abort 500, db)
  end.

(** [CartItem.query.filter_by(user_id=..., product_id=...)] *)
Definition is_line (user_id product_id : Z) (c : CartItem) : bool :=
  (c_user_id c =? user_id) && (c_product_id c =? product_id).

Definition add_to_cart (product_id : Z) : view :=
  login_required (fun current_user db =>
    match get product_id (products db) with
    | None => (abort (missing product_id), db)
    | Some product =>
        let existing_item :=
          find (is_line (u_id current_user) product_id) (cart_items db) in
        let cart' :=
          match existing_item with
          | Some item =>
              if sqlite_integer (c_quantity item + 1)
              then Some (update (c_id item) (set_quantity (c_quantity item + 1))
                                (cart_items db))
              else None
          | None =>
              Some (insert (fun id => {| c_id := id; c_user_id := u_id current_user;
                                         c_product_id := product_id; c_quantity := 1 |})
                           (cart_items db))
          end in
        commit_cart cart'
          (redirect "home" [(String.append (p_name product) " added to cart!", "success")])
          db
    end).

Definition update_cart (item_id quantity : Z) : view :=
  login_required (fun current_user db =>
    match get item_id (cart_items db) with
    | None => (abort (missing item_id), db)
    | Some cart_item =>
        if negb (c_user_id cart_item =? u_id current_user)
        then (redirect "cart" [("Unauthorized access.", "error")], db)
        else
          let cart' :=
            if quantity <=? 0
            then Some (delete (c_id cart_item) (cart_items db))
            else if sqlite_integer quantity
            then Some (update (c_id cart_item) (set_quantity quantity) (cart_items db))
            else None in
          commit_cart cart' (redirect "cart" [("Cart updated!", "success")]) db
    end).

Definition remove_from_cart (item_id : Z) : view :=
  login_required (fun current_user db =>
    match get item_id (cart_items db) with
    | None => (abort (missing item_id), db)
    | Some cart_item =>
        if negb (c_user_id cart_item =? u_id current_user)
        then (redirect "cart" [("Unauthorized access.", "error")], db)
        else
          (redirect "cart" [("Item removed from cart!", "success")],
           with_cart_items db (delete (c_id cart_item) (cart_items db)))
    end).

(** *** Checkout *)

(** [CartItem.query.filter_by(user_id=current_user.id)] *)
Definition owned_by (user_id : Z) (c : CartItem) : bool := c_user_id c =? user_id.

(** [item.quantity * item.product.price]; [item.product] is [None] when
    no product row has that id, and [.price] then raises. *)
Definition line_total (db : Database) (item : CartItem) : option float :=
  product <- get (c_product_id item) (products db) ;;
  Some (int_mul_float (c_quantity item) (p_price product)).

(** One turn of the [for cart_item in cart_items] loop.  The new stock
    is bound when the session is flushed, which raises when SQLite
    cannot hold it. *)
Definition place_item (order_id : Z) (db : Database) (cart_item : CartItem)
    : option Database :=
  product <- get (c_product_id cart_item) (products db) ;;
  let db1 := with_order_items db
    (insert (fun id => {| oi_id := id; oi_order_id := order_id;
                          oi_product_id := c_product_id cart_item;
                          oi_quantity := c_quantity cart_item;
                          oi_price := p_price product |})
            (order_items db)) in
  let stock := p_stock product - c_quantity cart_item in
  if sqlite_integer stock
  then Some (with_products db1
               (update (p_id product) (set_stock stock) (products db1)))
  else None.

(** [total_amount] is [nullable=False]: the flush after
    [db.session.add(order)] raises IntegrityError on a NaN total. *)
Definition checkout_txn (utcnow : datetime) (current_user : User) (db : Database)
    (cart : list CartItem) : option Database :=
  totals <- mapM (line_total db) cart ;;
  let total_amount := py_sum totals in
  let order := {| o_id := next_id (orders db); o_user_id := u_id current_user;
                  total_amount := total_amount; status := "pending";
                  created_at := utcnow |} in
  db1 <- (if isnan total_amount then None
          else Some (with_orders db (orders db ++ [order]))) ;;
  db2 <- foldM (place_item (o_id order)) cart db1 ;;
  Some (with_cart_items db2
    (filter (fun c => negb (owned_by (u_id current_user) c)) (cart_items db2))).

Definition checkout (utcnow : datetime) : view :=
  login_required (fun current_user db =>
    let cart := filter (owned_by (u_id current_user)) (cart_items db) in
    match cart with
    | [] => (redirect "cart" [("Your cart is empty.", "error")], db)
    | _ :: _ =>
        match checkout_txn utcnow current_user db cart with
        | None => (abort 500, db)
        | Some db' =>
            (redirect "order_history" [("Order placed successfully!", "success")], db')
        end
    end).

(** *** Order history *)

Fixpoint insert_desc (o : Order) (l : list Order) : list Order :=
  match l with
  | [] => [o]
  | x :: l' =>
      if created_at x <=? created_at o then o :: l else x :: insert_desc o l'
  end.

(** [order_by(Order.created_at.desc())] *)
Definition order_by_created_at_desc (l : list Order) : list Order :=
  fold_right insert_desc [] l.

Definition order_history : view :=
  login_required (fun current_user db =>
    let orders :=
      order_by_created_at_desc
        (filter (fun o => o_user_id o =? u_id current_user) (orders db)) in
    (render_template "order_history.html" (orders_context orders), db)).

(** *** Admin *)

Inductive method := GET | POST.

(** [request.form] of the product forms, after [float()] and [int()]. *)
Record product_form := {
  f_name : string;
  f_description : string;
  f_price : float;
  f_stock : Z;
  f_image_url : string
}.

(** A product row the flush can write: [stock] is an Integer column,
    [price] a Float column with [nullable=False]. *)
Definition storable (form : product_form) : bool :=
  sqlite_integer (f_stock form) && negb (isnan (f_price form)).

Definition admin_add_product (m : method) (form : product_form) (utcnow : datetime)
    : view :=
  login_required (admin_required (fun _ db =>
    match m with
    | POST =>
        if storable form
        then
          (redirect "admin_products" [("Product added successfully!", "success")],
           with_products db
             (insert (fun id => {| p_id := id; p_name := f_name form;
                                   p_description := f_description form;
                                   p_price := f_price form; p_stock := f_stock form;
                                   p_image_url := f_image_url form;
                                   p_created_at := utcnow |})
                     (products db)))
        else (abort 500, db)
    | GET => (render_template "admin/add_product.html" no_context, db)
    end)).

Definition edit_product (form : product_form) (p : Product) : Product :=
  {| p_id := p_id p; p_name := f_name form; p_description := f_description form;
     p_price := f_price form; p_stock := f_stock form;
     p_image_url := f_image_url form; p_created_at := p_created_at p |}.

Definition admin_edit_product (m : method) (product_id : Z) (form : product_form)
    : view :=
  login_required (admin_required (fun _ db =>
    match get product_id (products db) with
    | None => (abort (missing product_id), db)
    | Some product =>
        match m with
        | POST =>
            if storable form
            then
              (redirect "admin_products" [("Product updated successfully!", "success")],
               with_products db
                 (update (p_id product) (edit_product form) (products db)))
            else (abort 500, db)
        | GET => (render_template "admin/edit_product.html" (product_context product), db)
        end
    end)).

Definition admin_update_order_status (order_id : Z) (new_status : string) : view :=
  login_required (admin_required (fun _ db =>
    match get order_id (orders db) with
    | None => (abort (missing order_id), db)
    | Some order =>
        (redirect "admin_orders" [("Order status updated!", "success")],
         with_orders db (update (o_id order) (set_status new_status) (orders db)))
    end)).

(** *** Requests

    The routes above as one request type, a session being the
    identity the login manager resolved for the request. *)

Inductive request :=
| AddToCart (product_id : Z)
| UpdateCart (item_id quantity : Z)
| RemoveFromCart (item_id : Z)
| Checkout (utcnow : datetime)
| OrderHistory
| AdminAddProduct (m : method) (form : product_form) (utcnow : datetime)
| AdminEditProduct (m : method) (product_id : Z) (form : product_form)
| AdminUpdateOrderStatus (order_id : Z) (new_status : string).

Definition dispatch (r : request) : view :=
  match r with
  | AddToCart product_id => add_to_cart product_id
  | UpdateCart item_id quantity => update_cart item_id quantity
  | RemoveFromCart item_id => remove_from_cart item_id
  | Checkout utcnow => checkout utcnow
  | OrderHistory => order_history
  | AdminAddProduct m form utcnow => admin_add_product m form utcnow
  | AdminEditProduct m product_id form => admin_edit_product m product_id form
  | AdminUpdateOrderStatus order_id s => admin_update_order_status order_id s
  end.

Definition handle (db : Database) (req : option User * request) : Database :=
  snd (dispatch (snd req) (fst req) db).

(** The database after a sequence of requests served one at a time. *)
Definition serve (reqs : list (option User * request)) (db : Database) : Database :=
  fold_left handle reqs db.

Definition empty_db : Database :=
  {| products := []; orders := []; order_items := []; cart_items := [] |}.

(** *** The cart as the spec describes it

    At most one line per (user, product), and a quantity that is the
    running tally of the requests that touched the pair. *)

Definition lines_of (user_id product_id : Z) (db : Database) : list CartItem :=
  filter (is_line user_id product_id) (cart_items db).

Definition line_quantity (user_id product_id : Z) (db : Database) : option Z :=
  option_map c_quantity (find (is_line user_id product_id) (cart_items db)).

(** Primary keys of the cart table are distinct and no pair has two lines. *)
Definition cart_wf (db : Database) : Prop :=
  NoDup (map c_id (cart_items db)) /\
  forall u p, (List.length (lines_of u p db) <= 1)%nat.

(** A response that flashes exactly one message of category success. *)
Definition is_success (r : response) : bool :=
  match r with
  | redirect _ [(_, category)] => String.eqb category "success"
  | _ => false
  end.

Inductive cart_event :=
| Added
| Overwritten (quantity : Z)
| Deleted
| Untouched.

(** What one event does to the quantity of a pair ([None]: no line). *)
Definition tally (q : option Z) (e : cart_event) : option Z :=
  match e with
  | Added => Some (match q with Some n => n + 1 | None => 1 end)
  | Overwritten n => Some n
  | Deleted => None
  | Untouched => q
  end.

(** What a call is to the pair (user_id, product_id), whatever the
    route then answers: an add by that user of that existing product; a
    setQuantity or remove by the owner on the pair's line; a checkout of
    that user's cart; or nothing. *)
Definition cart_call_of (user_id product_id : Z) (db : Database)
    (req : option User * request) : cart_event :=
  match req with
  | (Some actor, AddToCart pid) =>
      match get pid (products db) with
      | Some _ =>
          if (u_id actor =? user_id) && (pid =? product_id) then Added else Untouched
      | None => Untouched
      end
  | (Some actor, UpdateCart item_id quantity) =>
      match get item_id (cart_items db) with
      | Some line =>
          if (c_user_id line =? u_id actor) && is_line user_id product_id line
          then (if quantity <=? 0 then Deleted else Overwritten quantity)
          else Untouched
      | None => Untouched
      end
  | (Some actor, RemoveFromCart item_id) =>
      match get item_id (cart_items db) with
      | Some line =>
          if (c_user_id line =? u_id actor) && is_line user_id product_id line
          then Deleted else Untouched
      | None => Untouched
      end
  | (Some actor, Checkout utcnow) =>
      if (u_id actor =? user_id) && is_success (fst (checkout utcnow (Some actor) db))
      then Deleted else Untouched
  | _ => Untouched
  end.

(** What a request does to the pair: its call, when the route answers
    with success; nothing, when it answers anything else (a redirect
    with an error, 404, or 500). *)
Definition cart_event_of (user_id product_id : Z) (db : Database)
    (req : option User * request) : cart_event :=
  if is_success (fst (dispatch (snd req) (fst req) db))
  then cart_call_of user_id product_id db req
  else Untouched.

(** The events of a request sequence on a pair, each request classified
    against the database it is served on. *)
Fixpoint cart_events (user_id product_id : Z)
    (reqs : list (option User * request)) (db : Database) : list cart_event :=
  match reqs with
  | [] => []
  | req :: rest =>
      cart_event_of user_id product_id db req
      :: cart_events user_id product_id rest (handle db req)
  end.

(** The same sequence with every call counted. *)
Fixpoint cart_calls (user_id product_id : Z)
    (reqs : list (option User * request)) (db : Database) : list cart_event :=
  match reqs with
  | [] => []
  | req :: rest =>
      cart_call_of user_id product_id db req
      :: cart_calls user_id product_id rest (handle db req)
  end.

Definition is_added (e : cart_event) : bool :=
  match e with Added => true | _ => false end.

(** *** Checkout as the spec describes it *)

(** The lines [checkout] reads for a user. *)
Definition cart_of (user_id : Z) (db : Database) : list CartItem :=
  filter (owned_by user_id) (cart_items db).

(** Total quantity a cart holds of one product. *)
Definition quantity_of (product_id : Z) (cart : list CartItem) : Z :=
  fold_right Z.add 0
    (map c_quantity (filter (fun c => c_product_id c =? product_id) cart)).

(** [t] is quantity x price of line [c], priced in [db]. *)
Definition priced (db : Database) (c : CartItem) (t : float) : Prop :=
  exists p, get (c_product_id c) (products db) = Some p /\
            t = int_mul_float (c_quantity c) (p_price p).

(** [it] is the snapshot of line [c] for order [order_id], priced in [db]. *)
Definition snapshot (db : Database) (order_id : Z) (c : CartItem)
    (it : OrderItem) : Prop :=
  oi_order_id it = order_id /\
  oi_product_id it = c_product_id c /\
  oi_quantity it = c_quantity c /\
  exists p, get (c_product_id c) (products db) = Some p /\ oi_price it = p_price p.

(** [p'] is [p] with at most its stock changed, and is [p] itself when
    no line of [cart] references it. *)
Definition stock_only (cart : list CartItem) (p p' : Product) : Prop :=
  (exists n, p' = set_stock n p) /\
  ((forall c, In c cart -> c_product_id c <> p_id p) -> p' = p).

(** The orders [order_history] hands to its template. *)
Definition listing (user_id : Z) (db : Database) : list Order :=
  order_by_created_at_desc (filter (fun o => o_user_id o =? user_id) (orders db)).

(** *** The foreign keys of the schema *)

(** [CartItem.product_id] references a stored product. *)
Definition cart_fk (db : Database) : Prop :=
  forall c, In c (cart_items db) ->
  exists p, get (c_product_id c) (products db) = Some p.

(** [OrderItem.order_id] references a stored order. *)
Definition order_item_fk (db : Database) : Prop :=
  forall it, In it (order_items db) ->
  exists o, In o (orders db) /\ o_id o = oi_order_id it.

Definition db_wf (db : Database) : Prop :=
  cart_wf db /\ cart_fk db /\ order_item_fk db.

(** The claim of C4 as the spec states it, over the states reachable
    from the empty database: the quantity of a pair is the tally of the
    calls made on it. *)
Definition quantity_counts_calls : Prop :=
  forall (reqs : list (option User * request)) (user_id product_id : Z),
    line_quantity user_id product_id (serve reqs empty_db) =
    fold_left tally (cart_calls user_id product_id reqs empty_db) None.

(** The claim of C5 as the spec states it: an add on an existing line
    of an existing product raises the quantity by one. *)
Definition add_increments_any_line : Prop :=
  forall (reqs : list (option User * request)) (u : User) (product_id : Z)
         (product : Product) (item : CartItem),
    get product_id (products (serve reqs empty_db)) = Some product ->
    find (is_line (u_id u) product_id) (cart_items (serve reqs empty_db)) =
      Some item ->
    line_quantity (u_id u) product_id
      (snd (add_to_cart product_id (Some u) (serve reqs empty_db))) =
      Some (c_quantity item + 1).

(** The claim of C6 as the spec states it: every quantity of at least 1
    is stored in the caller's line. *)
Definition set_quantity_stores_any : Prop :=
  forall (reqs : list (option User * request)) (u : User) (item_id quantity : Z)
         (line : CartItem),
    get item_id (cart_items (serve reqs empty_db)) = Some line ->
    c_user_id line = u_id u ->
    1 <= quantity ->
    option_map c_quantity
      (get item_id
         (cart_items
            (snd (update_cart item_id quantity (Some u) (serve reqs empty_db))))) =
      Some quantity.

(** The claim of C2 as the spec states it, over the states reachable from
    the empty database. *)
Definition stock_never_negative : Prop :=
  forall (reqs : list (option User * request)) (u : User)
         (utcnow : datetime) (pid : Z) (p p' : Product),
    get pid (products (serve reqs empty_db)) = Some p ->
    0 <= p_stock p ->
    get pid
      (products
         (snd (checkout utcnow (Some u)
                 (serve reqs empty_db)))) = Some p' ->
    0 <= p_stock p'.

End App.

(** * Accounts

    [register], [login], [load_user] and [create_admin_user] work on the
    user table alone.  werkzeug's [generate_password_hash] salts at
    random, so the hash it returns is an input here; [check_password_hash]
    is the library's. *)

#[export] Instance User_Model : Model User := {| pk := u_id |}.

Class Werkzeug := { check_password_hash : string -> string -> bool }.

(** [flash(...)] messages of the request, then a redirect or a template. *)
Inductive account_response :=
| flash_redirect (endpoint : string) (flashed : list (string * string))
| flash_render (template : string) (flashed : list (string * string)).

Record register_form := {
  rf_username : string;
  rf_email : string;
  rf_password : string
}.

Definition new_user (form : register_form) (generated_hash : string) (id : Z) : User :=
  {| u_id := id; username := rf_username form; email := rf_email form;
     password_hash := generated_hash; is_admin := false |}.

Definition register (m : method) (form : register_form) (generated_hash : string)
    (users : list User) : account_response * list User :=
  match m with
  | POST =>
      match find (fun u => String.eqb (username u) (rf_username form)) users with
      | Some _ =>
          (flash_redirect "register" [("Username already exists.", "error")], users)
      | None =>
          match find (fun u => String.eqb (email u) (rf_email form)) users with
          | Some _ =>
              (flash_redirect "register" [("Email already exists.", "error")], users)
          | None =>
              (flash_redirect "login" [("Registration successful!", "success")],
               insert (new_user form generated_hash) users)
          end
      end
  | GET => (flash_render "register.html" [], users)
  end.

Record login_form := {
  lf_email_or_username : string;
  lf_password : string
}.

(** [(User.email == x) | (User.username == x)] followed by [.first()].
    Both columns are unique and so indexed; SQLite answers the OR from
    the two indexes in the order of its terms, the email match before
    the username match. *)
Definition first_answering (x : string) (users : list User) : option User :=
  match find (fun u => String.eqb (email u) x) users with
  | Some u => Some u
  | None => find (fun u => String.eqb (username u) x) users
  end.

(** The session holds the id [login_user] stored, or nothing. *)
Definition login {w : Werkzeug} (m : method) (form : login_form)
    (users : list User) (session : option Z) : account_response * option Z :=
  match m with
  | POST =>
      match first_answering (lf_email_or_username form) users with
      | Some user =>
          if check_password_hash (password_hash user) (lf_password form)
          then (flash_redirect (if is_admin user then "admin_dashboard" else "home")
                  [("Login successful!", "success")],
                Some (u_id user))
          else (flash_render "login.html"
                  [("Invalid email/username or password.", "error")], session)
      | None =>
          (flash_render "login.html"
             [("Invalid email/username or password.", "error")], session)
      end
  | GET => (flash_render "login.html" [], session)
  end.

Definition load_user (user_id : Z) (users : list User) : option User :=
  get user_id users.

(** flask-login's [current_user]: the row [load_user] finds for the
    session, an anonymous user otherwise. *)
Definition current_user (users : list User) (session : option Z) : option User :=
  match session with
  | Some user_id => load_user user_id users
  | None => None
  end.

(** [username] and [email] are [unique=True]: an insert that repeats
    one raises IntegrityError. *)
Definition taken (name mail : string) (users : list User) : bool :=
  existsb (fun u => String.eqb (username u) name || String.eqb (email u) mail) users.

(** [None]: the commit raised. *)
Definition create_admin_user (generated_hash : string) (users : list User)
    : option (list User) :=
  match find is_admin users with
  | Some _ => Some users
  | None =>
      if taken "admin" "admin@gmail.com" users then None
      else Some (insert (fun id => {| u_id := id; username := "admin";
                                      email := "admin@gmail.com";
                                      password_hash := generated_hash;
                                      is_admin := true |}) users)
  end.

(** Ids, usernames and emails of the user table are each distinct. *)
Definition accounts_wf (users : list User) : Prop :=
  NoDup (map u_id users) /\ NoDup (map username users) /\ NoDup (map email users).

(** * The rest of the shop *)

Section Site.
Context {py_float : PyFloat}.

(** The float a decimal literal of the source denotes. *)
Variable float_of_literal : string -> float.

(** ** Pages *)

(** [sum] starts from the integer 0, which is what it returns for an
    empty sequence. *)
Inductive number :=
| py_int (n : Z)
| py_flt (x : float).

Inductive page_context :=
| cart_context (cart_items : list CartItem) (total : number)
| order_context (order : Order)
| order_list_context (orders : list Order)
| users_context (users : list User).

Inductive page :=
| page_redirect (endpoint : string) (flashed : list (string * string))
| page_render (template : string) (ctx : page_context)
| page_abort (code : Z).

Definition page_view := option User -> Database -> page * Database.

(** The two decorators again, for views that answer with a [page]. *)
Definition page_login_required (f : User -> Database -> page * Database) : page_view :=
  fun current_user db =>
    match current_user with
    | None => (page_redirect "login" [("Please log in to access this page.", "message")], db)
    | Some u => f u db
    end.

Definition page_admin_required (f : User -> Database -> page * Database)
    (current_user : User) (db : Database) : page * Database :=
  if negb (is_admin current_user)
  then (page_redirect "login" [("Admin access required.", "error")], db)
  else f current_user db.

(** ** The cart page *)

Definition cart : page_view :=
  page_login_required (fun current_user db =>
    let cart_items := filter (owned_by (u_id current_user)) (cart_items db) in
    match mapM (line_total db) cart_items with
    | None => (page_abort 500, db)
    | Some totals =>
        let total :=
          match totals with
          | [] => py_int 0
          | _ :: _ => py_flt (py_sum totals)
          end in
        (page_render "cart.html" (cart_context cart_items total), db)
    end).

(** ** Admin: products and orders *)

(** [Product.cart_items] and [Product.order_items] are backrefs without a
    delete cascade: deleting the product sets [product_id] of its lines
    and items to NULL, which [nullable=False] refuses. *)
Definition product_in_use (product_id : Z) (db : Database) : bool :=
  existsb (fun c => c_product_id c =? product_id) (cart_items db)
  || existsb (fun it => oi_product_id it =? product_id) (order_items db).

Definition admin_delete_product (product_id : Z) : page_view :=
  page_login_required (page_admin_required (fun _ db =>
    match get product_id (products db) with
    | None => (page_abort (missing product_id), db)
    | Some product =>
        if product_in_use (p_id product) db
        then (page_abort 500, db)
        else (page_redirect "admin_products"
                [("Product deleted successfully!", "success")],
              with_products db (delete (p_id product) (products db)))
    end)).

Definition admin_orders : page_view :=
  page_login_required (page_admin_required (fun _ db =>
    (page_render "admin/orders.html"
       (order_list_context (order_by_created_at_desc (orders db))), db))).

(** [request.form] of the order edit form: [of_total_amount] is [None]
    when the field is missing or empty. *)
Record order_form := {
  of_status : string;
  of_total_amount : option float
}.

Definition edit_order (form : order_form) (o : Order) : Order :=
  {| o_id := o_id o; o_user_id := o_user_id o;
     total_amount := match of_total_amount form with
                     | Some t => t
                     | None => total_amount o
                     end;
     status := of_status form; created_at := created_at o |}.

(** [total_amount] is [nullable=False]: a NaN makes the commit raise. *)
Definition storable_total (total : option float) : bool :=
  match total with
  | Some t => negb (isnan t)
  | None => true
  end.

Definition admin_edit_order (m : method) (order_id : Z) (form : order_form)
    : page_view :=
  page_login_required (page_admin_required (fun _ db =>
    match get order_id (orders db) with
    | None => (page_abort (missing order_id), db)
    | Some order =>
        match m with
        | POST =>
            if storable_total (of_total_amount form)
            then
              (page_redirect "admin_orders"
                 [("Order updated successfully!", "success")],
               with_orders db (update (o_id order) (edit_order form) (orders db)))
            else (page_abort 500, db)
        | GET => (page_render "admin/edit_order.html" (order_context order), db)
        end
    end)).

(** [co_user_id] is the id the form's [user_id] field denotes.  The
    field is passed on as the string it is, which SQLite compares and
    stores by the column's integer affinity: no id is out of range for
    the lookup, it just finds no user. *)
Record create_order_form := {
  co_user_id : Z;
  co_total_amount : float;
  co_status : string
}.

Definition admin_create_order (m : method) (form : create_order_form)
    (utcnow : datetime) (users : list User) : page_view :=
  page_login_required (page_admin_required (fun _ db =>
    match m with
    | POST =>
        match get (co_user_id form) users with
        | None =>
            (page_redirect "admin_create_order" [("User not found.", "error")], db)
        | Some _ =>
            if isnan (co_total_amount form) then (page_abort 500, db)
            else
              (page_redirect "admin_orders"
                 [("Order created successfully!", "success")],
               with_orders db
                 (insert (fun id => {| o_id := id; o_user_id := co_user_id form;
                                       total_amount := co_total_amount form;
                                       status := co_status form;
                                       created_at := utcnow |})
                         (orders db)))
        end
    | GET =>
        (page_render "admin/create_order.html"
           (users_context (filter (fun u => negb (is_admin u)) users)), db)
    end)).

(** [order_items] cascades ['all, delete-orphan']: the order's items go
    with it. *)
Definition admin_delete_order (order_id : Z) : page_view :=
  page_login_required (page_admin_required (fun _ db =>
    match get order_id (orders db) with
    | None => (page_abort (missing order_id), db)
    | Some order =>
        (page_redirect "admin_orders" [("Order deleted successfully!", "success")],
         with_order_items
           (with_orders db (delete (o_id order) (orders db)))
           (filter (fun it => negb (oi_order_id it =? o_id order)) (order_items db)))
    end)).

(** ** Start-up *)

Definition sample_products : list product_form :=
  [ {| f_name := "Laptop"; f_description := "High-performance laptop";
       f_price := float_of_literal "999.99"; f_stock := 10;
       f_image_url := "https://via.placeholder.com/300x200?text=Laptop" |};
    {| f_name := "Smartphone"; f_description := "Latest smartphone";
       f_price := float_of_literal "699.99"; f_stock := 15;
       f_image_url := "https://via.placeholder.com/300x200?text=Smartphone" |};
    {| f_name := "Headphones";
       f_description := "Wireless noise-cancelling headphones";
       f_price := float_of_literal "199.99"; f_stock := 25;
       f_image_url := "https://via.placeholder.com/300x200?text=Headphones" |};
    {| f_name := "Tablet"; f_description := "10-inch tablet with stylus";
       f_price := float_of_literal "449.99"; f_stock := 20;
       f_image_url := "https://via.placeholder.com/300x200?text=Tablet" |} ].

(** [db.session.add(product)]; [utcnow] is the clock at the row's insert. *)
Definition add_sample (utcnow : datetime) (t : list Product) (form : product_form)
    : list Product :=
  insert (fun id => {| p_id := id; p_name := f_name form;
                       p_description := f_description form;
                       p_price := f_price form; p_stock := f_stock form;
                       p_image_url := f_image_url form;
                       p_created_at := utcnow |}) t.

(** [if Product.query.count() == 0: ...] *)
Definition seed_products (utcnow : datetime) (db : Database) : Database :=
  if (List.length (products db) =? 0)%nat
  then with_products db (fold_left (add_sample utcnow) sample_products (products db))
  else db.

(** ** The whole site: user table and shop tables *)

Record Store := {
  accounts : list User;
  database : Database
}.

Definition empty_store : Store := {| accounts := []; database := empty_db |}.

(** The [__main__] block after [db.create_all()]. *)
Definition startup (generated_hash : string) (utcnow : datetime) (st : Store)
    : option Store :=
  users <- create_admin_user generated_hash (accounts st) ;;
  Some {| accounts := users; database := seed_products utcnow (database st) |}.

(** Every route that writes, the earlier ones under [Core]. *)
Inductive site_request :=
| Core (r : request)
| Register (m : method) (form : register_form) (generated_hash : string)
| AdminDeleteProduct (product_id : Z)
| AdminEditOrder (m : method) (order_id : Z) (form : order_form)
| AdminCreateOrder (m : method) (form : create_order_form) (utcnow : datetime)
| AdminDeleteOrder (order_id : Z).

(** A request arrives with its session; the user is looked up per request. *)
Definition site_handle (st : Store) (req : option Z * site_request) : Store :=
  let actor := current_user (accounts st) (fst req) in
  match snd req with
  | Core r =>
      {| accounts := accounts st; database := handle (database st) (actor, r) |}
  | Register m form generated_hash =>
      {| accounts := snd (register m form generated_hash (accounts st));
         database := database st |}
  | AdminDeleteProduct product_id =>
      {| accounts := accounts st;
         database := snd (admin_delete_product product_id actor (database st)) |}
  | AdminEditOrder m order_id form =>
      {| accounts := accounts st;
         database := snd (admin_edit_order m order_id form actor (database st)) |}
  | AdminCreateOrder m form utcnow =>
      {| accounts := accounts st;
         database :=
           snd (admin_create_order m form utcnow (accounts st) actor (database st)) |}
  | AdminDeleteOrder order_id =>
      {| accounts := accounts st;
         database := snd (admin_delete_order order_id actor (database st)) |}
  end.

Definition site_serve (reqs : list (option Z * site_request)) (st : Store) : Store :=
  fold_left site_handle reqs st.

(** The routes behind [@admin_required]. *)
Definition admin_route (r : site_request) : bool :=
  match r with
  | Core (AdminAddProduct _ _ _) => true
  | Core (AdminEditProduct _ _ _) => true
  | Core (AdminUpdateOrderStatus _ _) => true
  | Core _ => false
  | Register _ _ _ => false
  | AdminDeleteProduct _ => true
  | AdminEditOrder _ _ _ => true
  | AdminCreateOrder _ _ _ => true
  | AdminDeleteOrder _ => true
  end.

(** ** What the schema promises *)

Definition cart_positive (db : Database) : Prop :=
  forall c, In c (cart_items db) -> 1 <= c_quantity c.

Definition has_account (users : list User) (user_id : Z) : Prop :=
  exists u, In u users /\ u_id u = user_id.

(** Primary keys, unique columns and foreign keys of the five tables. *)
Definition site_wf (st : Store) : Prop :=
  accounts_wf (accounts st) /\
  NoDup (map p_id (products (database st))) /\
  NoDup (map o_id (orders (database st))) /\
  NoDup (map oi_id (order_items (database st))) /\
  db_wf (database st) /\
  (forall it, In it (order_items (database st)) ->
     exists p, get (oi_product_id it) (products (database st)) = Some p) /\
  (forall o, In o (orders (database st)) -> has_account (accounts st) (o_user_id o)) /\
  (forall c, In c (cart_items (database st)) -> has_account (accounts st) (c_user_id c)).

(** What SQLite took when the rows were written: quantities and stocks
    within 64 bits, no NaN in a [nullable=False] float column. *)
Definition storable_db (db : Database) : Prop :=
  (forall p, In p (products db) ->
     sqlite_integer (p_stock p) = true /\ isnan (p_price p) = false) /\
  (forall o, In o (orders db) -> isnan (total_amount o) = false) /\
  (forall it, In it (order_items db) ->
     sqlite_integer (oi_quantity it) = true /\ isnan (oi_price it) = false) /\
  (forall c, In c (cart_items db) -> sqlite_integer (c_quantity c) = true).

(** Quantity of one product over a list of order items. *)
Definition ordered_quantity (product_id : Z) (items : list OrderItem) : Z :=
  fold_right Z.add 0
    (map oi_quantity (filter (fun it => oi_product_id it =? product_id) items)).

(** Quantity x price, summed as [checkout] sums, over order items. *)
Definition items_total (items : list OrderItem) : float :=
  py_sum (map (fun it => int_mul_float (oi_quantity it) (oi_price it)) items).

Definition newest_first (a b : Order) : Prop := created_at b <= created_at a.

(** ** What a customer can change *)

Definition restocked (p p' : Product) : Prop := exists n, p' = set_stock n p.

(** From [st] to [st']: new accounts are customers, products differ in
    stock only, orders and items are only added, the orders pending. *)
Definition customer_effect (st st' : Store) : Prop :=
  (exists extra,
     accounts st' = accounts st ++ extra /\
     Forall (fun u => is_admin u = false) extra) /\
  Forall2 restocked (products (database st)) (products (database st')) /\
  (exists new,
     orders (database st') = orders (database st) ++ new /\
     Forall (fun o => status o = "pending") new) /\
  (exists new, order_items (database st') = order_items (database st) ++ new).

End Site.

(** * A concrete shop

    Prices as exact rationals.  One product is put on sale by the
    admin and added twice to her cart by a customer. *)

Definition Qmul_int (q : Z) (p : Q) : Q := (inject_Z q * p)%Q.

Definition Qsum (l : list Q) : Q := fold_left Qplus l 0%Q.

(** No rational is NaN. *)
Definition Q_float : PyFloat :=
  {| float := Q; int_mul_float := Qmul_int; py_sum := Qsum;
     isnan := fun _ => false |}.

Section Shop.
#[local] Existing Instance Q_float.

Definition root : User :=
  {| u_id := 1; username := "admin"; email := "admin@gmail.com";
     password_hash := "pbkdf2"; is_admin := true |}.

Definition alice : User :=
  {| u_id := 2; username := "alice"; email := "alice@example.com";
     password_hash := "pbkdf2"; is_admin := false |}.

Definition bob : User :=
  {| u_id := 3; username := "bob"; email := "bob@example.com";
     password_hash := "pbkdf2"; is_admin := false |}.

Definition laptop (stock : Z) : product_form :=
  {| f_name := "Laptop"; f_description := "High-performance laptop";
     f_price := (10 # 1)%Q; f_stock := stock; f_image_url := "" |}.

Definition shop_requests (stock : Z) : list (option User * request) :=
  [ (Some root, AdminAddProduct POST (laptop stock) 0);
    (Some alice, AddToCart 1);
    (Some alice, AddToCart 1) ].

Definition shop (stock : Z) : Database :=
  serve (shop_requests stock) empty_db.

Definition alice_line : CartItem :=
  {| c_id := 1; c_user_id := 2; c_product_id := 1; c_quantity := 2 |}.

Definition after_checkout : Database :=
  snd (checkout 100 (Some alice) (shop 5)).

(** The laptop form again, at a new price. *)
Definition repriced_laptop : product_form :=
  {| f_name := "Laptop"; f_description := "High-performance laptop";
     f_price := (12 # 1)%Q; f_stock := 3; f_image_url := "" |}.

Definition tablet : product_form :=
  {| f_name := "Tablet"; f_description := "10-inch tablet with stylus";
     f_price := (9 # 2)%Q; f_stock := 20; f_image_url := "" |}.

(** The largest quantity SQLite holds, typed into Alice's line. *)
Definition brimming_requests : list (option User * request) :=
  shop_requests 5 ++ [ (Some alice, UpdateCart 1 9223372036854775807) ].

Definition brimming_shop : Database := serve brimming_requests empty_db.

Definition brimming_line : CartItem :=
  {| c_id := 1; c_user_id := 2; c_product_id := 1;
     c_quantity := 9223372036854775807 |}.

(** Two products; Alice holds two laptops, Bob one tablet. *)
Definition busy_shop : Database :=
  serve (shop_requests 5 ++
         [ (Some root, AdminAddProduct POST tablet 1);
           (Some bob, AddToCart 2) ]) empty_db.

End Shop.

(** ** Prices that may be NaN

    Rationals and one NaN, which absorbs products and sums as the
    float NaN does. *)

Inductive Qnan :=
| rational (q : Q)
| not_a_number.

Definition Qnan_mul_int (n : Z) (x : Qnan) : Qnan :=
  match x with
  | rational q => rational (Qmul_int n q)
  | not_a_number => not_a_number
  end.

Definition Qnan_add (x y : Qnan) : Qnan :=
  match x, y with
  | rational p, rational q => rational (p + q)%Q
  | _, _ => not_a_number
  end.

Definition Qnan_float : PyFloat :=
  {| float := Qnan; int_mul_float := Qnan_mul_int;
     py_sum := fun l => fold_left Qnan_add l (rational 0%Q);
     isnan := fun x => match x with
                       | not_a_number => true
                       | rational _ => false
                       end |}.

Section Nan_sample.
#[local] Existing Instance Qnan_float.

Definition pen (price : float) : product_form :=
  {| f_name := "Pen"; f_description := "Ballpoint"; f_price := price;
     f_stock := 5; f_image_url := "" |}.

(** A pen at 3, one of them bought by Alice. *)
Definition stationer : Database :=
  serve [ (Some root, AdminAddProduct POST (pen (rational (3 # 1)%Q)) 0);
          (Some alice, AddToCart 1);
          (Some alice, Checkout 1) ] empty_db.

Definition nan_total (new_status : string) : order_form :=
  {| of_status := new_status; of_total_amount := Some not_a_number |}.

Definition nan_order (user_id : Z) : create_order_form :=
  {| co_user_id := user_id; co_total_amount := not_a_number;
     co_status := "pending" |}.

(** The admin types NaN and numbers SQLite cannot hold wherever a form
    takes one; Alice does the same to her cart. *)
Definition careless_day : list (option Z * site_request) :=
  [ (Some 2, Core (AddToCart 1));
    (Some 2, Core (UpdateCart 1 9223372036854775808));
    (Some 2, Core (UpdateCart 1 9223372036854775807));
    (Some 2, Core (AddToCart 1));
    (Some 1, Core (AdminEditProduct POST 1 (pen not_a_number)));
    (Some 1, Core (AdminAddProduct POST (pen not_a_number) 3));
    (Some 1, AdminEditOrder POST 1 (nan_total "paid"));
    (Some 1, AdminCreateOrder POST (nan_order 2) 4);
    (Some 2, Core (Checkout 5)) ].

Definition stationery : Store :=
  {| accounts := [root; alice]; database := stationer |}.

End Nan_sample.

(** ** A concrete site

    A stand-in for werkzeug (the hash is the password behind a salt
    mark), exact rationals for the sample prices, and a user table for
    the shop above. *)

Definition toy_hash (password : string) : string := String.append "salt$" password.

Definition Toy_werkzeug : Werkzeug :=
  {| check_password_hash := fun h password => String.eqb h (toy_hash password) |}.

Definition Q_of_literal (s : string) : Q :=
  if String.eqb s "999.99" then (99999 # 100)%Q
  else if String.eqb s "699.99" then (69999 # 100)%Q
  else if String.eqb s "199.99" then (19999 # 100)%Q
  else if String.eqb s "449.99" then (44999 # 100)%Q
  else 0%Q.

Section Site_sample.
#[local] Existing Instance Q_float.
#[local] Existing Instance Toy_werkzeug.

Definition members : list User := [root; alice; bob].

Definition carol_form : register_form :=
  {| rf_username := "carol"; rf_email := "carol@example.com";
     rf_password := "s3cret" |}.

(** A username that is Alice's email address. *)
Definition mallory_form : register_form :=
  {| rf_username := "alice@example.com"; rf_email := "mallory@example.com";
     rf_password := "letmein" |}.

(** The shop after Alice's checkout, with its user table. *)
Definition site : Store := {| accounts := members; database := after_checkout |}.

(** The site once the start-up block has run on empty tables. *)
Definition opened : Store :=
  match startup Q_of_literal (toy_hash "123456") 0 empty_store with
  | Some st => st
  | None => empty_store
  end.

(** Carol registers and shops; the admin then edits and deletes. *)
Definition carol_day : list (option Z * site_request) :=
  [ (None, Register POST carol_form (toy_hash "s3cret"));
    (Some 2, Core (AddToCart 1));
    (Some 2, Core (AddToCart 1));
    (Some 2, Core (AddToCart 4));
    (Some 2, Core (UpdateCart 2 0));
    (Some 2, Core (Checkout 10));
    (Some 2, Core (AddToCart 3));
    (Some 1, AdminDeleteProduct 2);
    (Some 1, AdminEditOrder POST 1
               {| of_status := "shipped"; of_total_amount := None |});
    (Some 1, AdminCreateOrder POST
               {| co_user_id := 2; co_total_amount := (5 # 1)%Q;
                  co_status := "pending" |} 20);
    (Some 1, AdminDeleteOrder 2) ].

(** Requests none of which comes from the admin's session. *)
Definition customers_day : list (option Z * site_request) :=
  [ (None, Register POST carol_form (toy_hash "s3cret"));
    (Some 2, Core (AdminAddProduct POST (laptop 1) 5));
    (Some 2, Core (AddToCart 1));
    (Some 2, Core (Checkout 10));
    (Some 2, AdminDeleteOrder 1);
    (Some 2, Core (AdminUpdateOrderStatus 1 "delivered")) ].

Definition order_for (user_id : Z) : create_order_form :=
  {| co_user_id := user_id; co_total_amount := (5 # 1)%Q; co_status := "pending" |}.

Definition shipped : order_form :=
  {| of_status := "shipped"; of_total_amount := None |}.

Definition shipped_for_one : order_form :=
  {| of_status := "shipped"; of_total_amount := Some (1 # 1)%Q |}.

Definition no_item : OrderItem :=
  {| oi_id := 0; oi_order_id := 0; oi_product_id := 0; oi_quantity := 0;
     oi_price := 0%Q |}.

End Site_sample.

(** * Facts about tables *)

Section AppFacts.
Context {py_float : PyFloat}.

Section TableFacts.
Context {A : Type} {model : Model A}.

Lemma get_Some (id : Z) (t : list A) (r : A) :
  get id t = Some r -> In r t /\ pk r = id.
Proof.
  unfold get. intros E. apply find_some in E. destruct E as [HIn E].
  split; [assumption | now apply Z.eqb_eq].
Qed.

Lemma find_map_stable (P : A -> bool) (g : A -> A) (t : list A) :
  (forall r, P (g r) = P r) ->
  find P (map g t) = option_map g (find P t).
Proof.
  intros Hg. induction t as [|a t IH]; simpl; [reflexivity|].
  rewrite Hg. destruct (P a); [reflexivity | exact IH].
Qed.

Lemma filter_map_stable (P : A -> bool) (g : A -> A) (t : list A) :
  (forall r, P (g r) = P r) ->
  filter P (map g t) = map g (filter P t).
Proof.
  intros Hg. induction t as [|a t IH]; simpl; [reflexivity|].
  rewrite Hg. destruct (P a); simpl; now rewrite IH.
Qed.

Lemma pk_update_stable (id j : Z) (f : A -> A) (r : A) :
  (forall x, pk (f x) = pk x) ->
  (pk (if pk r =? id then f r else r) =? j) = (pk r =? j).
Proof. intros Hf. destruct (pk r =? id); [now rewrite Hf | reflexivity]. Qed.

Lemma get_update_same (id : Z) (f : A -> A) (t : list A) :
  (forall x, pk (f x) = pk x) ->
  get id (update id f t) = option_map f (get id t).
Proof.
  intros Hf. unfold get, update.
  rewrite find_map_stable by (intros r; now apply pk_update_stable).
  destruct (find _ t) as [r|] eqn:E; simpl; [|reflexivity].
  apply find_some in E. destruct E as [_ E]. now rewrite E.
Qed.

Lemma get_update_other (id j : Z) (f : A -> A) (t : list A) :
  (forall x, pk (f x) = pk x) -> j <> id ->
  get j (update id f t) = get j t.
Proof.
  intros Hf Hne. unfold get, update.
  rewrite find_map_stable by (intros r; now apply pk_update_stable).
  destruct (find _ t) as [r|] eqn:E; simpl; [|reflexivity].
  apply find_some in E. destruct E as [_ E]. apply Z.eqb_eq in E.
  destruct (pk r =? id) eqn:E'; [|reflexivity].
  apply Z.eqb_eq in E'. congruence.
Qed.

Lemma get_delete_same (id : Z) (t : list A) : get id (delete id t) = None.
Proof.
  unfold get, delete. induction t as [|a t IH]; simpl; [reflexivity|].
  destruct (pk a =? id) eqn:E; simpl; [exact IH | now rewrite E].
Qed.

Lemma get_delete_other (id j : Z) (t : list A) :
  j <> id -> get j (delete id t) = get j t.
Proof.
  intros Hne. unfold get, delete. induction t as [|a t IH]; simpl; [reflexivity|].
  destruct (pk a =? id) eqn:E; simpl.
  - apply Z.eqb_eq in E. destruct (pk a =? j) eqn:E'; [|exact IH].
    apply Z.eqb_eq in E'. congruence.
  - destruct (pk a =? j); [reflexivity | exact IH].
Qed.

Lemma pk_lt_next_id (r : A) (t : list A) : In r t -> pk r < next_id t.
Proof.
  unfold next_id. induction t as [|a t IH]; cbn [In map fold_right]; [tauto|].
  intros [->|HIn]; [lia | specialize (IH HIn); lia].
Qed.

Lemma get_next_id (t : list A) : get (next_id t) t = None.
Proof.
  destruct (get (next_id t) t) as [r|] eqn:E; [|reflexivity].
  apply get_Some in E. destruct E as [HIn E].
  apply pk_lt_next_id in HIn. lia.
Qed.

Lemma find_app (P : A -> bool) (t t' : list A) :
  find P (t ++ t') = match find P t with Some r => Some r | None => find P t' end.
Proof.
  induction t as [|a t IH]; simpl; [reflexivity|].
  destruct (P a); [reflexivity | exact IH].
Qed.

Lemma find_none_filter (P : A -> bool) (t : list A) :
  find P t = None -> filter P t = [].
Proof.
  induction t as [|a t IH]; simpl; [reflexivity|].
  destruct (P a); [discriminate | exact IH].
Qed.

Lemma length_update (id : Z) (f : A -> A) (t : list A) :
  List.length (update id f t) = List.length t.
Proof. unfold update. apply length_map. Qed.

Lemma NoDup_pk_eq (t : list A) (a b : A) :
  NoDup (map pk t) -> In a t -> In b t -> pk a = pk b -> a = b.
Proof.
  induction t as [|x t IH]; cbn [map In]; [tauto|].
  intros Hnd Ha Hb Heq. inversion Hnd as [|? ? Hnotin Hnd']; subst.
  destruct Ha as [->|Ha], Hb as [->|Hb]; auto.
  - exfalso. apply Hnotin. rewrite Heq. now apply in_map.
  - exfalso. apply Hnotin. rewrite <- Heq. now apply in_map.
Qed.

Lemma filter_le1_eq (P : A -> bool) (t : list A) (a b : A) :
  (List.length (filter P t) <= 1)%nat ->
  In a t -> P a = true -> In b t -> P b = true -> a = b.
Proof.
  intros Hlen Ha HPa Hb HPb.
  assert (Ha' : In a (filter P t)) by (apply filter_In; auto).
  assert (Hb' : In b (filter P t)) by (apply filter_In; auto).
  destruct (filter P t) as [|x [|y l]]; simpl in *; try tauto; try lia.
  destruct Ha' as [<-|[]], Hb' as [<-|[]]. reflexivity.
Qed.

Lemma find_unique_hit (P : A -> bool) (t : list A) (a : A) :
  (List.length (filter P t) <= 1)%nat ->
  In a t -> P a = true -> find P t = Some a.
Proof.
  intros Hlen Ha HPa. destruct (find P t) as [b|] eqn:E.
  - apply find_some in E. destruct E as [Hb HPb].
    f_equal. now apply (filter_le1_eq P t).
  - apply (find_none _ _ E) in Ha. congruence.
Qed.

Lemma find_filter_keep (P Q : A -> bool) (t : list A) :
  (forall r, In r t -> P r = true -> Q r = true) ->
  find P (filter Q t) = find P t.
Proof.
  induction t as [|a t IH]; intros Hk; simpl; [reflexivity|].
  assert (IH' : find P (filter Q t) = find P t)
    by (apply IH; intros r Hr; apply Hk; now right).
  destruct (Q a) eqn:EQ; simpl.
  - destruct (P a); [reflexivity | exact IH'].
  - destruct (P a) eqn:EP; [|exact IH'].
    rewrite (Hk a (or_introl eq_refl) EP) in EQ. discriminate.
Qed.

Lemma find_filter_drop (P Q : A -> bool) (t : list A) :
  (forall r, In r t -> P r = true -> Q r = false) ->
  find P (filter Q t) = None.
Proof.
  induction t as [|a t IH]; intros Hd; simpl; [reflexivity|].
  assert (IH' : find P (filter Q t) = None)
    by (apply IH; intros r Hr; apply Hd; now right).
  destruct (Q a) eqn:EQ; simpl; [|exact IH'].
  destruct (P a) eqn:EP; [|exact IH'].
  rewrite (Hd a (or_introl eq_refl) EP) in EQ. discriminate.
Qed.

Lemma filter_filter_keep (P Q : A -> bool) (t : list A) :
  (forall r, P r = true -> Q r = true) ->
  filter P (filter Q t) = filter P t.
Proof.
  intros Hk. induction t as [|a t IH]; [reflexivity|]. cbn [filter].
  destruct (Q a) eqn:EQ; cbn [filter]; destruct (P a) eqn:EP;
    rewrite ?IH; try reflexivity.
  rewrite (Hk a EP) in EQ. discriminate.
Qed.

Lemma length_filter_filter (P Q : A -> bool) (t : list A) :
  (List.length (filter P (filter Q t)) <= List.length (filter P t))%nat.
Proof.
  induction t as [|a t IH]; simpl; [lia|].
  destruct (Q a); simpl; destruct (P a); simpl; lia.
Qed.

Lemma map_pk_update (id : Z) (f : A -> A) (t : list A) :
  (forall x, pk (f x) = pk x) -> map pk (update id f t) = map pk t.
Proof.
  intros Hf. unfold update. rewrite map_map. apply map_ext.
  intros r. destruct (pk r =? id); [apply Hf | reflexivity].
Qed.

Lemma NoDup_map_filter (B : Type) (g : A -> B) (Q : A -> bool) (t : list A) :
  NoDup (map g t) -> NoDup (map g (filter Q t)).
Proof.
  induction t as [|a t IH]; simpl; intros Hnd; [constructor|].
  inversion Hnd as [|? ? Hnotin Hnd']; subst.
  destruct (Q a); simpl; [|now apply IH].
  constructor; [|now apply IH].
  intros Hin. apply Hnotin. apply in_map_iff in Hin.
  destruct Hin as [r [Hr Hin]]. apply filter_In in Hin.
  apply in_map_iff. exists r. tauto.
Qed.

Lemma NoDup_snoc (B : Type) (l : list B) (x : B) :
  NoDup l -> ~ In x l -> NoDup (l ++ [x]).
Proof.
  induction l as [|y l IH]; simpl; intros Hnd Hx.
  - constructor; [tauto | constructor].
  - inversion Hnd as [|? ? Hnotin Hnd']; subst. constructor.
    + rewrite in_app_iff. simpl. intros [Hin|[->|[]]]; tauto.
    + apply IH; tauto.
Qed.

Lemma NoDup_pk_insert (mk : Z -> A) (t : list A) :
  pk (mk (next_id t)) = next_id t ->
  NoDup (map pk t) -> NoDup (map pk (insert mk t)).
Proof.
  intros Hmk Hnd. unfold insert. rewrite map_app. simpl.
  apply NoDup_snoc; [assumption|]. rewrite Hmk.
  intros Hin. apply in_map_iff in Hin. destruct Hin as [r [Hr Hin]].
  apply pk_lt_next_id in Hin. lia.
Qed.

End TableFacts.

Lemma set_quantity_pk (q : Z) (c : CartItem) : pk (set_quantity q c) = pk c.
Proof. reflexivity. Qed.

Lemma set_quantity_is_line (u p q : Z) (c : CartItem) :
  is_line u p (set_quantity q c) = is_line u p c.
Proof. reflexivity. Qed.

(** * The cart *)

(** C3. Checkout on a cart with zero lines flashes "Your cart is empty."
    (the [EmptyCart] failure) and leaves the whole database, hence the
    Order, OrderItem, Product and CartItem tables, as it was. *)
Theorem checkout_empty_cart (utcnow : datetime) (u : User) (db : Database) :
  cart_of (u_id u) db = [] ->
  checkout utcnow (Some u) db =
    (redirect "cart" [("Your cart is empty.", "error")], db).
Proof.
  unfold cart_of. intros Hempty. unfold checkout, login_required.
  now rewrite Hempty.
Qed.

(** C7. [update_cart] and [remove_from_cart] on a line of user A, called
    by a user B with another id, flash "Unauthorized access." and leave
    the database, so also that line and its quantity, unchanged. *)
Theorem cart_ownership_enforced
    (B : User) (item_id quantity : Z) (line : CartItem) (db : Database) :
  get item_id (cart_items db) = Some line ->
  c_user_id line <> u_id B ->
  update_cart item_id quantity (Some B) db =
    (redirect "cart" [("Unauthorized access.", "error")], db) /\
  remove_from_cart item_id (Some B) db =
    (redirect "cart" [("Unauthorized access.", "error")], db).
Proof.
  intros Hget Hne. unfold update_cart, remove_from_cart, login_required.
  rewrite Hget. apply Z.eqb_neq in Hne. rewrite Hne. simpl. split; reflexivity.
Qed.

(** C6 (amended). On a line owned by the caller, [update_cart] with a
    quantity at most 0 deletes the line; with a quantity from 1 up to
    the largest integer SQLite holds it stores exactly that quantity in
    the line, whatever the old quantity and whatever the stock of the
    product; with a larger quantity the commit raises, the answer is
    500 and the line keeps the quantity it had.  Every other line and
    every other table is left alone. *)
Theorem update_cart_overwrites_or_deletes
    (u : User) (item_id quantity : Z) (line : CartItem) (db : Database) :
  get item_id (cart_items db) = Some line ->
  c_user_id line = u_id u ->
  (quantity <= 0 ->
   exists db',
     update_cart item_id quantity (Some u) db =
       (redirect "cart" [("Cart updated!", "success")], db') /\
     products db' = products db /\ orders db' = orders db /\
     order_items db' = order_items db /\
     (forall j, j <> item_id -> get j (cart_items db') = get j (cart_items db)) /\
     get item_id (cart_items db') = None /\
     cart_items db' = delete item_id (cart_items db)) /\
  (1 <= quantity <= 9223372036854775807 ->
   exists db' line',
     update_cart item_id quantity (Some u) db =
       (redirect "cart" [("Cart updated!", "success")], db') /\
     products db' = products db /\ orders db' = orders db /\
     order_items db' = order_items db /\
     (forall j, j <> item_id -> get j (cart_items db') = get j (cart_items db)) /\
     get item_id (cart_items db') = Some line' /\
     c_quantity line' = quantity /\
     c_id line' = c_id line /\ c_user_id line' = c_user_id line /\
     c_product_id line' = c_product_id line /\
     cart_items db' = update item_id (set_quantity quantity) (cart_items db)) /\
  (9223372036854775807 < quantity ->
   update_cart item_id quantity (Some u) db = (abort 500, db)).
Proof.
  intros Hget Hown. unfold update_cart, login_required, commit_cart. rewrite Hget.
  apply Z.eqb_eq in Hown. rewrite Hown. cbn [negb].
  destruct (get_Some _ _ _ Hget) as [_ Hpk]. cbn in Hpk. rewrite Hpk.
  split; [|split].
  - intros Hq. apply Z.leb_le in Hq. rewrite Hq.
    eexists. split; [reflexivity|].
    cbn [products orders order_items cart_items with_cart_items].
    do 3 (split; [reflexivity|]).
    split; [intros j Hj; now apply get_delete_other|].
    split; [apply get_delete_same | reflexivity].
  - intros Hq.
    assert (Hpos : (quantity <=? 0) = false) by (apply Z.leb_gt; lia).
    assert (Hfits : sqlite_integer quantity = true)
      by (unfold sqlite_integer; apply andb_true_iff; split; apply Z.leb_le; lia).
    rewrite Hpos, Hfits.
    eexists. exists (set_quantity quantity line). split; [reflexivity|].
    cbn [products orders order_items cart_items with_cart_items].
    do 3 (split; [reflexivity|]).
    split; [intros j Hj; apply get_update_other;
            [apply set_quantity_pk | assumption]|].
    split; [rewrite get_update_same by apply set_quantity_pk; now rewrite Hget|].
    repeat split; exact Hpk.
  - intros Hq.
    assert (Hpos : (quantity <=? 0) = false) by (apply Z.leb_gt; lia).
    assert (Hfits : sqlite_integer quantity = false).
    { unfold sqlite_integer. apply andb_false_iff. right. apply Z.leb_gt. lia. }
    now rewrite Hpos, Hfits.
Qed.

(** C5 (amended). [add_to_cart]: a product id without a row changes
    nothing and is answered 404, or 500 when the id is beyond what
    SQLite can bind.  For a known product: when the caller has a line
    for it whose quantity is below the largest integer SQLite holds, the
    request succeeds and the line's quantity is one more; when the line
    is at that largest integer, the commit raises, the answer is 500 and
    nothing changes; when the caller has no line for it, the request
    succeeds and appends a line of quantity 1.  Stock plays no part: the
    response and the resulting cart are the same for every stock value
    the product could have. *)
Theorem add_to_cart_increments_or_creates
    (u : User) (product_id : Z) (db : Database) :
  (get product_id (products db) = None ->
   add_to_cart product_id (Some u) db =
     (abort (if sqlite_integer product_id then 404 else 500), db)) /\
  (forall product, get product_id (products db) = Some product ->
   (forall item,
      find (is_line (u_id u) product_id) (cart_items db) = Some item ->
      (-9223372036854775808 <= c_quantity item < 9223372036854775807 ->
       exists db' item',
         add_to_cart product_id (Some u) db =
           (redirect "home"
              [(String.append (p_name product) " added to cart!", "success")], db') /\
         products db' = products db /\ orders db' = orders db /\
         order_items db' = order_items db /\
         find (is_line (u_id u) product_id) (cart_items db') = Some item' /\
         c_quantity item' = c_quantity item + 1 /\
         c_id item' = c_id item /\
         cart_items db' =
           update (c_id item) (set_quantity (c_quantity item + 1)) (cart_items db)) /\
      (9223372036854775807 <= c_quantity item ->
       add_to_cart product_id (Some u) db = (abort 500, db))) /\
   (find (is_line (u_id u) product_id) (cart_items db) = None ->
    exists db',
      add_to_cart product_id (Some u) db =
        (redirect "home"
           [(String.append (p_name product) " added to cart!", "success")], db') /\
      products db' = products db /\ orders db' = orders db /\
      order_items db' = order_items db /\
      cart_items db' =
        cart_items db ++
          [{| c_id := next_id (cart_items db); c_user_id := u_id u;
              c_product_id := product_id; c_quantity := 1 |}])) /\
  (forall n,
     let db_n := with_products db (update product_id (set_stock n) (products db)) in
     fst (add_to_cart product_id (Some u) db_n) =
       fst (add_to_cart product_id (Some u) db) /\
     cart_items (snd (add_to_cart product_id (Some u) db_n)) =
       cart_items (snd (add_to_cart product_id (Some u) db))).
Proof.
  unfold add_to_cart, login_required, commit_cart, missing. split; [|split].
  - intros Hnone. now rewrite Hnone.
  - intros product Hget. rewrite Hget. split.
    + intros item Hfind. rewrite Hfind. split.
      * intros Hstored.
        assert (Hfits : sqlite_integer (c_quantity item + 1) = true).
        { unfold sqlite_integer. apply andb_true_iff. split; apply Z.leb_le; lia. }
        rewrite Hfits. eexists.
        exists (set_quantity (c_quantity item + 1) item).
        split; [reflexivity|].
        cbn [products orders order_items cart_items with_cart_items].
        do 3 (split; [reflexivity|]).
        split; [|repeat split].
        unfold update.
        rewrite find_map_stable
          by (intros r; destruct (pk r =? c_id item); reflexivity).
        rewrite Hfind. cbn [option_map pk CartItem_Model]. now rewrite Z.eqb_refl.
      * intros Htop.
        assert (Hfits : sqlite_integer (c_quantity item + 1) = false).
        { unfold sqlite_integer. apply andb_false_iff. right.
          apply Z.leb_gt. lia. }
        now rewrite Hfits.
    + intros Hfind. rewrite Hfind. eexists. split; [reflexivity|].
      repeat split.
  - intros n. cbn [products cart_items with_products].
    rewrite get_update_same by reflexivity.
    destruct (get product_id (products db)) as [product|];
      cbn [option_map]; [|split; reflexivity].
    destruct (find _ (cart_items db)) as [item|]; [|split; reflexivity].
    destruct (sqlite_integer (c_quantity item + 1)); split; reflexivity.
Qed.

(** * The cart invariant *)

Lemma is_line_keys (a b u p : Z) (c : CartItem) :
  is_line a b c = true -> is_line u p c = (a =? u) && (b =? p).
Proof.
  unfold is_line. intros H. apply andb_true_iff in H. destruct H as [H1 H2].
  apply Z.eqb_eq in H1, H2. now rewrite H1, H2.
Qed.

Lemma find_update_line (u p q : Z) (line : CartItem) (t : list CartItem) :
  NoDup (map c_id t) ->
  (List.length (filter (is_line u p) t) <= 1)%nat ->
  In line t ->
  option_map c_quantity
    (find (is_line u p) (update (c_id line) (set_quantity q) t)) =
  if is_line u p line then Some q
  else option_map c_quantity (find (is_line u p) t).
Proof.
  intros Hnd Hlen Hin. unfold update.
  rewrite find_map_stable
    by (intros r; destruct (pk r =? c_id line); reflexivity).
  destruct (is_line u p line) eqn:E.
  - rewrite (find_unique_hit _ _ line) by assumption.
    simpl. now rewrite Z.eqb_refl.
  - destruct (find (is_line u p) t) as [l|] eqn:F; simpl; [|reflexivity].
    apply find_some in F. destruct F as [Hl HPl].
    destruct (c_id l =? c_id line) eqn:Eid; [|reflexivity].
    apply Z.eqb_eq in Eid.
    assert (l = line) by (apply (NoDup_pk_eq t); assumption). congruence.
Qed.

Lemma find_delete_line (u p : Z) (line : CartItem) (t : list CartItem) :
  NoDup (map c_id t) ->
  (List.length (filter (is_line u p) t) <= 1)%nat ->
  In line t ->
  find (is_line u p) (delete (c_id line) t) =
  if is_line u p line then None else find (is_line u p) t.
Proof.
  intros Hnd Hlen Hin. unfold delete. destruct (is_line u p line) eqn:E.
  - apply find_filter_drop. intros r Hr HP.
    assert (r = line) by (apply (filter_le1_eq (is_line u p) t); assumption).
    subst r. simpl. now rewrite Z.eqb_refl.
  - apply find_filter_keep. intros r Hr HP.
    apply negb_true_iff, Z.eqb_neq. intros Heq.
    assert (r = line) by (apply (NoDup_pk_eq t); assumption). congruence.
Qed.

Lemma sqlite_integer_spec (n : Z) :
  sqlite_integer n = true <-> -9223372036854775808 <= n <= 9223372036854775807.
Proof.
  unfold sqlite_integer. rewrite andb_true_iff, !Z.leb_le. tauto.
Qed.

(** What one turn of the checkout loop did, when it did not raise. *)
Lemma place_item_inv (oid : Z) (db db' : Database) (c : CartItem) :
  place_item oid db c = Some db' ->
  exists product,
    get (c_product_id c) (products db) = Some product /\
    sqlite_integer (p_stock product - c_quantity c) = true /\
    db' =
      with_products
        (with_order_items db
           (insert (fun id => {| oi_id := id; oi_order_id := oid;
                                 oi_product_id := c_product_id c;
                                 oi_quantity := c_quantity c;
                                 oi_price := p_price product |})
                   (order_items db)))
        (update (p_id product) (set_stock (p_stock product - c_quantity c))
                (products db)).
Proof.
  unfold place_item, bind.
  destruct (get (c_product_id c) (products db)) as [product|]; [|discriminate].
  destruct (sqlite_integer (p_stock product - c_quantity c)) eqn:Hfits;
    [|discriminate].
  intros E. inversion E; subst. exists product.
  split; [reflexivity|]. split; [exact Hfits | reflexivity].
Qed.

Lemma place_item_frame (oid : Z) (db db' : Database) (c : CartItem) :
  place_item oid db c = Some db' ->
  cart_items db' = cart_items db /\ orders db' = orders db.
Proof.
  intros E. destruct (place_item_inv _ _ _ _ E) as [product [_ [_ ->]]].
  split; reflexivity.
Qed.

Lemma foldM_place_item_frame (oid : Z) (cart : list CartItem) :
  forall db db', foldM (place_item oid) cart db = Some db' ->
  cart_items db' = cart_items db /\ orders db' = orders db.
Proof.
  induction cart as [|c cart IH]; simpl; intros db db' E.
  - inversion E; subst. split; reflexivity.
  - unfold bind in E. destruct (place_item oid db c) as [db1|] eqn:E1; [|discriminate].
    apply place_item_frame in E1. apply IH in E. destruct E1, E.
    split; congruence.
Qed.

(** What the transaction of a checkout did, when it did not raise. *)
Lemma checkout_txn_steps (utcnow : datetime) (u : User) (db db' : Database)
    (cart : list CartItem) :
  checkout_txn utcnow u db cart = Some db' ->
  exists totals db2,
    mapM (line_total db) cart = Some totals /\
    isnan (py_sum totals) = false /\
    foldM (place_item (next_id (orders db))) cart
      (with_orders db
         (orders db ++
            [{| o_id := next_id (orders db); o_user_id := u_id u;
                total_amount := py_sum totals; status := "pending";
                created_at := utcnow |}])) = Some db2 /\
    db' = with_cart_items db2
            (filter (fun c => negb (owned_by (u_id u) c)) (cart_items db2)).
Proof.
  unfold checkout_txn, bind.
  destruct (mapM (line_total db) cart) as [totals|]; [|discriminate].
  destruct (isnan (py_sum totals)) eqn:Hnan; [discriminate|].
  cbn [o_id].
  destruct (foldM _ cart _) as [db2|] eqn:F; [|discriminate].
  intros E. inversion E; subst. exists totals, db2.
  split; [reflexivity|]. split; [exact Hnan|]. split; [exact F | reflexivity].
Qed.

Lemma checkout_cart_items (utcnow : datetime) (u : User) (db : Database) :
  cart_items (snd (checkout utcnow (Some u) db)) =
  if is_success (fst (checkout utcnow (Some u) db))
  then filter (fun c => negb (owned_by (u_id u) c)) (cart_items db)
  else cart_items db.
Proof.
  unfold checkout, login_required.
  destruct (filter (owned_by (u_id u)) (cart_items db)) as [|c cart]; [reflexivity|].
  destruct (checkout_txn utcnow u db (c :: cart)) as [db'|] eqn:T; [|reflexivity].
  destruct (checkout_txn_steps _ _ _ _ _ T) as [totals [db2 [_ [_ [F ->]]]]].
  apply foldM_place_item_frame in F. destruct F as [F _].
  cbn [cart_items with_orders] in F. cbn [fst snd is_success String.eqb].
  cbn [cart_items with_cart_items]. now rewrite F.
Qed.

Lemma admin_views_keep_cart (actor : option User) (db : Database) :
  (forall m form utcnow,
     cart_items (snd (admin_add_product m form utcnow actor db)) = cart_items db) /\
  (forall m pid form,
     cart_items (snd (admin_edit_product m pid form actor db)) = cart_items db) /\
  (forall oid s,
     cart_items (snd (admin_update_order_status oid s actor db)) = cart_items db).
Proof.
  unfold admin_add_product, admin_edit_product, admin_update_order_status,
    login_required, admin_required.
  destruct actor as [a|]; [|repeat split; reflexivity].
  destruct (is_admin a); simpl; [|repeat split; reflexivity].
  split; [|split].
  - intros [] form utcnow; [|destruct (storable form)]; reflexivity.
  - intros [] pid form; destruct (get pid (products db));
      [|reflexivity|destruct (storable form)|]; reflexivity.
  - intros oid s; destruct (get oid (orders db)); reflexivity.
Qed.

Lemma cart_wf_ext (db db' : Database) :
  cart_items db' = cart_items db -> cart_wf db -> cart_wf db'.
Proof. unfold cart_wf, lines_of. intros ->. tauto. Qed.

Lemma cart_wf_filter (Q : CartItem -> bool) (db db' : Database) :
  cart_items db' = filter Q (cart_items db) -> cart_wf db -> cart_wf db'.
Proof.
  unfold cart_wf, lines_of. intros -> [Hnd Huniq]. split.
  - now apply NoDup_map_filter.
  - intros u p. specialize (Huniq u p).
    pose proof (length_filter_filter (is_line u p) Q (cart_items db)). lia.
Qed.

Lemma cart_wf_update (id q : Z) (db db' : Database) :
  cart_items db' = update id (set_quantity q) (cart_items db) ->
  cart_wf db -> cart_wf db'.
Proof.
  unfold cart_wf, lines_of. intros -> [Hnd Huniq]. split.
  - change (NoDup (map pk (update id (set_quantity q) (cart_items db)))).
    now rewrite map_pk_update by reflexivity.
  - intros u p. unfold update.
    rewrite filter_map_stable
      by (intros r; destruct (pk r =? id); reflexivity).
    rewrite length_map. apply Huniq.
Qed.

Lemma cart_wf_insert (u p : Z) (db db' : Database) :
  find (is_line u p) (cart_items db) = None ->
  cart_items db' =
    insert (fun id => {| c_id := id; c_user_id := u;
                         c_product_id := p; c_quantity := 1 |}) (cart_items db) ->
  cart_wf db -> cart_wf db'.
Proof.
  unfold cart_wf, lines_of. intros Hfind -> [Hnd Huniq]. split.
  - change (@map CartItem Z c_id) with (@map CartItem Z pk).
    apply NoDup_pk_insert; [reflexivity | assumption].
  - intros u' p'. unfold insert. rewrite filter_app. cbn [filter].
    destruct (is_line u' p' _) eqn:E.
    + unfold is_line in E. cbn in E. apply andb_true_iff in E.
      destruct E as [E1 E2]. apply Z.eqb_eq in E1, E2. subst u' p'.
      now rewrite (find_none_filter _ _ Hfind).
    + rewrite app_nil_r. apply Huniq.
Qed.

Lemma handle_cart_wf (db : Database) (req : option User * request) :
  cart_wf db -> cart_wf (handle db req).
Proof.
  intros Hwf. destruct req as [actor r]. unfold handle. cbn [fst snd].
  destruct (admin_views_keep_cart actor db) as [Hadd [Hedit Hstatus]].
  destruct r; cbn [dispatch];
    try (eapply cart_wf_ext; [|exact Hwf]; auto; fail).
  - unfold add_to_cart, login_required, commit_cart.
    destruct actor as [a|]; [|exact Hwf].
    destruct (get product_id (products db)); [|exact Hwf].
    destruct (find _ (cart_items db)) as [item|] eqn:F.
    + destruct (sqlite_integer _); [|exact Hwf].
      eapply cart_wf_update; [|exact Hwf]. reflexivity.
    + eapply cart_wf_insert; [exact F| |exact Hwf]. reflexivity.
  - unfold update_cart, login_required, commit_cart.
    destruct actor as [a|]; [|exact Hwf].
    destruct (get item_id (cart_items db)) as [line|]; [|exact Hwf].
    destruct (negb _); [exact Hwf|].
    destruct (quantity <=? 0).
    + eapply cart_wf_filter; [|exact Hwf]. reflexivity.
    + destruct (sqlite_integer quantity); [|exact Hwf].
      eapply cart_wf_update; [|exact Hwf]. reflexivity.
  - unfold remove_from_cart, login_required. destruct actor as [a|]; [|exact Hwf].
    destruct (get item_id (cart_items db)) as [line|]; [|exact Hwf].
    destruct (negb _); [exact Hwf|]. cbn [snd].
    eapply cart_wf_filter; [|exact Hwf]. reflexivity.
  - destruct actor as [a|]; [|exact Hwf].
    pose proof (checkout_cart_items utcnow a db) as Hc.
    destruct (is_success _).
    + eapply cart_wf_filter; [exact Hc | exact Hwf].
    + eapply cart_wf_ext; [exact Hc | exact Hwf].
  - unfold order_history, login_required. destruct actor; exact Hwf.
Qed.

Lemma serve_cart_wf (reqs : list (option User * request)) :
  forall db, cart_wf db -> cart_wf (serve reqs db).
Proof.
  induction reqs as [|req reqs IH]; intros db Hwf; [exact Hwf|].
  apply IH. now apply handle_cart_wf.
Qed.

(** The ways each cart route ends. *)
Lemma add_to_cart_cases (pid : Z) (a : User) (db : Database) :
  (is_success (fst (add_to_cart pid (Some a) db)) = false /\
   snd (add_to_cart pid (Some a) db) = db) \/
  (exists product item,
     get pid (products db) = Some product /\
     find (is_line (u_id a) pid) (cart_items db) = Some item /\
     sqlite_integer (c_quantity item + 1) = true /\
     is_success (fst (add_to_cart pid (Some a) db)) = true /\
     snd (add_to_cart pid (Some a) db) =
       with_cart_items db
         (update (c_id item) (set_quantity (c_quantity item + 1)) (cart_items db))) \/
  (exists product,
     get pid (products db) = Some product /\
     find (is_line (u_id a) pid) (cart_items db) = None /\
     is_success (fst (add_to_cart pid (Some a) db)) = true /\
     snd (add_to_cart pid (Some a) db) =
       with_cart_items db
         (insert (fun id => {| c_id := id; c_user_id := u_id a;
                               c_product_id := pid; c_quantity := 1 |})
                 (cart_items db))).
Proof.
  unfold add_to_cart, login_required, commit_cart.
  destruct (get pid (products db)) as [product|]; [|left; split; reflexivity].
  destruct (find _ (cart_items db)) as [item|].
  - destruct (sqlite_integer (c_quantity item + 1)) eqn:Hfits;
      [|left; split; reflexivity].
    right; left. exists product, item. repeat split. exact Hfits.
  - right; right. exists product. repeat split.
Qed.

Lemma update_cart_cases (id q : Z) (a : User) (db : Database) :
  (is_success (fst (update_cart id q (Some a) db)) = false /\
   snd (update_cart id q (Some a) db) = db) \/
  (exists line,
     get id (cart_items db) = Some line /\ c_user_id line = u_id a /\
     is_success (fst (update_cart id q (Some a) db)) = true /\
     ((q <= 0 /\
       snd (update_cart id q (Some a) db) =
         with_cart_items db (delete (c_id line) (cart_items db))) \/
      (1 <= q /\ sqlite_integer q = true /\
       snd (update_cart id q (Some a) db) =
         with_cart_items db (update (c_id line) (set_quantity q) (cart_items db))))).
Proof.
  unfold update_cart, login_required, commit_cart.
  destruct (get id (cart_items db)) as [line|]; [|left; split; reflexivity].
  destruct (c_user_id line =? u_id a) eqn:Hown; cbn [negb];
    [|left; split; reflexivity].
  apply Z.eqb_eq in Hown.
  destruct (q <=? 0) eqn:Hq.
  - apply Z.leb_le in Hq. right. exists line. repeat split; try assumption.
    left. split; [assumption | reflexivity].
  - apply Z.leb_gt in Hq.
    destruct (sqlite_integer q) eqn:Hfits; [|left; split; reflexivity].
    right. exists line. repeat split; try assumption.
    right. split; [lia|]. split; reflexivity.
Qed.

Lemma remove_from_cart_cases (id : Z) (a : User) (db : Database) :
  (is_success (fst (remove_from_cart id (Some a) db)) = false /\
   snd (remove_from_cart id (Some a) db) = db) \/
  (exists line,
     get id (cart_items db) = Some line /\ c_user_id line = u_id a /\
     is_success (fst (remove_from_cart id (Some a) db)) = true /\
     snd (remove_from_cart id (Some a) db) =
       with_cart_items db (delete (c_id line) (cart_items db))).
Proof.
  unfold remove_from_cart, login_required.
  destruct (get id (cart_items db)) as [line|]; [|left; split; reflexivity].
  destruct (c_user_id line =? u_id a) eqn:Hown; cbn [negb];
    [|left; split; reflexivity].
  apply Z.eqb_eq in Hown. right. exists line. repeat split. assumption.
Qed.

Lemma handle_line_quantity (u p : Z) (db : Database)
    (req : option User * request) :
  cart_wf db ->
  line_quantity u p (handle db req) =
  tally (line_quantity u p db) (cart_event_of u p db req).
Proof.
  intros [Hnd Huniq]. specialize (Huniq u p). unfold lines_of in Huniq.
  destruct req as [actor r]. unfold handle, line_quantity, cart_event_of.
  cbn [fst snd].
  destruct (admin_views_keep_cart actor db) as [Hadd [Hedit Hstatus]].
  destruct actor as [a|]; [|destruct r; reflexivity].
  destruct r; cbn [dispatch cart_call_of].
  - destruct (add_to_cart_cases product_id a db)
      as [[-> ->]|[[product [item [G [F [_ [-> ->]]]]]]
                  |[product [G [F [-> ->]]]]]];
      [reflexivity| |]; rewrite G; cbn [cart_items with_cart_items].
    + destruct (find_some _ _ F) as [Hin HP].
      rewrite find_update_line by assumption.
      rewrite (is_line_keys _ _ u p _ HP).
      destruct ((u_id a =? u) && (product_id =? p)) eqn:E; [|reflexivity].
      apply andb_true_iff in E. destruct E as [E1 E2].
      apply Z.eqb_eq in E1, E2. subst u p. now rewrite F.
    + unfold insert. rewrite find_app. cbn [find].
      unfold is_line at 2. cbn [c_user_id c_product_id].
      destruct ((u_id a =? u) && (product_id =? p)) eqn:E.
      * apply andb_true_iff in E. destruct E as [E1 E2].
        apply Z.eqb_eq in E1, E2. subst u p. now rewrite F.
      * destruct (find (is_line u p) (cart_items db)); reflexivity.
  - destruct (update_cart_cases item_id quantity a db)
      as [[-> ->]|[line [G [Hown [-> Hd]]]]]; [reflexivity|].
    rewrite G. apply Z.eqb_eq in Hown. rewrite Hown. cbn [andb].
    destruct (get_Some _ _ _ G) as [Hin _].
    destruct Hd as [[Hq ->]|[Hq [_ ->]]]; cbn [cart_items with_cart_items].
    + apply Z.leb_le in Hq. rewrite Hq.
      rewrite find_delete_line by assumption.
      destruct (is_line u p line); reflexivity.
    + assert (Hpos : (quantity <=? 0) = false) by (apply Z.leb_gt; lia).
      rewrite Hpos. rewrite find_update_line by assumption.
      destruct (is_line u p line); reflexivity.
  - destruct (remove_from_cart_cases item_id a db)
      as [[-> ->]|[line [G [Hown [-> ->]]]]]; [reflexivity|].
    rewrite G. apply Z.eqb_eq in Hown. rewrite Hown. cbn [andb].
    destruct (get_Some _ _ _ G) as [Hin _]. cbn [cart_items with_cart_items].
    rewrite find_delete_line by assumption.
    destruct (is_line u p line); reflexivity.
  - rewrite checkout_cart_items.
    destruct (is_success _); [|reflexivity].
    rewrite andb_true_r. destruct (u_id a =? u) eqn:E; cbn [tally].
    + apply Z.eqb_eq in E. subst u.
      rewrite find_filter_drop; [reflexivity|].
      intros r _ Hr. unfold is_line in Hr. apply andb_true_iff in Hr.
      unfold owned_by. now rewrite (proj1 Hr).
    + rewrite find_filter_keep; [reflexivity|].
      intros r _ Hr. unfold is_line in Hr. apply andb_true_iff in Hr.
      destruct Hr as [Hr _]. apply Z.eqb_eq in Hr.
      unfold owned_by. rewrite Hr, Z.eqb_sym, E. reflexivity.
  - reflexivity.
  - rewrite Hadd. now destruct (is_success _).
  - rewrite Hedit. now destruct (is_success _).
  - rewrite Hstatus. now destruct (is_success _).
Qed.

Lemma fold_tally_adds (evs : list cart_event) :
  forall q,
  Forall (fun e => e = Added \/ e = Untouched) evs ->
  fold_left tally evs q =
    match filter is_added evs with
    | [] => q
    | _ :: _ =>
        Some (match q with Some n => n | None => 0 end
              + Z.of_nat (List.length (filter is_added evs)))
    end.
Proof.
  induction evs as [|e evs IH]; intros q Hall; [reflexivity|].
  inversion Hall as [|? ? He Hall']; subst.
  cbn [fold_left]. rewrite IH by assumption.
  destruct He as [->| ->]; cbn [filter is_added tally]; [|reflexivity].
  destruct (filter is_added evs) as [|e' l]; cbn [List.length].
  - destruct q; f_equal; lia.
  - destruct q; f_equal; lia.
Qed.

(** C4 (amended). Starting from a cart table with distinct ids and at
    most one line per (user, product), after any sequence of requests
    there is still at most one line per pair, and the pair's quantity
    is the tally of the requests on it that were answered with success:
    1 at creation, plus 1 for every later add, replaced by a setQuantity
    overwrite, gone after a deletion or a checkout.  A request that is
    refused (an error, a 404, a 500 when SQLite cannot hold the new
    quantity) counts for nothing.  When the pair had no line and no
    overwrite or deletion occurred, the quantity is the number of adds
    that went through. *)
Theorem cart_line_unique_and_counted
    (reqs : list (option User * request)) (db : Database) (u p : Z) :
  cart_wf db ->
  (List.length (lines_of u p (serve reqs db)) <= 1)%nat /\
  line_quantity u p (serve reqs db) =
    fold_left tally (cart_events u p reqs db) (line_quantity u p db) /\
  (line_quantity u p db = None ->
   Forall (fun e => e = Added \/ e = Untouched) (cart_events u p reqs db) ->
   forall n, List.length (filter is_added (cart_events u p reqs db)) = S n ->
   line_quantity u p (serve reqs db) = Some (Z.of_nat (S n))).
Proof.
  intros Hwf.
  assert (Hq : line_quantity u p (serve reqs db) =
               fold_left tally (cart_events u p reqs db) (line_quantity u p db)).
  { revert db Hwf. induction reqs as [|req reqs IH]; intros db Hwf; [reflexivity|].
    cbn [serve fold_left cart_events].
    rewrite <- handle_line_quantity by assumption.
    apply (IH (handle db req)). now apply handle_cart_wf. }
  split; [|split].
  - apply (serve_cart_wf reqs db Hwf).
  - exact Hq.
  - intros Hnone Hall n Hn. rewrite Hq, Hnone.
    rewrite fold_tally_adds by assumption. rewrite Hn.
    destruct (filter is_added (cart_events u p reqs db)); [discriminate|].
    f_equal.
Qed.

(** * Checkout *)

Lemma set_stock_set_stock (n m : Z) (p : Product) :
  set_stock n (set_stock m p) = set_stock n p.
Proof. reflexivity. Qed.

Lemma set_stock_same (p : Product) : set_stock (p_stock p) p = p.
Proof. now destruct p. Qed.

Lemma place_item_get (oid pid : Z) (db db' : Database) (c : CartItem) (p : Product) :
  place_item oid db c = Some db' ->
  get pid (products db) = Some p ->
  get pid (products db') =
    Some (set_stock
            (p_stock p - (if c_product_id c =? pid then c_quantity c else 0)) p).
Proof.
  intros E Hp. destruct (place_item_inv _ _ _ _ E) as [product [G [_ ->]]].
  cbn [products with_products with_order_items].
  destruct (get_Some _ _ _ G) as [_ Hpk]. cbn in Hpk. rewrite Hpk.
  destruct (c_product_id c =? pid) eqn:Eid.
  - apply Z.eqb_eq in Eid. subst pid.
    rewrite get_update_same by reflexivity. rewrite Hp.
    rewrite G in Hp. inversion Hp; subst. reflexivity.
  - apply Z.eqb_neq in Eid.
    rewrite get_update_other by (try reflexivity; congruence).
    rewrite Hp, Z.sub_0_r. now rewrite set_stock_same.
Qed.

Lemma foldM_place_item_get (oid pid : Z) (cart : list CartItem) :
  forall db db' p,
  foldM (place_item oid) cart db = Some db' ->
  get pid (products db) = Some p ->
  get pid (products db') = Some (set_stock (p_stock p - quantity_of pid cart) p).
Proof.
  induction cart as [|c cart IH]; intros db db' p E Hp.
  - inversion E; subst. unfold quantity_of. cbn.
    now rewrite Z.sub_0_r, set_stock_same.
  - cbn [foldM] in E. unfold bind in E.
    destruct (place_item oid db c) as [db1|] eqn:E1; [|discriminate].
    pose proof (place_item_get _ pid _ _ _ _ E1 Hp) as H1.
    rewrite (IH _ _ _ E H1). rewrite set_stock_set_stock. f_equal. f_equal.
    unfold quantity_of. cbn [filter p_stock set_stock].
    destruct (c_product_id c =? pid); cbn [map fold_right]; lia.
Qed.

Lemma place_item_get_other (oid pid : Z) (db db' : Database) (c : CartItem) :
  place_item oid db c = Some db' -> c_product_id c <> pid ->
  get pid (products db') = get pid (products db).
Proof.
  intros E Hne. destruct (place_item_inv _ _ _ _ E) as [product [G [_ ->]]].
  cbn [products with_products with_order_items].
  destruct (get_Some _ _ _ G) as [_ Hpk]. cbn in Hpk.
  apply get_update_other; [reflexivity | congruence].
Qed.

(** On lines for distinct products the loop runs to its end exactly when
    every line has its product and a debit SQLite can hold. *)
Lemma foldM_place_item_runs (oid : Z) (cart : list CartItem) :
  NoDup (map c_product_id cart) ->
  forall db,
  (exists db', foldM (place_item oid) cart db = Some db') <->
  (forall c, In c cart ->
     exists p, get (c_product_id c) (products db) = Some p /\
               sqlite_integer (p_stock p - c_quantity c) = true).
Proof.
  induction cart as [|c cart IH]; intros Hnd db.
  - split; [intros _ c [] | intros _; now eexists].
  - inversion Hnd as [|? ? Hnotin Hnd']; subst. cbn [foldM]. split.
    + intros [db' E]. unfold bind in E.
      destruct (place_item oid db c) as [db1|] eqn:E1; [|discriminate].
      destruct (place_item_inv _ _ _ _ E1) as [product [G [Hfit _]]].
      intros c' [<-|Hc']; [now exists product|].
      destruct (proj1 (IH Hnd' db1) (ex_intro _ db' E) c' Hc')
        as [p' [Hp' Hfit']].
      exists p'. split; [|exact Hfit'].
      rewrite <- Hp'. symmetry. apply (place_item_get_other _ _ _ _ _ E1).
      intros Heq. apply Hnotin. rewrite Heq. now apply in_map.
    + intros Hall. destruct (Hall c (or_introl eq_refl)) as [p [Hp Hfit]].
      assert (E1 : exists db1, place_item oid db c = Some db1).
      { unfold place_item. rewrite Hp. cbn [bind]. rewrite Hfit. now eexists. }
      destruct E1 as [db1 E1]. rewrite E1. cbn [bind].
      apply (IH Hnd' db1). intros c' Hc'.
      destruct (Hall c' (or_intror Hc')) as [p' [Hp' Hfit']].
      exists p'. split; [|exact Hfit'].
      rewrite <- Hp'. apply (place_item_get_other _ _ _ _ _ E1).
      intros Heq. apply Hnotin. rewrite Heq. now apply in_map.
Qed.

Lemma mapM_line_total (db : Database) (cart : list CartItem) :
  (forall c, In c cart -> exists p, get (c_product_id c) (products db) = Some p) ->
  exists totals,
    mapM (line_total db) cart = Some totals /\ Forall2 (priced db) cart totals.
Proof.
  induction cart as [|c cart IH]; intros Hfk.
  - exists []. split; [reflexivity | constructor].
  - destruct (Hfk c (or_introl eq_refl)) as [p Hp].
    destruct IH as [totals [E Hall]]; [intros c' Hc'; apply Hfk; now right|].
    exists (int_mul_float (c_quantity c) (p_price p) :: totals).
    cbn [mapM]. unfold line_total at 1. rewrite Hp. cbn [bind]. rewrite E.
    split; [reflexivity|]. constructor; [|assumption]. now exists p.
Qed.

Lemma place_item_price (oid pid : Z) (db db' : Database) (c : CartItem) :
  place_item oid db c = Some db' ->
  option_map p_price (get pid (products db')) =
  option_map p_price (get pid (products db)).
Proof.
  intros E. destruct (get pid (products db)) as [p|] eqn:G.
  - now rewrite (place_item_get _ _ _ _ _ _ E G).
  - destruct (place_item_inv _ _ _ _ E) as [product [G' [_ ->]]].
    cbn [products with_products with_order_items].
    destruct (get_Some _ _ _ G') as [_ Hpk]. cbn in Hpk.
    rewrite get_update_other by (try reflexivity; congruence).
    now rewrite G.
Qed.

Lemma snapshot_price_ext (db db' : Database) (oid : Z) (c : CartItem)
    (it : OrderItem) :
  (forall pid, option_map p_price (get pid (products db')) =
               option_map p_price (get pid (products db))) ->
  snapshot db' oid c it -> snapshot db oid c it.
Proof.
  intros Hext [H1 [H2 [H3 [p [Hp Hprice]]]]].
  repeat split; try assumption.
  specialize (Hext (c_product_id c)). rewrite Hp in Hext.
  destruct (get (c_product_id c) (products db)) as [p0|]; [|discriminate].
  exists p0. split; [reflexivity|]. cbn in Hext. congruence.
Qed.

Lemma foldM_place_item_items (oid : Z) (cart : list CartItem) :
  forall db db',
  foldM (place_item oid) cart db = Some db' ->
  exists items,
    order_items db' = order_items db ++ items /\
    Forall2 (snapshot db oid) cart items.
Proof.
  induction cart as [|c cart IH]; intros db db' E.
  - inversion E; subst. exists []. rewrite app_nil_r. split; [reflexivity | constructor].
  - cbn [foldM] in E. unfold bind in E.
    destruct (place_item oid db c) as [db1|] eqn:E1; [|discriminate].
    destruct (IH _ _ E) as [items [Hitems Hall]].
    pose proof (fun pid => place_item_price oid pid _ _ _ E1) as Hprice.
    destruct (place_item_inv _ _ _ _ E1) as [product [G [_ ->]]].
    cbn [order_items with_products with_order_items] in Hitems.
    unfold insert in Hitems. rewrite <- app_assoc in Hitems.
    eexists. split; [exact Hitems|]. constructor.
    + repeat split. exists product. split; [assumption | reflexivity].
    + eapply Forall2_impl; [|exact Hall].
      intros c' it'. apply snapshot_price_ext. exact Hprice.
Qed.

Lemma quantity_of_absent (pid : Z) (cart : list CartItem) :
  ~ In pid (map c_product_id cart) -> quantity_of pid cart = 0.
Proof.
  unfold quantity_of. induction cart as [|a cart IH]; cbn [map In filter];
    intros Hnotin; [reflexivity|].
  destruct (c_product_id a =? pid) eqn:E.
  - apply Z.eqb_eq in E. tauto.
  - apply IH. tauto.
Qed.

Lemma quantity_of_unique (c : CartItem) (cart : list CartItem) :
  NoDup (map c_product_id cart) -> In c cart ->
  quantity_of (c_product_id c) cart = c_quantity c.
Proof.
  induction cart as [|a cart IH]; cbn [map In]; intros Hnd Hin; [tauto|].
  inversion Hnd as [|? ? Hnotin Hnd']; subst.
  destruct Hin as [->|Hin].
  - pose proof (quantity_of_absent _ _ Hnotin) as H0.
    unfold quantity_of in *. cbn [filter]. rewrite Z.eqb_refl.
    cbn [map fold_right]. lia.
  - specialize (IH Hnd' Hin). unfold quantity_of in *. cbn [filter].
    destruct (c_product_id a =? c_product_id c) eqn:E; [|exact IH].
    apply Z.eqb_eq in E. exfalso. apply Hnotin. rewrite E. now apply in_map.
Qed.

Lemma snapshot_order_id (db : Database) (oid : Z) (cart : list CartItem)
    (items : list OrderItem) :
  Forall2 (snapshot db oid) cart items ->
  filter (fun it => oi_order_id it =? oid) items = items.
Proof.
  induction 1 as [|c it cart items [Hoid _] _ IH]; [reflexivity|].
  cbn [filter]. rewrite Hoid, Z.eqb_refl. now rewrite IH.
Qed.

Lemma no_items_of_next_order (db : Database) :
  order_item_fk db ->
  filter (fun it => oi_order_id it =? next_id (orders db)) (order_items db) = [].
Proof.
  unfold order_item_fk. intros Hfk.
  induction (order_items db) as [|it l IH]; [reflexivity|].
  cbn [filter]. destruct (Hfk it (or_introl eq_refl)) as [o [Ho Heq]].
  apply pk_lt_next_id in Ho. change (o_id o < next_id (orders db)) in Ho.
  destruct (oi_order_id it =? next_id (orders db)) eqn:E.
  - apply Z.eqb_eq in E. lia.
  - apply IH. intros it' Hit'. apply Hfk. now right.
Qed.

(** The three ways a checkout request ends. *)
Lemma checkout_outcome (utcnow : datetime) (u : User) (db : Database) :
  (cart_of (u_id u) db = [] /\
   checkout utcnow (Some u) db =
     (redirect "cart" [("Your cart is empty.", "error")], db)) \/
  (checkout_txn utcnow u db (cart_of (u_id u) db) = None /\
   checkout utcnow (Some u) db = (abort 500, db)) \/
  (exists db',
     cart_of (u_id u) db <> [] /\
     checkout_txn utcnow u db (cart_of (u_id u) db) = Some db' /\
     checkout utcnow (Some u) db =
       (redirect "order_history" [("Order placed successfully!", "success")], db')).
Proof.
  unfold checkout, login_required, cart_of.
  destruct (filter (owned_by (u_id u)) (cart_items db)) as [|c cart] eqn:Ecart;
    [left; split; reflexivity|].
  destruct (checkout_txn utcnow u db (c :: cart)) as [db'|] eqn:T.
  - right; right. exists db'. repeat split; congruence.
  - right; left. split; reflexivity.
Qed.

Lemma filter_owned_cleared (uid : Z) (t : list CartItem) :
  filter (owned_by uid) (filter (fun c => negb (owned_by uid c)) t) = [].
Proof.
  induction t as [|c t IH]; [reflexivity|]. cbn [filter].
  destruct (owned_by uid c) eqn:E; cbn [negb filter]; [exact IH|].
  now rewrite E.
Qed.

(** What a successful checkout did, step by step. *)
Lemma checkout_success_inv (utcnow : datetime) (u : User) (db : Database) :
  is_success (fst (checkout utcnow (Some u) db)) = true ->
  exists totals db2 items,
    mapM (line_total db) (cart_of (u_id u) db) = Some totals /\
    foldM (place_item (next_id (orders db))) (cart_of (u_id u) db)
      (with_orders db
         (orders db ++
            [{| o_id := next_id (orders db); o_user_id := u_id u;
                total_amount := py_sum totals; status := "pending";
                created_at := utcnow |}])) = Some db2 /\
    snd (checkout utcnow (Some u) db) =
      with_cart_items db2
        (filter (fun c => negb (owned_by (u_id u) c)) (cart_items db)) /\
    orders db2 =
      orders db ++
        [{| o_id := next_id (orders db); o_user_id := u_id u;
            total_amount := py_sum totals; status := "pending";
            created_at := utcnow |}] /\
    order_items db2 = order_items db ++ items /\
    Forall2 (snapshot db (next_id (orders db))) (cart_of (u_id u) db) items.
Proof.
  intros Hok.
  destruct (checkout_outcome utcnow u db)
    as [[_ Hr]|[[_ Hr]|[db' [_ [Htxn Hr]]]]]; rewrite Hr in Hok |- *;
    try discriminate.
  destruct (checkout_txn_steps _ _ _ _ _ Htxn) as [totals [db2 [Hm [_ [F ->]]]]].
  destruct (foldM_place_item_frame _ _ _ _ F) as [Hcart Horders].
  destruct (foldM_place_item_items _ _ _ _ F) as [items [Hitems Hsnap]].
  cbn [cart_items orders order_items with_orders] in Hcart, Horders, Hitems.
  exists totals, db2, items. cbn [snd]. rewrite Hcart.
  repeat split; try assumption; reflexivity.
Qed.

Lemma checkout_success_response (utcnow : datetime) (u : User) (db : Database) :
  is_success (fst (checkout utcnow (Some u) db)) = true ->
  checkout utcnow (Some u) db =
    (redirect "order_history" [("Order placed successfully!", "success")],
     snd (checkout utcnow (Some u) db)).
Proof.
  intros Hok.
  destruct (checkout_outcome utcnow u db)
    as [[_ Hr]|[[_ Hr]|[db' [_ [_ Hr]]]]]; rewrite Hr in Hok |- *;
    try discriminate.
  reflexivity.
Qed.

(** When a checkout of a non-empty cart on distinct products succeeds:
    exactly when the total is a number the order table takes and every
    line has its product and a debit the product table takes. *)
Lemma checkout_succeeds_iff (utcnow : datetime) (u : User) (db : Database) :
  cart_of (u_id u) db <> [] ->
  NoDup (map c_product_id (cart_of (u_id u) db)) ->
  (is_success (fst (checkout utcnow (Some u) db)) = true <->
   (exists totals,
      mapM (line_total db) (cart_of (u_id u) db) = Some totals /\
      isnan (py_sum totals) = false) /\
   (forall c, In c (cart_of (u_id u) db) ->
      exists p, get (c_product_id c) (products db) = Some p /\
                sqlite_integer (p_stock p - c_quantity c) = true)).
Proof.
  intros Hne Huniq. split.
  - intros Hok.
    destruct (checkout_outcome utcnow u db)
      as [[_ Hr]|[[_ Hr]|[db' [_ [Htxn Hr]]]]]; rewrite Hr in Hok;
      try discriminate.
    destruct (checkout_txn_steps _ _ _ _ _ Htxn) as [totals [db2 [Hm [Hnan [F _]]]]].
    split; [now exists totals|].
    apply (proj1 (foldM_place_item_runs _ _ Huniq _) (ex_intro _ db2 F)).
  - intros [[totals [Hm Hnan]] Hfits].
    destruct (proj2 (foldM_place_item_runs (next_id (orders db)) _ Huniq
                       (with_orders db
                          (orders db ++
                             [{| o_id := next_id (orders db); o_user_id := u_id u;
                                 total_amount := py_sum totals; status := "pending";
                                 created_at := utcnow |}]))) Hfits) as [db2 F].
    assert (Htxn : checkout_txn utcnow u db (cart_of (u_id u) db) <> None).
    { unfold checkout_txn. rewrite Hm. cbn [bind]. rewrite Hnan.
      cbn [bind o_id]. rewrite F. discriminate. }
    destruct (checkout_outcome utcnow u db)
      as [[He _]|[[Hn _]|[db' [_ [_ Hr]]]]]; [congruence..|].
    now rewrite Hr.
Qed.

(** C1. Let the user's cart have N >= 1 lines, on distinct products that
    all exist, and let every stored order item belong to a stored order.
    Checkout then succeeds exactly when the total is not NaN and every
    line's stock minus quantity is an integer SQLite holds.  A
    successful checkout appends exactly one order, with a fresh id,
    status pending, the user as owner and [total_amount] the sum of
    quantity x current price over the lines; appends exactly N order
    items, which are all the items of that order and snapshot, line by
    line, product id, quantity and current price; leaves the product of
    each line with its stock lowered by that line's quantity and with
    every other column as it was; and leaves the user without cart
    lines. *)
Theorem checkout_converts_cart (utcnow : datetime) (u : User) (db : Database) :
  cart_of (u_id u) db <> [] ->
  (forall c, In c (cart_of (u_id u) db) ->
     exists p, get (c_product_id c) (products db) = Some p) ->
  NoDup (map c_product_id (cart_of (u_id u) db)) ->
  order_item_fk db ->
  (is_success (fst (checkout utcnow (Some u) db)) = true <->
   (exists totals,
      mapM (line_total db) (cart_of (u_id u) db) = Some totals /\
      isnan (py_sum totals) = false) /\
   (forall c p, In c (cart_of (u_id u) db) ->
      get (c_product_id c) (products db) = Some p ->
      sqlite_integer (p_stock p - c_quantity c) = true)) /\
  (is_success (fst (checkout utcnow (Some u) db)) = true ->
   exists db' order items totals,
     checkout utcnow (Some u) db =
       (redirect "order_history" [("Order placed successfully!", "success")], db') /\
     orders db' = orders db ++ [order] /\
     get (o_id order) (orders db) = None /\
     status order = "pending" /\
     o_user_id order = u_id u /\
     created_at order = utcnow /\
     total_amount order = py_sum totals /\
     Forall2 (priced db) (cart_of (u_id u) db) totals /\
     order_items db' = order_items db ++ items /\
     List.length items = List.length (cart_of (u_id u) db) /\
     filter (fun it => oi_order_id it =? o_id order) (order_items db') = items /\
     Forall2 (snapshot db (o_id order)) (cart_of (u_id u) db) items /\
     (forall c p, In c (cart_of (u_id u) db) ->
        get (c_product_id c) (products db) = Some p ->
        exists p',
          get (c_product_id c) (products db') = Some p' /\
          p_stock p' = p_stock p - c_quantity c /\
          p_id p' = p_id p /\ p_name p' = p_name p /\
          p_description p' = p_description p /\ p_price p' = p_price p /\
          p_image_url p' = p_image_url p /\ p_created_at p' = p_created_at p) /\
     cart_of (u_id u) db' = []).
Proof.
  intros Hne Hfk Huniq Hofk. split.
  { rewrite (checkout_succeeds_iff utcnow u db Hne Huniq). split.
    - intros [Ht Hd]. split; [exact Ht|]. intros c p Hc Hp.
      destruct (Hd c Hc) as [p' [Hp' Hfit]]. rewrite Hp in Hp'.
      inversion Hp'; subst p'. exact Hfit.
    - intros [Ht Hd]. split; [exact Ht|]. intros c Hc.
      destruct (Hfk c Hc) as [p Hp]. exists p. split; [exact Hp|].
      exact (Hd c p Hc Hp). }
  intros Hok.
  destruct (checkout_success_inv _ _ _ Hok)
    as [totals [db2 [items [Htot [Hfold [Hsnd [Horders [Hitems Hsnap]]]]]]]].
  destruct (mapM_line_total db _ Hfk) as [totals' [Htot' Hpriced]].
  rewrite Htot in Htot'. inversion Htot'; subst totals'. clear Htot'.
  exists (snd (checkout utcnow (Some u) db)).
  exists {| o_id := next_id (orders db); o_user_id := u_id u;
            total_amount := py_sum totals; status := "pending";
            created_at := utcnow |}, items, totals.
  split; [now apply checkout_success_response|].
  rewrite Hsnd.
  cbn [orders order_items products cart_items with_cart_items o_id status
       o_user_id created_at total_amount].
  split; [exact Horders|].
  split; [apply (get_next_id (orders db))|].
  do 4 (split; [reflexivity|]).
  split; [exact Hpriced|].
  split; [exact Hitems|].
  split; [symmetry; exact (Forall2_length Hsnap)|].
  split.
  { rewrite Hitems, filter_app.
    rewrite (no_items_of_next_order db Hofk).
    apply (snapshot_order_id _ _ _ _ Hsnap). }
  split; [exact Hsnap|].
  split.
  { intros c p Hc Hp. eexists.
    split; [apply (foldM_place_item_get _ _ _ _ _ _ Hfold Hp)|].
    cbn [p_stock p_id p_name p_description p_price p_image_url p_created_at
         set_stock].
    rewrite (quantity_of_unique c _ Huniq Hc). repeat split. }
  unfold cart_of. cbn [cart_items with_cart_items]. apply filter_owned_cleared.
Qed.

Lemma Forall2_map_r (A B : Type) (R : A -> B -> Prop) (h : A -> B) (l : list A) :
  (forall x, R x (h x)) -> Forall2 R l (map h l).
Proof. intros HR. induction l; simpl; constructor; auto. Qed.

Lemma Forall2_compose (A : Type) (R1 R2 R3 : A -> A -> Prop) (l1 l2 : list A) :
  (forall x y z, R1 x y -> R2 y z -> R3 x z) ->
  Forall2 R1 l1 l2 -> forall l3, Forall2 R2 l2 l3 -> Forall2 R3 l1 l3.
Proof.
  intros Hc H12. induction H12 as [|x y l1 l2 Hxy _ IH]; intros l3 H23;
    inversion H23; subst; constructor; eauto.
Qed.

Lemma Forall2_refl (A : Type) (R : A -> A -> Prop) (l : list A) :
  (forall x, R x x) -> Forall2 R l l.
Proof. intros HR. induction l; constructor; auto. Qed.

Lemma stock_only_refl (cart : list CartItem) (p : Product) : stock_only cart p p.
Proof.
  split; [|reflexivity]. exists (p_stock p). symmetry. apply set_stock_same.
Qed.

Lemma place_item_products (oid : Z) (db db' : Database) (c : CartItem) :
  place_item oid db c = Some db' ->
  Forall2 (stock_only [c]) (products db) (products db').
Proof.
  intros E. destruct (place_item_inv _ _ _ _ E) as [product [G [_ ->]]].
  cbn [products with_products with_order_items].
  destruct (get_Some _ _ _ G) as [_ Hpk]. cbn in Hpk.
  unfold update. apply Forall2_map_r. intros r. cbn [pk Product_Model].
  destruct (p_id r =? p_id product) eqn:Eid; [|apply stock_only_refl].
  apply Z.eqb_eq in Eid. split; [now eexists|].
  intros Hfree. exfalso. apply (Hfree c (or_introl eq_refl)). congruence.
Qed.

Lemma foldM_place_item_products (oid : Z) (cart : list CartItem) :
  forall db db',
  foldM (place_item oid) cart db = Some db' ->
  Forall2 (stock_only cart) (products db) (products db').
Proof.
  induction cart as [|c cart IH]; intros db db' E.
  - inversion E; subst. apply Forall2_refl. apply stock_only_refl.
  - cbn [foldM] in E. unfold bind in E.
    destruct (place_item oid db c) as [db1|] eqn:E1; [|discriminate].
    apply place_item_products in E1. apply IH in E.
    refine (Forall2_compose _ _ _ _ _ _ _ E1 _ E).
    intros x y z [[n Hn] Hx] [[m Hm] Hy]. split.
    + exists m. rewrite Hm, Hn. reflexivity.
    + intros Hfree.
      assert (Hyx : y = x) by (apply Hx; intros c' [<-|[]]; apply Hfree; now left).
      rewrite Hyx in Hy. apply Hy. intros c' Hc'. apply Hfree. now right.
Qed.

Lemma checkout_txn_inv (utcnow : datetime) (u : User) (db db' : Database)
    (cart : list CartItem) :
  checkout_txn utcnow u db cart = Some db' ->
  exists order db2,
    o_id order = next_id (orders db) /\
    foldM (place_item (next_id (orders db))) cart
          (with_orders db (orders db ++ [order])) = Some db2 /\
    db' = with_cart_items db2
            (filter (fun c => negb (owned_by (u_id u) c)) (cart_items db2)).
Proof.
  intros E.
  destruct (checkout_txn_steps _ _ _ _ _ E) as [totals [db2 [_ [_ [F ->]]]]].
  eexists. exists db2.
  split; [|split; [exact F | reflexivity]]. reflexivity.
Qed.

(** C10. Whatever the outcome of a checkout by user [u], every product
    row is afterwards the row it was with at most its stock changed
    (name, description, price, image and id kept), a product that no
    line of the user's cart references is left exactly as it was, and
    the cart lines of every other user are the same as before. *)
Theorem checkout_frame (utcnow : datetime) (u : User) (db : Database) :
  Forall2 (stock_only (cart_of (u_id u) db))
    (products db) (products (snd (checkout utcnow (Some u) db))) /\
  forall other, other <> u_id u ->
    cart_of other (snd (checkout utcnow (Some u) db)) = cart_of other db.
Proof.
  destruct (checkout_outcome utcnow u db)
    as [[_ ->]|[[_ ->]|[db' [_ [Htxn ->]]]]]; cbn [snd];
    try (split; [apply Forall2_refl, stock_only_refl | reflexivity]).
  destruct (checkout_txn_inv _ _ _ _ _ Htxn) as [order [db2 [Hoid [Hfold ->]]]].
  split.
  - apply (foldM_place_item_products _ _ _ _ Hfold).
  - intros other Hne. unfold cart_of. cbn [cart_items with_cart_items].
    destruct (foldM_place_item_frame _ _ _ _ Hfold) as [-> _].
    cbn [cart_items with_orders].
    apply filter_filter_keep. intros r Hr. unfold owned_by in *.
    apply Z.eqb_eq in Hr. apply negb_true_iff, Z.eqb_neq. congruence.
Qed.

(** C2 (amended). A checkout by user [u] leaves a stored product stored;
    when it succeeds the product's stock is the stock before minus the
    total quantity of that product in the user's cart, and when it fails
    the row is untouched.  So a stock that was at least 0 and at least
    that quantity is at least 0 afterwards; nothing in the checkout
    compares the two. *)
Theorem checkout_stock_after
    (utcnow : datetime) (u : User) (db : Database) (pid : Z) (p : Product) :
  get pid (products db) = Some p ->
  exists p',
    get pid (products (snd (checkout utcnow (Some u) db))) = Some p' /\
    (is_success (fst (checkout utcnow (Some u) db)) = true ->
     p_stock p' = p_stock p - quantity_of pid (cart_of (u_id u) db)) /\
    (is_success (fst (checkout utcnow (Some u) db)) = false -> p' = p) /\
    (0 <= p_stock p -> quantity_of pid (cart_of (u_id u) db) <= p_stock p ->
     0 <= p_stock p').
Proof.
  intros Hp.
  destruct (checkout_outcome utcnow u db)
    as [[_ ->]|[[_ ->]|[db' [_ [Htxn ->]]]]]; cbn [fst snd is_success];
    try (exists p; repeat split; auto; discriminate).
  destruct (checkout_txn_inv _ _ _ _ _ Htxn) as [order [db2 [Hoid [Hfold ->]]]].
  cbn [products with_cart_items].
  rewrite (foldM_place_item_get _ _ _ _ _ _ Hfold Hp).
  eexists. split; [reflexivity|]. cbn [p_stock set_stock String.eqb].
  repeat split; try discriminate; intros; lia.
Qed.

(** * The order ledger *)

Lemma insert_desc_map (h : Order -> Order) (o : Order) (l : list Order) :
  (forall x, created_at (h x) = created_at x) ->
  insert_desc (h o) (map h l) = map h (insert_desc o l).
Proof.
  intros Hh. induction l as [|x l IH]; [reflexivity|].
  cbn [map insert_desc]. rewrite !Hh.
  destruct (created_at x <=? created_at o); [reflexivity|].
  cbn [map]. now rewrite IH.
Qed.

Lemma order_by_map (h : Order -> Order) (l : list Order) :
  (forall x, created_at (h x) = created_at x) ->
  order_by_created_at_desc (map h l) = map h (order_by_created_at_desc l).
Proof.
  intros Hh. unfold order_by_created_at_desc.
  induction l as [|x l IH]; [reflexivity|].
  cbn [map fold_right]. rewrite IH. now apply insert_desc_map.
Qed.

Lemma In_insert_desc (x o : Order) (l : list Order) :
  In x (insert_desc o l) <-> o = x \/ In x l.
Proof.
  induction l as [|y l IH]; cbn [insert_desc In]; [tauto|].
  destruct (created_at y <=? created_at o); cbn [In]; tauto.
Qed.

Lemma In_order_by (x : Order) (l : list Order) :
  In x (order_by_created_at_desc l) <-> In x l.
Proof.
  unfold order_by_created_at_desc.
  induction l as [|y l IH]; cbn [fold_right In]; [tauto|].
  rewrite In_insert_desc. tauto.
Qed.

Lemma listing_update_status (uid oid : Z) (s : string) (db : Database) :
  listing uid (with_orders db (update oid (set_status s) (orders db))) =
  update oid (set_status s) (listing uid db).
Proof.
  unfold listing, update. cbn [orders with_orders].
  rewrite filter_map_stable
    by (intros r; destruct (pk r =? oid); reflexivity).
  apply order_by_map. intros x. destruct (pk x =? oid); reflexivity.
Qed.

(** C9. For an admin and a stored order, [admin_update_order_status]
    succeeds for every status string and stores exactly that string in
    the order; the order keeps its id, owner, total and creation time,
    every other order, and the order item, product and cart tables, are
    as before; and the owner's order history is the history as it was
    with the new status in that order, which it lists. *)
Theorem admin_update_order_status_overwrites
    (admin : User) (order_id : Z) (new_status : string) (o : Order)
    (db : Database) :
  is_admin admin = true ->
  get order_id (orders db) = Some o ->
  exists db' o',
    admin_update_order_status order_id new_status (Some admin) db =
      (redirect "admin_orders" [("Order status updated!", "success")], db') /\
    get order_id (orders db') = Some o' /\
    status o' = new_status /\
    o_id o' = o_id o /\ o_user_id o' = o_user_id o /\
    total_amount o' = total_amount o /\ created_at o' = created_at o /\
    (forall j, j <> order_id -> get j (orders db') = get j (orders db)) /\
    order_items db' = order_items db /\
    products db' = products db /\
    cart_items db' = cart_items db /\
    (forall owner, u_id owner = o_user_id o ->
       order_history (Some owner) db' =
         (render_template "order_history.html"
            (orders_context (listing (u_id owner) db')), db') /\
       listing (u_id owner) db' =
         update order_id (set_status new_status) (listing (u_id owner) db) /\
       In o' (listing (u_id owner) db')).
Proof.
  intros Hadmin Hget.
  unfold admin_update_order_status, login_required, admin_required.
  rewrite Hadmin, Hget. cbn [negb].
  destruct (get_Some _ _ _ Hget) as [Hin Hpk]. cbn in Hpk. rewrite Hpk.
  eexists. exists (set_status new_status o).
  split; [reflexivity|]. cbn [orders order_items products cart_items with_orders].
  split; [rewrite get_update_same by reflexivity; now rewrite Hget|].
  do 5 (split; [first [reflexivity | exact Hpk]|]).
  split; [intros j Hj; now apply get_update_other|].
  do 3 (split; [reflexivity|]).
  intros owner Howner. split; [reflexivity|].
  split; [apply listing_update_status|].
  unfold listing. apply In_order_by. apply filter_In.
  cbn [orders with_orders o_user_id set_status]. split.
  - unfold update. apply in_map_iff. exists o. split; [|assumption].
    cbn [pk Order_Model]. rewrite Hpk. now rewrite Z.eqb_refl.
  - apply Z.eqb_eq. congruence.
Qed.

(** C8. [admin_edit_product] never touches the order or order item
    tables, whoever calls it and whatever the form holds: every order
    item keeps the price and quantity it was created with.  The product
    row itself, when an admin posts the form for a stored product, takes
    the form's price if the commit takes the form (a stock SQLite holds,
    a price that is not NaN), and keeps its own price if it raises. *)
Theorem admin_edit_product_keeps_order_items
    (m : method) (product_id : Z) (form : product_form)
    (actor : option User) (db : Database) :
  order_items (snd (admin_edit_product m product_id form actor db)) =
    order_items db /\
  orders (snd (admin_edit_product m product_id form actor db)) = orders db /\
  (forall admin p,
     actor = Some admin -> is_admin admin = true -> m = POST ->
     get product_id (products db) = Some p ->
     exists p',
       get product_id
         (products (snd (admin_edit_product m product_id form actor db))) =
         Some p' /\
       p_price p' = if storable form then f_price form else p_price p).
Proof.
  unfold admin_edit_product, login_required, admin_required.
  split; [|split].
  - destruct actor as [a|]; [|reflexivity].
    destruct (is_admin a); cbn [negb]; [|reflexivity].
    destruct (get product_id (products db)); [|reflexivity].
    destruct m; [|destruct (storable form)]; reflexivity.
  - destruct actor as [a|]; [|reflexivity].
    destruct (is_admin a); cbn [negb]; [|reflexivity].
    destruct (get product_id (products db)); [|reflexivity].
    destruct m; [|destruct (storable form)]; reflexivity.
  - intros admin p -> Hadmin -> Hget. rewrite Hadmin, Hget. cbn [negb].
    destruct (storable form); cbn [snd products with_products];
      [|now exists p].
    destruct (get_Some _ _ _ Hget) as [_ Hpk]. cbn in Hpk. rewrite Hpk.
    rewrite get_update_same by reflexivity. rewrite Hget.
    eexists. split; reflexivity.
Qed.

(** * The invariants along a run *)

Lemma commit_cart_frame (cart' : option (list CartItem)) (ok : response)
    (db : Database) :
  products (snd (commit_cart cart' ok db)) = products db /\
  orders (snd (commit_cart cart' ok db)) = orders db /\
  order_items (snd (commit_cart cart' ok db)) = order_items db.
Proof. destruct cart'; repeat split; reflexivity. Qed.

Lemma cart_views_frame (actor : option User) (db : Database) :
  (forall pid,
     products (snd (add_to_cart pid actor db)) = products db /\
     orders (snd (add_to_cart pid actor db)) = orders db /\
     order_items (snd (add_to_cart pid actor db)) = order_items db) /\
  (forall id q,
     products (snd (update_cart id q actor db)) = products db /\
     orders (snd (update_cart id q actor db)) = orders db /\
     order_items (snd (update_cart id q actor db)) = order_items db) /\
  (forall id,
     products (snd (remove_from_cart id actor db)) = products db /\
     orders (snd (remove_from_cart id actor db)) = orders db /\
     order_items (snd (remove_from_cart id actor db)) = order_items db).
Proof.
  unfold add_to_cart, update_cart, remove_from_cart, login_required.
  destruct actor as [a|]; [|repeat split; reflexivity].
  split; [|split].
  - intros pid. destruct (get pid (products db));
      [apply commit_cart_frame | repeat split; reflexivity].
  - intros id q. destruct (get id (cart_items db)) as [line|];
      [|repeat split; reflexivity].
    destruct (negb _); [repeat split; reflexivity | apply commit_cart_frame].
  - intros id. destruct (get id (cart_items db)) as [line|];
      [|repeat split; reflexivity].
    destruct (negb _); repeat split; reflexivity.
Qed.

Lemma admin_views_frame (actor : option User) (db : Database) :
  (forall m form utcnow,
     orders (snd (admin_add_product m form utcnow actor db)) = orders db /\
     order_items (snd (admin_add_product m form utcnow actor db)) = order_items db) /\
  (forall oid s,
     products (snd (admin_update_order_status oid s actor db)) = products db /\
     order_items (snd (admin_update_order_status oid s actor db)) = order_items db).
Proof.
  unfold admin_add_product, admin_update_order_status,
    login_required, admin_required.
  destruct actor as [a|]; [|repeat split; reflexivity].
  destruct (is_admin a); cbn [negb]; [|repeat split; reflexivity].
  split.
  - intros [] form utcnow; [|destruct (storable form)]; split; reflexivity.
  - intros oid s. destruct (get oid (orders db)); split; reflexivity.
Qed.

Lemma cart_fk_ext (db db' : Database) :
  (forall c, In c (cart_items db') ->
     exists r, In r (cart_items db) /\ c_product_id r = c_product_id c) ->
  (forall pid p, get pid (products db) = Some p ->
     exists p', get pid (products db') = Some p') ->
  cart_fk db -> cart_fk db'.
Proof.
  intros Hcart Hprod Hfk c Hc.
  destruct (Hcart c Hc) as [r [Hr Heq]]. destruct (Hfk r Hr) as [p Hp].
  rewrite <- Heq. now apply (Hprod _ p).
Qed.

Lemma In_update_line (id q : Z) (t : list CartItem) (c : CartItem) :
  In c (update id (set_quantity q) t) ->
  exists r, In r t /\ c_product_id r = c_product_id c.
Proof.
  unfold update. intros Hc. apply in_map_iff in Hc. destruct Hc as [r [<- Hr]].
  exists r. split; [assumption|]. destruct (pk r =? id); reflexivity.
Qed.

Lemma In_filter_line (Q : CartItem -> bool) (t : list CartItem) (c : CartItem) :
  In c (filter Q t) -> exists r, In r t /\ c_product_id r = c_product_id c.
Proof. intros Hc. apply filter_In in Hc. exists c. tauto. Qed.

Ltac same_rows :=
  intros; eexists; first [split; [eassumption | reflexivity] | eassumption].

Lemma handle_cart_fk (db : Database) (req : option User * request) :
  cart_fk db -> cart_fk (handle db req).
Proof.
  intros Hfk. destruct req as [actor r]. unfold handle. cbn [fst snd].
  destruct r; cbn [dispatch].
  - destruct (cart_views_frame actor db) as [Hf _].
    destruct (Hf product_id) as [Hprod _]. clear Hf.
    destruct actor as [a|]; [|exact Hfk].
    intros c Hc. rewrite Hprod.
    destruct (add_to_cart_cases product_id a db)
      as [[_ Hd]|[[product [item [G [F [_ [_ Hd]]]]]]|[product [G [F [_ Hd]]]]]];
      rewrite Hd in Hc; cbn [cart_items with_cart_items] in Hc.
    + now apply Hfk.
    + apply In_update_line in Hc. destruct Hc as [r [Hr <-]]. now apply Hfk.
    + unfold insert in Hc. apply in_app_iff in Hc. destruct Hc as [Hc|[<-|[]]].
      * now apply Hfk.
      * now exists product.
  - destruct (cart_views_frame actor db) as [_ [Hf _]].
    destruct (Hf item_id quantity) as [Hprod _]. clear Hf.
    apply (cart_fk_ext db); [|intros pid p Hp; rewrite Hprod; now exists p|exact Hfk].
    destruct actor as [a|]; [|same_rows].
    destruct (update_cart_cases item_id quantity a db)
      as [[_ ->]|[line [_ [_ [_ [[_ ->]|[_ [_ ->]]]]]]]];
      [same_rows| |]; cbn [cart_items with_cart_items];
      [apply In_filter_line | apply In_update_line].
  - destruct (cart_views_frame actor db) as [_ [_ Hf]].
    destruct (Hf item_id) as [Hprod _]. clear Hf.
    apply (cart_fk_ext db); [|intros pid p Hp; rewrite Hprod; now exists p|exact Hfk].
    destruct actor as [a|]; [|same_rows].
    destruct (remove_from_cart_cases item_id a db)
      as [[_ ->]|[line [_ [_ [_ ->]]]]]; [same_rows|].
    cbn [cart_items with_cart_items]. apply In_filter_line.
  - destruct actor as [a|]; [|exact Hfk].
    destruct (checkout_outcome utcnow a db)
      as [[_ ->]|[[_ ->]|[db' [_ [Htxn ->]]]]]; cbn [snd]; try exact Hfk.
    destruct (checkout_txn_inv _ _ _ _ _ Htxn) as [order [db2 [Hoid [Hfold ->]]]].
    destruct (foldM_place_item_frame _ _ _ _ Hfold) as [Hcart _].
    apply (cart_fk_ext db); [| |exact Hfk].
    + cbn [cart_items with_cart_items]. rewrite Hcart. apply In_filter_line.
    + intros pid p Hp. cbn [products with_cart_items].
      rewrite (foldM_place_item_get _ _ _ _ _ _ Hfold Hp). eexists; reflexivity.
  - unfold order_history, login_required. destruct actor; exact Hfk.
  - destruct (admin_views_keep_cart actor db) as [Hcart _].
    apply (cart_fk_ext db); [intros c Hc; rewrite Hcart in Hc; revert c Hc; same_rows| |exact Hfk].
    unfold admin_add_product, login_required, admin_required.
    destruct actor as [a|]; [|same_rows].
    destruct (is_admin a); cbn [negb]; [|same_rows].
    destruct m; [same_rows|]. destruct (storable form); [|same_rows].
    cbn [snd products with_products].
    intros pid p Hp. unfold insert, get. rewrite find_app.
    unfold get in Hp. rewrite Hp. eexists; reflexivity.
  - destruct (admin_views_keep_cart actor db) as [_ [Hcart _]].
    apply (cart_fk_ext db); [intros c Hc; rewrite Hcart in Hc; revert c Hc; same_rows| |exact Hfk].
    unfold admin_edit_product, login_required, admin_required.
    destruct actor as [a|]; [|same_rows].
    destruct (is_admin a); cbn [negb]; [|same_rows].
    destruct (get product_id (products db)) as [product|] eqn:G; [|same_rows].
    destruct m; [same_rows|]. destruct (storable form); [|same_rows].
    cbn [snd products with_products].
    destruct (get_Some _ _ _ G) as [_ Hpk]. cbn in Hpk. rewrite Hpk.
    intros pid p Hp. destruct (Z.eq_dec pid product_id) as [->|Hne].
    + rewrite get_update_same by reflexivity. rewrite Hp. eexists; reflexivity.
    + rewrite get_update_other by (try reflexivity; assumption).
      now exists p.
  - destruct (admin_views_keep_cart actor db) as [_ [_ Hcart]].
    destruct (admin_views_frame actor db) as [_ Hf].
    destruct (Hf order_id new_status) as [Hprod _].
    apply (cart_fk_ext db); [intros c Hc; rewrite Hcart in Hc; revert c Hc; same_rows| |exact Hfk].
    intros pid p Hp. rewrite Hprod. now exists p.
Qed.

Lemma admin_edit_product_frame (m : method) (pid : Z) (form : product_form)
    (actor : option User) (db : Database) :
  orders (snd (admin_edit_product m pid form actor db)) = orders db /\
  order_items (snd (admin_edit_product m pid form actor db)) = order_items db.
Proof.
  unfold admin_edit_product, login_required, admin_required.
  destruct actor as [a|]; [|split; reflexivity].
  destruct (is_admin a); cbn [negb]; [|split; reflexivity].
  destruct (get pid (products db)); [|split; reflexivity].
  destruct m; [|destruct (storable form)]; split; reflexivity.
Qed.

Lemma order_item_fk_ext (db db' : Database) :
  order_items db' = order_items db -> orders db' = orders db ->
  order_item_fk db -> order_item_fk db'.
Proof. unfold order_item_fk. intros -> ->. tauto. Qed.

Lemma snapshot_order_id_in (db : Database) (oid : Z) (cart : list CartItem)
    (items : list OrderItem) :
  Forall2 (snapshot db oid) cart items ->
  forall it, In it items -> oi_order_id it = oid.
Proof.
  induction 1 as [|c x cart items [Hoid _] _ IH]; intros it Hit; [destruct Hit|].
  destruct Hit as [<-|Hit]; [exact Hoid | now apply IH].
Qed.

Lemma handle_order_item_fk (db : Database) (req : option User * request) :
  order_item_fk db -> order_item_fk (handle db req).
Proof.
  intros Hfk. destruct req as [actor r]. unfold handle. cbn [fst snd].
  destruct (cart_views_frame actor db) as [Hadd [Hupd Hrem]].
  destruct (admin_views_frame actor db) as [Hnew Hstatus].
  destruct r; cbn [dispatch].
  - apply (order_item_fk_ext db); [apply Hadd | apply Hadd | exact Hfk].
  - apply (order_item_fk_ext db); [apply Hupd | apply Hupd | exact Hfk].
  - apply (order_item_fk_ext db); [apply Hrem | apply Hrem | exact Hfk].
  - destruct actor as [a|]; [|exact Hfk].
    destruct (checkout_outcome utcnow a db)
      as [[_ ->]|[[_ ->]|[db' [_ [Htxn ->]]]]]; cbn [snd]; try exact Hfk.
    destruct (checkout_txn_inv _ _ _ _ _ Htxn) as [order [db2 [Hoid [Hfold ->]]]].
    destruct (foldM_place_item_frame _ _ _ _ Hfold) as [_ Horders].
    destruct (foldM_place_item_items _ _ _ _ Hfold) as [items [Hitems Hsnap]].
    cbn [orders order_items with_orders] in Horders, Hitems.
    intros it Hit. cbn [orders order_items with_cart_items] in *.
    rewrite Horders. rewrite Hitems in Hit. apply in_app_iff in Hit.
    destruct Hit as [Hit|Hit].
    + destruct (Hfk it Hit) as [o [Ho Hid]]. exists o.
      split; [apply in_app_iff; now left | exact Hid].
    + exists order. split; [apply in_app_iff; right; now left|].
      rewrite Hoid. symmetry. apply (snapshot_order_id_in _ _ _ _ Hsnap it Hit).
  - unfold order_history, login_required. destruct actor; exact Hfk.
  - apply (order_item_fk_ext db); [apply Hnew | apply Hnew | exact Hfk].
  - apply (order_item_fk_ext db);
      [apply admin_edit_product_frame | apply admin_edit_product_frame | exact Hfk].
  - intros it Hit. destruct (Hstatus order_id new_status) as [_ Hitems].
    rewrite Hitems in Hit. destruct (Hfk it Hit) as [o [Ho Hid]].
    unfold admin_update_order_status, login_required, admin_required.
    destruct actor as [a|]; [|now exists o].
    destruct (is_admin a); cbn [negb]; [|now exists o].
    destruct (get order_id (orders db)) as [order|]; [|now exists o].
    cbn [snd orders with_orders].
    exists (if pk o =? o_id order then set_status new_status o else o). split.
    + unfold update. apply in_map_iff. now exists o.
    + rewrite <- Hid. destruct (pk o =? o_id order); reflexivity.
Qed.

Lemma NoDup_products_of_unique (u : Z) (t : list CartItem) :
  (forall p, (List.length (filter (is_line u p) t) <= 1)%nat) ->
  NoDup (map c_product_id (filter (owned_by u) t)).
Proof.
  induction t as [|a t IH]; intros Hu; [constructor|].
  assert (Hu' : forall p, (List.length (filter (is_line u p) t) <= 1)%nat).
  { intros p. specialize (Hu p). cbn [filter] in Hu.
    destruct (is_line u p a); cbn [List.length] in Hu; lia. }
  cbn [filter]. destruct (owned_by u a) eqn:E; [|now apply IH].
  cbn [map]. constructor; [|now apply IH].
  intros Hin. apply in_map_iff in Hin. destruct Hin as [r [Hr Hin]].
  apply filter_In in Hin. destruct Hin as [Hin Ho].
  specialize (Hu (c_product_id a)). cbn [filter] in Hu.
  unfold owned_by in E, Ho.
  assert (Ha : is_line u (c_product_id a) a = true)
    by (unfold is_line; now rewrite E, Z.eqb_refl).
  assert (Hr' : In r (filter (is_line u (c_product_id a)) t)).
  { apply filter_In. split; [assumption|].
    unfold is_line. rewrite Ho, Hr, Z.eqb_refl. reflexivity. }
  rewrite Ha in Hu. cbn [List.length] in Hu.
  destruct (filter (is_line u (c_product_id a)) t); [destruct Hr'|].
  cbn [List.length] in Hu. lia.
Qed.

Lemma empty_db_wf : db_wf empty_db.
Proof.
  split; [split; [constructor | intros u p; cbn; lia]|].
  split; intros x [].
Qed.

Lemma handle_db_wf (db : Database) (req : option User * request) :
  db_wf db -> db_wf (handle db req).
Proof.
  intros [Hc [Hp Ho]]. split; [now apply handle_cart_wf|].
  split; [now apply handle_cart_fk | now apply handle_order_item_fk].
Qed.

Lemma serve_db_wf (reqs : list (option User * request)) :
  forall db, db_wf db -> db_wf (serve reqs db).
Proof.
  induction reqs as [|req reqs IH]; intros db Hwf; [exact Hwf|].
  apply IH. now apply handle_db_wf.
Qed.

(** In every state the routes reach from the empty database, each user's
    lines are on distinct stored products and order items have their
    order: a non-empty cart there is all that checkout needs. *)
Lemma served_checkout_ready (reqs : list (option User * request)) (uid : Z) :
  (forall c, In c (cart_of uid (serve reqs empty_db)) ->
     exists p, get (c_product_id c) (products (serve reqs empty_db)) = Some p) /\
  NoDup (map c_product_id (cart_of uid (serve reqs empty_db))) /\
  order_item_fk (serve reqs empty_db).
Proof.
  destruct (serve_db_wf reqs empty_db empty_db_wf) as [[_ Huniq] [Hfk Hofk]].
  split; [|split; [|exact Hofk]].
  - intros c Hc. apply Hfk. unfold cart_of in Hc. apply filter_In in Hc. tauto.
  - apply NoDup_products_of_unique. exact (Huniq uid).
Qed.

End AppFacts.

(** * More on the cart and on checkout *)

Section SiteFacts.
Context {py_float : PyFloat}.

Lemma Forall2_in_r (A B : Type) (R : A -> B -> Prop) (l : list A) (l' : list B) :
  Forall2 R l l' -> forall y, In y l' -> exists x, In x l /\ R x y.
Proof.
  induction 1 as [|x y l l' Hxy _ IH]; intros z Hz; [destruct Hz|].
  destruct Hz as [<-|Hz].
  - exists x. split; [now left | assumption].
  - destruct (IH z Hz) as [x' [Hx' HR]]. exists x'. split; [now right | assumption].
Qed.

Lemma quantity_of_items (db : Database) (oid pid : Z) (cart : list CartItem)
    (items : list OrderItem) :
  Forall2 (snapshot db oid) cart items ->
  quantity_of pid cart = ordered_quantity pid items.
Proof.
  unfold quantity_of, ordered_quantity.
  induction 1 as [|c it cart items [_ [Hp [Hq _]]] _ IH]; [reflexivity|].
  cbn [filter]. rewrite Hp.
  destruct (c_product_id c =? pid); cbn [map fold_right]; rewrite ?Hq, IH;
    reflexivity.
Qed.

Lemma totals_of_items (db : Database) (oid : Z) (cart : list CartItem)
    (items : list OrderItem) :
  Forall2 (snapshot db oid) cart items ->
  forall totals, mapM (line_total db) cart = Some totals ->
  totals = map (fun it => int_mul_float (oi_quantity it) (oi_price it)) items.
Proof.
  induction 1 as [|c it cart items [_ [_ [Hq [p [Hp Hprice]]]]] _ IH];
    intros totals Hm.
  - inversion Hm. reflexivity.
  - cbn [mapM] in Hm. unfold line_total at 1 in Hm. rewrite Hp in Hm.
    cbn [bind] in Hm.
    destruct (mapM (line_total db) cart) as [rest|]; [|discriminate].
    inversion Hm; subst totals. cbn [map]. rewrite Hq, Hprice.
    f_equal. now apply IH.
Qed.

(** X1. [remove_from_cart] is the database transition of [update_cart]
    with any quantity at most 0, for every caller and every line id. *)
Theorem remove_is_update_to_nothing
    (item_id quantity : Z) (actor : option User) (db : Database) :
  quantity <= 0 ->
  snd (remove_from_cart item_id actor db) =
  snd (update_cart item_id quantity actor db).
Proof.
  intros Hq. apply Z.leb_le in Hq.
  unfold remove_from_cart, update_cart, login_required.
  destruct actor as [a|]; [|reflexivity].
  destruct (get item_id (cart_items db)) as [line|]; [|reflexivity].
  destruct (negb _); [reflexivity|]. now rewrite Hq.
Qed.

(** X2. After a successful checkout, a second checkout by the same user
    finds the cart empty, says so and writes nothing: no second order. *)
Theorem checkout_twice (t1 t2 : datetime) (u : User) (db : Database) :
  is_success (fst (checkout t1 (Some u) db)) = true ->
  checkout t2 (Some u) (snd (checkout t1 (Some u) db)) =
    (redirect "cart" [("Your cart is empty.", "error")],
     snd (checkout t1 (Some u) db)).
Proof.
  intros Hok.
  pose proof (checkout_cart_items t1 u db) as Hcart. rewrite Hok in Hcart.
  generalize dependent (snd (checkout t1 (Some u) db)). intros db1 Hcart.
  unfold checkout, login_required.
  now rewrite Hcart, filter_owned_cleared.
Qed.

(** X3. A successful checkout moves units from stock into the order: for
    every stored product, the stock it loses is the total quantity of
    the order items the checkout appended for that product. *)
Theorem checkout_moves_stock_into_order
    (utcnow : datetime) (u : User) (db : Database) (pid : Z) (p : Product) :
  is_success (fst (checkout utcnow (Some u) db)) = true ->
  get pid (products db) = Some p ->
  exists p' items,
    order_items (snd (checkout utcnow (Some u) db)) = order_items db ++ items /\
    get pid (products (snd (checkout utcnow (Some u) db))) = Some p' /\
    p_stock p - p_stock p' = ordered_quantity pid items.
Proof.
  intros Hok Hp.
  destruct (checkout_success_inv _ _ _ Hok)
    as [totals [db2 [items [_ [Hfold [-> [_ [Hitems Hsnap]]]]]]]].
  pose proof (foldM_place_item_get _ pid _ _ _ _ Hfold Hp) as Hget.
  eexists. exists items. cbn [order_items products with_cart_items].
  split; [exact Hitems|]. split; [exact Hget|].
  cbn [p_stock set_stock]. rewrite (quantity_of_items _ _ pid _ _ Hsnap). lia.
Qed.

(** X4. The order a checkout creates carries as [total_amount] the sum,
    taken as checkout takes it, of quantity x price over exactly the
    items it appended for that order. *)
Theorem checkout_total_matches_items
    (utcnow : datetime) (u : User) (db : Database) :
  is_success (fst (checkout utcnow (Some u) db)) = true ->
  exists order items,
    orders (snd (checkout utcnow (Some u) db)) = orders db ++ [order] /\
    order_items (snd (checkout utcnow (Some u) db)) = order_items db ++ items /\
    Forall (fun it => oi_order_id it = o_id order) items /\
    total_amount order = items_total items.
Proof.
  intros Hok.
  destruct (checkout_success_inv _ _ _ Hok)
    as [totals [db2 [items [Htot [_ [-> [Horders [Hitems Hsnap]]]]]]]].
  eexists. exists items. cbn [orders order_items with_cart_items].
  split; [exact Horders|]. split; [exact Hitems|]. split.
  - apply Forall_forall. intros it Hit. cbn [o_id].
    apply (snapshot_order_id_in _ _ _ _ Hsnap it Hit).
  - cbn [total_amount]. unfold items_total.
    now rewrite (totals_of_items _ _ _ _ Hsnap totals Htot).
Qed.

(** X5. The price an admin posts for a product, when the commit takes
    the form, is the price the next checkout snapshots: every order item
    created for that product after the edit carries the form's price,
    whatever the price was when the product went into the cart.  When
    the commit raises (a stock SQLite cannot hold, a NaN price), the
    next checkout snapshots the price the product had. *)
Theorem price_edit_reaches_next_checkout
    (admin u : User) (pid : Z) (form : product_form) (utcnow : datetime)
    (db : Database) (p : Product) :
  is_admin admin = true ->
  get pid (products db) = Some p ->
  is_success
    (fst (checkout utcnow (Some u)
            (snd (admin_edit_product POST pid form (Some admin) db)))) = true ->
  exists items,
    order_items
      (snd (checkout utcnow (Some u)
              (snd (admin_edit_product POST pid form (Some admin) db)))) =
      order_items db ++ items /\
    List.length items = List.length (cart_of (u_id u) db) /\
    forall it, In it items -> oi_product_id it = pid ->
      oi_price it = if storable form then f_price form else p_price p.
Proof.
  intros Hadmin Hp.
  assert (Hedit : snd (admin_edit_product POST pid form (Some admin) db) =
                  if storable form
                  then with_products db
                         (update pid (edit_product form) (products db))
                  else db).
  { unfold admin_edit_product, login_required, admin_required.
    rewrite Hadmin, Hp. cbn [negb].
    destruct (get_Some _ _ _ Hp) as [_ Hpk]. cbn in Hpk. rewrite Hpk.
    now destruct (storable form). }
  rewrite Hedit. intros Hok.
  destruct (checkout_success_inv _ _ _ Hok)
    as [totals [db2 [items [_ [_ [-> [_ [Hitems Hsnap]]]]]]]].
  exists items. cbn [order_items with_cart_items].
  destruct (storable form); cbn [order_items cart_items with_products] in *;
    (split; [exact Hitems|]; split; [symmetry; exact (Forall2_length Hsnap)|]);
    intros it Hit Hpid;
    destruct (Forall2_in_r _ _ _ _ _ Hsnap it Hit)
      as [c [_ [_ [Hprod [_ [p1 [Hp1 Hprice]]]]]]];
    rewrite <- Hprod, Hpid in Hp1.
  - cbn [products with_products] in Hp1.
    rewrite get_update_same in Hp1 by reflexivity. rewrite Hp in Hp1.
    inversion Hp1; subst p1. exact Hprice.
  - rewrite Hp in Hp1. inversion Hp1; subst p1. exact Hprice.
Qed.

(** * Listings *)

Lemma insert_desc_perm (o : Order) (l : list Order) :
  Permutation (insert_desc o l) (o :: l).
Proof.
  induction l as [|x l IH]; cbn [insert_desc]; [reflexivity|].
  destruct (created_at x <=? created_at o); [reflexivity|].
  rewrite IH. apply perm_swap.
Qed.

Lemma order_by_perm (l : list Order) :
  Permutation (order_by_created_at_desc l) l.
Proof.
  unfold order_by_created_at_desc.
  induction l as [|x l IH]; cbn [fold_right]; [reflexivity|].
  rewrite insert_desc_perm. now constructor.
Qed.

Lemma insert_desc_sorted (o : Order) (l : list Order) :
  StronglySorted newest_first l -> StronglySorted newest_first (insert_desc o l).
Proof.
  induction l as [|x l IH]; intros Hs; cbn [insert_desc].
  - constructor; constructor.
  - inversion Hs as [|? ? Hs' Hall]; subst.
    destruct (created_at x <=? created_at o) eqn:E.
    + apply Z.leb_le in E. constructor; [assumption|].
      constructor; [exact E|].
      eapply Forall_impl; [|exact Hall]. unfold newest_first. intros y Hy. lia.
    + apply Z.leb_gt in E. constructor; [now apply IH|].
      apply Forall_forall. intros y Hy. apply In_insert_desc in Hy.
      destruct Hy as [<-|Hy]; [unfold newest_first; lia|].
      rewrite Forall_forall in Hall. now apply Hall.
Qed.

Lemma order_by_sorted (l : list Order) :
  StronglySorted newest_first (order_by_created_at_desc l).
Proof.
  unfold order_by_created_at_desc.
  induction l as [|x l IH]; cbn [fold_right]; [constructor|].
  now apply insert_desc_sorted.
Qed.

Lemma insert_desc_head (o : Order) (l : list Order) :
  Forall (newest_first o) l -> insert_desc o l = o :: l.
Proof.
  intros Hall. destruct l as [|x l]; [reflexivity|]. cbn [insert_desc].
  inversion Hall as [|? ? Hx _]; subst. unfold newest_first in Hx.
  apply Z.leb_le in Hx. now rewrite Hx.
Qed.

Lemma filter_insert_desc (P : Order -> bool) (o : Order) (l : list Order) :
  StronglySorted newest_first l ->
  filter P (insert_desc o l) =
  if P o then insert_desc o (filter P l) else filter P l.
Proof.
  induction l as [|x l IH]; intros Hs.
  - cbn. destruct (P o); reflexivity.
  - inversion Hs as [|? ? Hs' Hall]; subst. cbn [insert_desc].
    destruct (created_at x <=? created_at o) eqn:E.
    + apply Z.leb_le in E.
      assert (Hall' : Forall (newest_first o) (x :: l)).
      { constructor; [exact E|]. eapply Forall_impl; [|exact Hall].
        unfold newest_first. intros y Hy. lia. }
      assert (Hhead : insert_desc o (filter P (x :: l)) = o :: filter P (x :: l)).
      { apply insert_desc_head. apply Forall_forall. intros y Hy.
        apply filter_In in Hy. rewrite Forall_forall in Hall'. now apply Hall'. }
      rewrite Hhead. cbn [filter]. destruct (P o); reflexivity.
    + cbn [filter]. rewrite (IH Hs').
      destruct (P x), (P o); cbn [insert_desc]; rewrite ?E; reflexivity.
Qed.

Lemma filter_order_by (P : Order -> bool) (l : list Order) :
  filter P (order_by_created_at_desc l) = order_by_created_at_desc (filter P l).
Proof.
  induction l as [|x l IH]; [reflexivity|].
  change (order_by_created_at_desc (x :: l))
    with (insert_desc x (order_by_created_at_desc l)).
  rewrite filter_insert_desc by apply order_by_sorted.
  cbn [filter]. destruct (P x); [|exact IH].
  change (order_by_created_at_desc (x :: filter P l))
    with (insert_desc x (order_by_created_at_desc (filter P l))).
  now rewrite IH.
Qed.

(** X6. [order_history] shows the caller exactly the stored orders that
    carry the caller's id, each once, newest first. *)
Theorem order_history_own_orders_newest_first (u : User) (db : Database) :
  exists l,
    order_history (Some u) db =
      (render_template "order_history.html" (orders_context l), db) /\
    Permutation l (filter (fun o => o_user_id o =? u_id u) (orders db)) /\
    StronglySorted newest_first l.
Proof.
  eexists. split; [reflexivity|]. split; [apply order_by_perm | apply order_by_sorted].
Qed.

(** X7. [admin_orders] lists every stored order, each once, newest
    first, and what a customer sees in [order_history] is that list
    restricted to the customer's orders, in the same order. *)
Theorem admin_orders_restrict_to_history (admin u : User) (db : Database) :
  is_admin admin = true ->
  exists all,
    admin_orders (Some admin) db =
      (page_render "admin/orders.html" (order_list_context all), db) /\
    Permutation all (orders db) /\
    StronglySorted newest_first all /\
    order_history (Some u) db =
      (render_template "order_history.html"
         (orders_context (filter (fun o => o_user_id o =? u_id u) all)), db).
Proof.
  intros Hadmin. unfold admin_orders, page_login_required, page_admin_required.
  rewrite Hadmin. cbn [negb]. eexists. split; [reflexivity|].
  split; [apply order_by_perm|]. split; [apply order_by_sorted|].
  unfold order_history, login_required. now rewrite filter_order_by.
Qed.

(** * The cart page *)

Lemma mapM_line_total_inv (db : Database) (cart : list CartItem) :
  forall totals, mapM (line_total db) cart = Some totals ->
  List.length totals = List.length cart /\
  forall c, In c cart -> exists p, get (c_product_id c) (products db) = Some p.
Proof.
  induction cart as [|c cart IH]; intros totals Hm.
  - inversion Hm. split; [reflexivity | intros c []].
  - cbn [mapM] in Hm. unfold line_total at 1 in Hm.
    destruct (get (c_product_id c) (products db)) as [p|] eqn:G; [|discriminate].
    cbn [bind] in Hm.
    destruct (mapM (line_total db) cart) as [rest|]; [|discriminate].
    inversion Hm; subst totals. destruct (IH rest eq_refl) as [Hlen Hfk]. split.
    + cbn [List.length]. now rewrite Hlen.
    + intros c' [<-|Hc']; [now exists p | now apply Hfk].
Qed.

(** X8. For a non-empty cart, the total the cart page shows is the
    [total_amount] of the order that a successful checkout on the same
    database creates.  A total that is NaN is shown by the page and
    refused by checkout, which raises; and when the page itself raises,
    a line having lost its product, checkout raises too. *)
Theorem cart_page_total_is_charged (utcnow : datetime) (u : User) (db : Database) :
  (forall items total,
     cart (Some u) db = (page_render "cart.html" (cart_context items total), db) ->
     items <> [] ->
     exists t,
       total = py_flt t /\
       (is_success (fst (checkout utcnow (Some u) db)) = true ->
        exists order,
          orders (snd (checkout utcnow (Some u) db)) = orders db ++ [order] /\
          total_amount order = t) /\
       (isnan t = true -> checkout utcnow (Some u) db = (abort 500, db))) /\
  (cart (Some u) db = (page_abort 500, db) ->
   checkout utcnow (Some u) db = (abort 500, db)).
Proof.
  unfold cart, page_login_required. fold (cart_of (u_id u) db). split.
  - intros items total Hpage Hne.
    destruct (mapM (line_total db) (cart_of (u_id u) db)) as [totals|] eqn:Hm;
      [|discriminate].
    inversion Hpage; subst items. clear Hpage.
    destruct (mapM_line_total_inv _ _ _ Hm) as [Hlen _].
    destruct totals as [|t0 rest];
      [destruct (cart_of (u_id u) db); [congruence | discriminate]|].
    exists (py_sum (t0 :: rest)). split; [reflexivity|]. split.
    + intros Hok.
      destruct (checkout_success_inv _ _ _ Hok)
        as [totals' [db2 [its [Hm' [_ [Hsnd [Horders _]]]]]]].
      rewrite Hm in Hm'. inversion Hm'; subst totals'.
      eexists. rewrite Hsnd. cbn [orders with_cart_items].
      split; [exact Horders | reflexivity].
    + intros Hnan.
      destruct (checkout_outcome utcnow u db)
        as [[He _]|[[_ Hr]|[db' [_ [Htxn _]]]]]; [congruence | exact Hr |].
      destruct (checkout_txn_steps _ _ _ _ _ Htxn) as [totals' [_ [Hm' [Hnum _]]]].
      rewrite Hm in Hm'. inversion Hm'; subst totals'. congruence.
  - destruct (mapM (line_total db) (cart_of (u_id u) db)) as [totals|] eqn:Hm;
      [discriminate|].
    intros _.
    destruct (checkout_outcome utcnow u db)
      as [[He _]|[[_ Hr]|[db' [_ [Htxn _]]]]].
    + rewrite He in Hm. discriminate.
    + exact Hr.
    + destruct (checkout_txn_steps _ _ _ _ _ Htxn) as [totals' [_ [Hm' _]]].
      congruence.
Qed.

(** * Admin: orders and products *)

(** X9. For an admin and a stored order, [admin_delete_order] removes
    the order and, with it, exactly the order items that reference it;
    every other order and item stays, no item is left without its
    order, and neither stock nor carts change: deleting an order does
    not restock. *)
Theorem admin_delete_order_cascades
    (admin : User) (order_id : Z) (o : Order) (db : Database) :
  is_admin admin = true ->
  get order_id (orders db) = Some o ->
  exists db',
    admin_delete_order order_id (Some admin) db =
      (page_redirect "admin_orders" [("Order deleted successfully!", "success")], db') /\
    get order_id (orders db') = None /\
    (forall j, j <> order_id -> get j (orders db') = get j (orders db)) /\
    (forall it, In it (order_items db') <->
                In it (order_items db) /\ oi_order_id it <> order_id) /\
    products db' = products db /\
    cart_items db' = cart_items db /\
    (order_item_fk db -> order_item_fk db').
Proof.
  intros Hadmin Hget.
  unfold admin_delete_order, page_login_required, page_admin_required.
  rewrite Hadmin, Hget. cbn [negb].
  destruct (get_Some _ _ _ Hget) as [_ Hpk]. cbn in Hpk. rewrite Hpk.
  eexists. split; [reflexivity|].
  cbn [orders order_items products cart_items with_orders with_order_items].
  split; [apply get_delete_same|].
  split; [intros j Hj; now apply get_delete_other|].
  assert (Hitems : forall it,
            In it (filter (fun it => negb (oi_order_id it =? order_id)) (order_items db))
            <-> In it (order_items db) /\ oi_order_id it <> order_id).
  { intros it. rewrite filter_In, negb_true_iff, Z.eqb_neq. tauto. }
  split; [exact Hitems|]. do 2 (split; [reflexivity|]).
  intros Hfk it Hit.
  cbn [orders order_items with_orders with_order_items] in *.
  apply Hitems in Hit. destruct Hit as [Hit Hne].
  destruct (Hfk it Hit) as [o' [Ho' Hid]]. exists o'. split; [|exact Hid].
  unfold delete. apply filter_In. split; [assumption|].
  apply negb_true_iff, Z.eqb_neq. cbn [pk Order_Model]. congruence.
Qed.

Lemma product_in_use_spec (pid : Z) (db : Database) :
  product_in_use pid db = true <->
  (exists c, In c (cart_items db) /\ c_product_id c = pid) \/
  (exists it, In it (order_items db) /\ oi_product_id it = pid).
Proof.
  unfold product_in_use. rewrite orb_true_iff, !existsb_exists.
  split; intros [[x [Hx E]]|[x [Hx E]]]; [left|right|left|right]; exists x;
    (split; [assumption|]); first [now apply Z.eqb_eq | now apply Z.eqb_eq in E].
Qed.

(** X10. [admin_delete_product] on a stored product raises, and writes
    nothing, as long as a cart line or an order item references the
    product; once nothing references it, the product row alone is
    removed. *)
Theorem admin_delete_product_unless_referenced
    (admin : User) (product_id : Z) (p : Product) (db : Database) :
  is_admin admin = true ->
  get product_id (products db) = Some p ->
  ((exists c, In c (cart_items db) /\ c_product_id c = product_id) \/
   (exists it, In it (order_items db) /\ oi_product_id it = product_id) ->
   admin_delete_product product_id (Some admin) db = (page_abort 500, db)) /\
  ((forall c, In c (cart_items db) -> c_product_id c <> product_id) ->
   (forall it, In it (order_items db) -> oi_product_id it <> product_id) ->
   exists db',
     admin_delete_product product_id (Some admin) db =
       (page_redirect "admin_products"
          [("Product deleted successfully!", "success")], db') /\
     get product_id (products db') = None /\
     (forall j, j <> product_id -> get j (products db') = get j (products db)) /\
     orders db' = orders db /\ order_items db' = order_items db /\
     cart_items db' = cart_items db).
Proof.
  intros Hadmin Hget.
  unfold admin_delete_product, page_login_required, page_admin_required.
  rewrite Hadmin, Hget. cbn [negb].
  destruct (get_Some _ _ _ Hget) as [_ Hpk]. cbn in Hpk. rewrite Hpk. split.
  - intros Huse. apply product_in_use_spec in Huse. now rewrite Huse.
  - intros Hcart Hitems.
    destruct (product_in_use product_id db) eqn:Huse.
    + apply product_in_use_spec in Huse.
      destruct Huse as [[c [Hc E]]|[it [Hit E]]];
        [now apply Hcart in Hc | now apply Hitems in Hit].
    + eexists. split; [reflexivity|].
      cbn [orders order_items products cart_items with_products].
      split; [apply get_delete_same|].
      split; [intros j Hj; now apply get_delete_other|].
      repeat split.
Qed.

(** X11. Posting the order edit form without a total is, on the
    database, [admin_update_order_status]; with a total that is a
    number, the stored order takes that total as typed, its items
    untouched and never consulted; with a NaN total the commit raises
    and the order stays as it was. *)
Theorem admin_edit_order_overrides
    (order_id : Z) (new_status : string) (actor : option User) (db : Database) :
  snd (admin_edit_order POST order_id
         {| of_status := new_status; of_total_amount := None |} actor db) =
    snd (admin_update_order_status order_id new_status actor db) /\
  (forall admin o t,
     actor = Some admin -> is_admin admin = true ->
     get order_id (orders db) = Some o ->
     (isnan t = false ->
      exists db' o',
        admin_edit_order POST order_id
          {| of_status := new_status; of_total_amount := Some t |} actor db =
          (page_redirect "admin_orders"
             [("Order updated successfully!", "success")], db') /\
        get order_id (orders db') = Some o' /\
        status o' = new_status /\ total_amount o' = t /\
        o_id o' = o_id o /\ o_user_id o' = o_user_id o /\
        created_at o' = created_at o /\
        order_items db' = order_items db) /\
     (isnan t = true ->
      admin_edit_order POST order_id
        {| of_status := new_status; of_total_amount := Some t |} actor db =
        (page_abort 500, db))).
Proof.
  unfold admin_edit_order, admin_update_order_status, page_login_required,
    page_admin_required, login_required, admin_required. split.
  - destruct actor as [a|]; [|reflexivity].
    destruct (is_admin a); cbn [negb]; [|reflexivity].
    destruct (get order_id (orders db)) as [o|]; [|reflexivity]. reflexivity.
  - intros admin o t -> Hadmin Hget. rewrite Hadmin, Hget. cbn [negb].
    destruct (get_Some _ _ _ Hget) as [_ Hpk]. cbn in Hpk. rewrite Hpk.
    cbn [storable_total of_total_amount].
    split; intros Hnan; rewrite Hnan; cbn [negb]; [|reflexivity].
    eexists. exists (edit_order {| of_status := new_status;
                                   of_total_amount := Some t |} o).
    split; [reflexivity|]. cbn [orders order_items with_orders].
    split; [rewrite get_update_same by reflexivity; now rewrite Hget|].
    repeat split; exact Hpk.
Qed.

(** X12. [admin_create_order] for an id with no user row reports "User
    not found." and writes nothing; for a known user and a total that is
    a number it appends one order under a fresh id with the posted total
    and status, and no order item: the order has none, whatever its
    total; for a known user and a NaN total the commit raises and
    nothing is written. *)
Theorem admin_create_order_without_items
    (admin : User) (form : create_order_form) (utcnow : datetime)
    (users : list User) (db : Database) :
  is_admin admin = true ->
  (get (co_user_id form) users = None ->
   admin_create_order POST form utcnow users (Some admin) db =
     (page_redirect "admin_create_order" [("User not found.", "error")], db)) /\
  (forall usr, get (co_user_id form) users = Some usr ->
   (isnan (co_total_amount form) = false ->
    exists db' order,
      admin_create_order POST form utcnow users (Some admin) db =
        (page_redirect "admin_orders"
           [("Order created successfully!", "success")], db') /\
      orders db' = orders db ++ [order] /\
      get (o_id order) (orders db) = None /\
      o_user_id order = co_user_id form /\
      total_amount order = co_total_amount form /\
      status order = co_status form /\
      created_at order = utcnow /\
      order_items db' = order_items db /\
      products db' = products db /\
      cart_items db' = cart_items db /\
      (order_item_fk db ->
       filter (fun it => oi_order_id it =? o_id order) (order_items db') = [])) /\
   (isnan (co_total_amount form) = true ->
    admin_create_order POST form utcnow users (Some admin) db =
      (page_abort 500, db))).
Proof.
  intros Hadmin.
  unfold admin_create_order, page_login_required, page_admin_required.
  rewrite Hadmin. cbn [negb]. split.
  - intros Hnone. now rewrite Hnone.
  - intros usr Hsome. rewrite Hsome.
    split; intros Hnan; rewrite Hnan; [|reflexivity].
    eexists. eexists.
    split; [reflexivity|].
    cbn [orders order_items products cart_items with_orders o_id].
    split; [reflexivity|]. split; [apply (get_next_id (orders db))|].
    do 7 (split; [reflexivity|]).
    intros Hfk. now apply no_items_of_next_order.
Qed.

(** * Accounts *)

Lemma find_all_false (A : Type) (P : A -> bool) (l : list A) :
  (forall x, In x l -> P x = false) -> find P l = None.
Proof.
  induction l as [|a l IH]; intros Hall; [reflexivity|]. cbn [find].
  rewrite (Hall a (or_introl eq_refl)). apply IH. intros x Hx. apply Hall. now right.
Qed.

Lemma find_column_none (f : User -> string) (x : string) (users : list User) :
  find (fun u => String.eqb (f u) x) users = None -> ~ In x (map f users).
Proof.
  intros Hnone Hin. apply in_map_iff in Hin. destruct Hin as [u [Hu Hin]].
  apply (find_none _ _ Hnone) in Hin. cbn in Hin.
  apply String.eqb_neq in Hin. congruence.
Qed.

Lemma find_column_some (f : User -> string) (x : string) (users : list User) :
  In x (map f users) -> find (fun u => String.eqb (f u) x) users <> None.
Proof.
  intros Hin Hnone. now apply (find_column_none f x users).
Qed.

Lemma NoDup_ids_insert (mk : Z -> User) (users : list User) :
  u_id (mk (next_id users)) = next_id users ->
  NoDup (map u_id users) -> NoDup (map u_id (insert mk users)).
Proof.
  intros Hmk Hnd. change (@map User Z u_id) with (@map User Z pk).
  now apply NoDup_pk_insert.
Qed.

(** What a POST to [register] does, by cases. *)
Lemma register_cases (form : register_form) (generated_hash : string)
    (users : list User) :
  (register POST form generated_hash users =
     (flash_redirect "register" [("Username already exists.", "error")], users) /\
   In (rf_username form) (map username users)) \/
  (register POST form generated_hash users =
     (flash_redirect "register" [("Email already exists.", "error")], users) /\
   ~ In (rf_username form) (map username users) /\
   In (rf_email form) (map email users)) \/
  (register POST form generated_hash users =
     (flash_redirect "login" [("Registration successful!", "success")],
      users ++ [new_user form generated_hash (next_id users)]) /\
   ~ In (rf_username form) (map username users) /\
   ~ In (rf_email form) (map email users)).
Proof.
  unfold register.
  destruct (find (fun u => String.eqb (username u) (rf_username form)) users)
    as [u|] eqn:Fu.
  - left. split; [reflexivity|]. apply find_some in Fu. destruct Fu as [Hu E].
    apply String.eqb_eq in E. rewrite <- E. now apply in_map.
  - apply find_column_none in Fu. right.
    destruct (find (fun u => String.eqb (email u) (rf_email form)) users)
      as [u|] eqn:Fe.
    + left. split; [reflexivity|]. split; [assumption|].
      apply find_some in Fe. destruct Fe as [Hu E].
      apply String.eqb_eq in E. rewrite <- E. now apply in_map.
    + apply find_column_none in Fe. right. repeat split; assumption.
Qed.

(** X14. [register] keeps ids, usernames and emails of the user table
    distinct; it adds at most one row, never an admin, and touches no
    stored row; a username or an email that is already stored, compared
    exactly, is refused and nothing is written. *)
Theorem register_keeps_accounts_unique
    (m : method) (form : register_form) (generated_hash : string)
    (users : list User) :
  accounts_wf users ->
  accounts_wf (snd (register m form generated_hash users)) /\
  (exists extra,
     snd (register m form generated_hash users) = users ++ extra /\
     (List.length extra <= 1)%nat /\
     Forall (fun u => is_admin u = false) extra) /\
  (In (rf_username form) (map username users) \/
   In (rf_email form) (map email users) ->
   snd (register m form generated_hash users) = users).
Proof.
  intros [Hid [Hname Hmail]].
  destruct m.
  { cbn. repeat split; try assumption.
    exists []. rewrite app_nil_r. repeat split; [cbn; lia | constructor]. }
  destruct (register_cases form generated_hash users)
    as [[-> Hu]|[[-> [Hu He]]|[-> [Hu He]]]]; cbn [snd].
  - repeat split; try assumption.
    exists []. rewrite app_nil_r. repeat split; [cbn; lia | constructor].
  - repeat split; try assumption.
    exists []. rewrite app_nil_r. repeat split; [cbn; lia | constructor].
  - split; [|split].
    + split; [|split].
      * now apply (NoDup_ids_insert (new_user form generated_hash)).
      * rewrite map_app. now apply NoDup_snoc.
      * rewrite map_app. now apply NoDup_snoc.
    + eexists. split; [reflexivity|]. split; [cbn; lia|].
      constructor; [reflexivity | constructor].
    + tauto.
Qed.

Section LoginFacts.
Context {werkzeug : Werkzeug}.

Lemma first_answering_new (x : string) (new : User) (users : list User) :
  (forall v, In v users -> email v <> x) ->
  (forall v, In v users -> username v <> x) ->
  email new = x \/ username new = x ->
  first_answering x (users ++ [new]) = Some new.
Proof.
  intros Hmail Hname Hnew. unfold first_answering. rewrite !find_app.
  rewrite (find_all_false _ (fun u => String.eqb (email u) x) users)
    by (intros v Hv; apply String.eqb_neq; now apply Hmail).
  rewrite (find_all_false _ (fun u => String.eqb (username u) x) users)
    by (intros v Hv; apply String.eqb_neq; now apply Hname).
  cbn [find]. destruct (String.eqb (email new) x) eqn:E; [reflexivity|].
  destruct Hnew as [Hnew|Hnew]; rewrite Hnew, String.eqb_refl in *;
    [discriminate | reflexivity].
Qed.

Lemma login_finds_new_user (x : string) (form : register_form)
    (generated_hash password : string) (users : list User) (session : option Z) :
  (forall v, In v users -> email v <> x) ->
  (forall v, In v users -> username v <> x) ->
  rf_email form = x \/ rf_username form = x ->
  check_password_hash generated_hash password = true ->
  login POST {| lf_email_or_username := x; lf_password := password |}
    (users ++ [new_user form generated_hash (next_id users)]) session =
  (flash_redirect "home" [("Login successful!", "success")], Some (next_id users)).
Proof.
  intros Hmail Hname Hnew Hcheck. unfold login.
  cbn [lf_email_or_username lf_password].
  rewrite first_answering_new by assumption.
  cbn [password_hash new_user is_admin u_id]. now rewrite Hcheck.
Qed.

(** X15. A registration that succeeded can log in with the password it
    chose: by username when no older account has that string as its
    email, by email when no older account has it as its username; the
    session then resolves, through [load_user], to the new row, which is
    not an admin and is sent to [home]. *)
Theorem register_then_login
    (form : register_form) (generated_hash : string) (users users' : list User)
    (session : option Z) :
  register POST form generated_hash users =
    (flash_redirect "login" [("Registration successful!", "success")], users') ->
  check_password_hash generated_hash (rf_password form) = true ->
  ((forall v, In v users -> email v <> rf_username form) ->
   login POST {| lf_email_or_username := rf_username form;
                 lf_password := rf_password form |} users' session =
     (flash_redirect "home" [("Login successful!", "success")],
      Some (next_id users))) /\
  ((forall v, In v users -> username v <> rf_email form) ->
   login POST {| lf_email_or_username := rf_email form;
                 lf_password := rf_password form |} users' session =
     (flash_redirect "home" [("Login successful!", "success")],
      Some (next_id users))) /\
  current_user users' (Some (next_id users)) =
    Some (new_user form generated_hash (next_id users)).
Proof.
  intros Hreg Hcheck.
  destruct (register_cases form generated_hash users)
    as [[Hr _]|[[Hr _]|[Hr [Hu He]]]]; rewrite Hr in Hreg;
    try discriminate.
  inversion Hreg; subst users'. clear Hreg Hr.
  split; [|split].
  - intros Hcross. apply login_finds_new_user; [exact Hcross| |now right|assumption].
    intros v Hv E. apply Hu. rewrite <- E. now apply in_map.
  - intros Hcross. apply login_finds_new_user; [|exact Hcross|now left|assumption].
    intros v Hv E. apply He. rewrite <- E. now apply in_map.
  - unfold current_user, load_user, get. rewrite find_app.
    fold (get (next_id users) users). rewrite get_next_id. cbn [find pk User_Model].
    cbn [u_id new_user]. now rewrite Z.eqb_refl.
Qed.

(** X16. [register] compares a new username with stored usernames only,
    while [login] matches either column: when an older account has the
    new username as its email, the registration is accepted, and a login
    under that username is answered from an older row: it fails, or it
    opens a session of an older account, never of the new one. *)
Theorem register_shadowed_by_email
    (form : register_form) (generated_hash password : string)
    (users users' : list User) (v : User) (session : option Z) :
  register POST form generated_hash users =
    (flash_redirect "login" [("Registration successful!", "success")], users') ->
  In v users ->
  email v = rf_username form ->
  login POST {| lf_email_or_username := rf_username form;
                lf_password := password |} users' session =
    (flash_render "login.html"
       [("Invalid email/username or password.", "error")], session) \/
  exists w,
    In w users /\ u_id w <> next_id users /\
    snd (login POST {| lf_email_or_username := rf_username form;
                       lf_password := password |} users' session) =
      Some (u_id w).
Proof.
  intros Hreg Hv Hmail.
  destruct (register_cases form generated_hash users)
    as [[Hr _]|[[Hr _]|[Hr _]]]; rewrite Hr in Hreg; try discriminate.
  inversion Hreg; subst users'. clear Hreg Hr.
  unfold login, first_answering. cbn [lf_email_or_username lf_password].
  rewrite find_app.
  destruct (find (fun u => String.eqb (email u) (rf_username form)) users)
    as [w|] eqn:F.
  - apply find_some in F. destruct F as [Hw _].
    destruct (check_password_hash (password_hash w) password); [right | now left].
    exists w. split; [assumption|]. split; [|reflexivity].
    pose proof (pk_lt_next_id w users Hw) as Hlt. cbn [pk User_Model] in Hlt. lia.
  - exfalso. apply (find_none _ _ F) in Hv. cbn in Hv.
    rewrite Hmail, String.eqb_refl in Hv. discriminate.
Qed.

End LoginFacts.

Lemma taken_false (name mail : string) (users : list User) :
  taken name mail users = false ->
  ~ In name (map username users) /\ ~ In mail (map email users).
Proof.
  unfold taken. intros Hfree.
  split; intros Hin; apply in_map_iff in Hin; destruct Hin as [u [E Hu]];
    assert (Hex : existsb (fun u => String.eqb (username u) name
                                    || String.eqb (email u) mail) users = true)
      by (apply existsb_exists; exists u; split; [assumption|];
          rewrite E, String.eqb_refl; auto using orb_true_r);
    congruence.
Qed.

Lemma create_admin_user_facts (generated_hash : string) (users users' : list User) :
  create_admin_user generated_hash users = Some users' ->
  (exists a, In a users' /\ is_admin a = true) /\
  (exists extra, users' = users ++ extra /\ (List.length extra <= 1)%nat) /\
  (forall again, create_admin_user again users' = Some users') /\
  (accounts_wf users -> accounts_wf users').
Proof.
  unfold create_admin_user.
  destruct (find is_admin users) as [a|] eqn:F.
  - intros E. inversion E; subst users'. clear E.
    apply find_some in F. split; [now exists a|].
    split; [exists []; rewrite app_nil_r; split; [reflexivity | cbn; lia]|].
    split; [|tauto]. intros again.
    destruct (find is_admin users) as [b|] eqn:F'; [reflexivity|].
    destruct F as [Ha Hadm]. apply (find_none _ _ F') in Ha. congruence.
  - destruct (taken "admin" "admin@gmail.com" users) eqn:T; [discriminate|].
    intros E. inversion E; subst users'. clear E.
    set (root := {| u_id := next_id users; username := "admin";
                    email := "admin@gmail.com";
                    password_hash := generated_hash; is_admin := true |}).
    split; [exists root; split; [apply in_app_iff; right; now left | reflexivity]|].
    split; [exists [root]; split; [reflexivity | cbn; lia]|].
    split.
    + intros again. unfold insert. rewrite find_app, F. reflexivity.
    + intros [Hid [Hname Hmail]]. destruct (taken_false _ _ _ T) as [Hn Hm].
      split; [|split].
      * now apply (NoDup_ids_insert (fun id =>
               {| u_id := id; username := "admin"; email := "admin@gmail.com";
                  password_hash := generated_hash; is_admin := true |})).
      * unfold insert. rewrite map_app. now apply NoDup_snoc.
      * unfold insert. rewrite map_app. now apply NoDup_snoc.
Qed.

(** X17. When [create_admin_user] returns, the user table holds an
    admin, has gained at most the one row "admin" and kept its ids,
    usernames and emails distinct, and running it again changes nothing;
    it raises exactly when there is no admin while the username "admin"
    or the address "admin@gmail.com" is already taken. *)
Theorem create_admin_user_once
    (generated_hash : string) (users : list User) :
  (forall users',
     create_admin_user generated_hash users = Some users' ->
     (exists a, In a users' /\ is_admin a = true) /\
     (exists extra, users' = users ++ extra /\ (List.length extra <= 1)%nat) /\
     (forall again, create_admin_user again users' = Some users') /\
     (accounts_wf users -> accounts_wf users')) /\
  (create_admin_user generated_hash users = None <->
   find is_admin users = None /\ taken "admin" "admin@gmail.com" users = true).
Proof.
  split; [intros users'; apply create_admin_user_facts|].
  unfold create_admin_user.
  destruct (find is_admin users) as [a|];
    [split; [discriminate | intros [? _]; discriminate]|].
  destruct (taken "admin" "admin@gmail.com" users);
    [tauto | split; [discriminate | intros [_ ?]; discriminate]].
Qed.

(** * Start-up *)

Section StartupFacts.
Variable float_of_literal : string -> float.

Lemma seed_products_again (t t' : datetime) (db : Database) :
  seed_products float_of_literal t' (seed_products float_of_literal t db) =
  seed_products float_of_literal t db.
Proof.
  destruct db as [ps os its cs]. unfold seed_products. cbn [products].
  destruct ps as [|p l]; reflexivity.
Qed.

(** X18. The start-up block, when it completes, leaves an admin account
    and a non-empty catalogue, and completing it again changes nothing:
    a restart never duplicates the admin or the samples.  It writes
    products only into an empty catalogue, where it stores the four
    samples under ids 1 to 4, and never touches orders, items or carts. *)
Theorem startup_once
    (generated_hash : string) (utcnow : datetime) (st st' : Store) :
  startup float_of_literal generated_hash utcnow st = Some st' ->
  (forall again later, startup float_of_literal again later st' = Some st') /\
  (exists a, In a (accounts st') /\ is_admin a = true) /\
  (products (database st) <> [] -> database st' = database st) /\
  (products (database st) = [] ->
   map p_id (products (database st')) = [1; 2; 3; 4] /\
   map p_name (products (database st')) =
     ["Laptop"; "Smartphone"; "Headphones"; "Tablet"] /\
   map p_stock (products (database st')) = [10; 15; 25; 20]) /\
  orders (database st') = orders (database st) /\
  order_items (database st') = order_items (database st) /\
  cart_items (database st') = cart_items (database st).
Proof.
  unfold startup, bind.
  destruct (create_admin_user generated_hash (accounts st)) as [users|] eqn:C;
    [|discriminate].
  intros E. inversion E; subst st'. clear E. cbn [accounts database].
  destruct (create_admin_user_facts _ _ _ C) as [Hadmin [_ [Hagain _]]].
  split; [intros again later; now rewrite Hagain, seed_products_again|].
  split; [exact Hadmin|].
  destruct st as [acc [ps os its cs]]. unfold seed_products.
  cbn [database products orders order_items cart_items].
  destruct ps as [|p l].
  - split; [congruence|]. split; [intros _; repeat split|].
    repeat split.
  - split; [reflexivity|]. split; [discriminate|]. repeat split.
Qed.

End StartupFacts.

(** * Who may write *)

Lemma handle_anonymous (db : Database) (r : request) : handle db (None, r) = db.
Proof. destruct r; reflexivity. Qed.

Lemma handle_not_admin (db : Database) (a : User) (r : request) :
  admin_route (Core r) = true -> is_admin a = false ->
  handle db (Some a, r) = db.
Proof.
  intros Hr Ha. unfold handle. cbn [fst snd].
  destruct r; cbn in Hr; try discriminate; cbn [dispatch];
    unfold admin_add_product, admin_edit_product, admin_update_order_status,
      login_required, admin_required; now rewrite Ha.
Qed.

Lemma page_views_not_admin (actor : option User) (users : list User) (db : Database) :
  (forall a, actor = Some a -> is_admin a = false) ->
  (forall pid, snd (admin_delete_product pid actor db) = db) /\
  (forall m oid form, snd (admin_edit_order m oid form actor db) = db) /\
  (forall m form t, snd (admin_create_order m form t users actor db) = db) /\
  (forall oid, snd (admin_delete_order oid actor db) = db).
Proof.
  intros Hna.
  unfold admin_delete_product, admin_edit_order, admin_create_order,
    admin_delete_order, page_login_required, page_admin_required.
  destruct actor as [a|]; [|repeat split].
  rewrite (Hna a eq_refl). repeat split.
Qed.

Lemma store_eta (st : Store) :
  {| accounts := accounts st; database := database st |} = st.
Proof. now destruct st. Qed.

Lemma site_handle_not_admin (st : Store) (session : option Z) (r : site_request) :
  admin_route r = true ->
  (forall a, current_user (accounts st) session = Some a -> is_admin a = false) ->
  site_handle st (session, r) = st.
Proof.
  intros Hr Hna. unfold site_handle. cbn [fst snd].
  destruct (page_views_not_admin (current_user (accounts st) session)
              (accounts st) (database st) Hna) as [Hdp [Heo [Hco Hdo]]].
  destruct r as [r| | | | |]; try discriminate;
    rewrite ?Hdp, ?Heo, ?Hco, ?Hdo; try apply store_eta.
  destruct (current_user (accounts st) session) as [a|].
  - rewrite (handle_not_admin _ _ _ Hr (Hna a eq_refl)). apply store_eta.
  - rewrite handle_anonymous. apply store_eta.
Qed.

(** X19. A request whose session resolves to no user row changes
    nothing on any route but [register]; a request to a route behind
    [admin_required] changes nothing unless the session resolves to a
    row with [is_admin] set. *)
Theorem gated_routes_write_nothing
    (st : Store) (session : option Z) (r : site_request) :
  (current_user (accounts st) session = None ->
   (forall m form h, r <> Register m form h) ->
   site_handle st (session, r) = st) /\
  (admin_route r = true ->
   (forall a, current_user (accounts st) session = Some a -> is_admin a = false) ->
   site_handle st (session, r) = st).
Proof.
  split; [|apply site_handle_not_admin].
  intros Hnone Hreg. unfold site_handle. cbn [fst snd]. rewrite Hnone.
  destruct r as [r|m form h| | | |]; try (cbn; apply store_eta).
  - rewrite handle_anonymous. apply store_eta.
  - now destruct (Hreg m form h).
Qed.

Lemma customer_effect_refl (st : Store) : customer_effect st st.
Proof.
  split; [exists []; rewrite app_nil_r; split; [reflexivity | constructor]|].
  split; [apply Forall2_refl; intros p; exists (p_stock p); symmetry;
          apply set_stock_same|].
  split; [exists []; rewrite app_nil_r; split; [reflexivity | constructor]|].
  exists []. now rewrite app_nil_r.
Qed.

Lemma customer_effect_trans (st1 st2 st3 : Store) :
  customer_effect st1 st2 -> customer_effect st2 st3 -> customer_effect st1 st3.
Proof.
  intros [[e1 [Ha1 He1]] [Hp1 [[n1 [Ho1 Hn1]] [i1 Hi1]]]]
         [[e2 [Ha2 He2]] [Hp2 [[n2 [Ho2 Hn2]] [i2 Hi2]]]].
  split; [exists (e1 ++ e2); split;
          [rewrite Ha2, Ha1; now rewrite app_assoc | now apply Forall_app]|].
  split.
  { refine (Forall2_compose _ _ _ _ _ _ _ Hp1 _ Hp2).
    intros x y z [n Hn] [m Hm]. exists m. rewrite Hm, Hn. reflexivity. }
  split; [exists (n1 ++ n2); split;
          [rewrite Ho2, Ho1; now rewrite app_assoc | now apply Forall_app]|].
  exists (i1 ++ i2). rewrite Hi2, Hi1. now rewrite app_assoc.
Qed.

Lemma customer_effect_same_tables (st st' : Store) :
  accounts st' = accounts st ->
  products (database st') = products (database st) ->
  orders (database st') = orders (database st) ->
  order_items (database st') = order_items (database st) ->
  customer_effect st st'.
Proof.
  intros Ha Hp Ho Hi. unfold customer_effect. rewrite Ha, Hp, Ho, Hi.
  apply (customer_effect_refl st).
Qed.

Lemma checkout_customer_effect (utcnow : datetime) (actor : option User)
    (db : Database) :
  Forall2 restocked (products db) (products (snd (checkout utcnow actor db))) /\
  (exists new,
     orders (snd (checkout utcnow actor db)) = orders db ++ new /\
     Forall (fun o => status o = "pending") new) /\
  (exists new, order_items (snd (checkout utcnow actor db)) = order_items db ++ new).
Proof.
  assert (Hsame : forall db' : Database, db' = db ->
            Forall2 restocked (products db) (products db') /\
            (exists new, orders db' = orders db ++ new /\
                         Forall (fun o => status o = "pending") new) /\
            (exists new, order_items db' = order_items db ++ new)).
  { intros db' ->.
    split; [apply Forall2_refl; intros p; exists (p_stock p); symmetry;
            apply set_stock_same|].
    split; [exists []; rewrite app_nil_r; split; [reflexivity | constructor]|].
    exists []. now rewrite app_nil_r. }
  destruct actor as [u|]; [|now apply Hsame].
  destruct (is_success (fst (checkout utcnow (Some u) db))) eqn:Hok.
  - destruct (checkout_success_inv _ _ _ Hok)
      as [totals [db2 [items [_ [Hfold [-> [Horders [Hitems _]]]]]]]].
    cbn [products orders order_items with_cart_items].
    split.
    + pose proof (foldM_place_item_products _ _ _ _ Hfold) as Hp.
      cbn [products with_orders] in Hp.
      eapply Forall2_impl; [|exact Hp]. intros p p' [Hn _]. exact Hn.
    + split; [eexists; split; [exact Horders|]; constructor;
              [reflexivity | constructor]|].
      now exists items.
  - apply Hsame.
    destruct (checkout_outcome utcnow u db)
      as [[_ Hr]|[[_ Hr]|[db' [_ [_ Hr]]]]]; rewrite Hr in Hok |- *;
      [reflexivity | reflexivity | discriminate].
Qed.

Lemma site_handle_customer_effect (st : Store) (session : option Z)
    (r : site_request) :
  (forall a, current_user (accounts st) session = Some a -> is_admin a = false) ->
  customer_effect st (site_handle st (session, r)).
Proof.
  intros Hna.
  destruct (admin_route r) eqn:Hroute;
    [rewrite (site_handle_not_admin _ _ _ Hroute Hna); apply customer_effect_refl|].
  unfold site_handle. cbn [fst snd].
  destruct r as [r|m form h| | | |]; try discriminate.
  - destruct (cart_views_frame (current_user (accounts st) session) (database st))
      as [Hadd [Hupd Hrem]].
    destruct r; try discriminate; unfold handle; cbn [fst snd dispatch].
    + apply customer_effect_same_tables; cbn [accounts database];
        [reflexivity | apply Hadd..].
    + apply customer_effect_same_tables; cbn [accounts database];
        [reflexivity | apply Hupd..].
    + apply customer_effect_same_tables; cbn [accounts database];
        [reflexivity | apply Hrem..].
    + split; [exists []; cbn [accounts]; rewrite app_nil_r;
              split; [reflexivity | constructor]|].
      cbn [database]. apply checkout_customer_effect.
    + apply customer_effect_same_tables; cbn [accounts database];
        unfold order_history, login_required;
        destruct (current_user (accounts st) session); reflexivity.
  - split; [|cbn [database]; apply (customer_effect_refl st)].
    cbn [accounts]. destruct m;
      [exists []; rewrite app_nil_r; split; [reflexivity | constructor]|].
    destruct (register_cases form h (accounts st))
      as [[-> _]|[[-> _]|[-> _]]]; cbn [snd];
      try (exists []; rewrite app_nil_r; split; [reflexivity | constructor]).
    eexists. split; [reflexivity|]. constructor; [reflexivity | constructor].
Qed.

(** X20. Privileges never grow.  Over any sequence of requests none of
    which carries the session of an account that is an admin at the
    start, every account added is a customer, and the shop changes only
    as customers can change it: products keep everything but their
    stock, orders and order items are only appended, and every new order
    is pending. *)
Theorem customers_cannot_escalate
    (reqs : list (option Z * site_request)) (st : Store) :
  (forall s r a, In (Some s, r) reqs -> In a (accounts st) -> u_id a = s ->
                 is_admin a = false) ->
  customer_effect st (site_serve reqs st).
Proof.
  revert st. induction reqs as [|[session r] reqs IH]; intros st Hcust;
    [apply customer_effect_refl|].
  assert (Hna : forall a, current_user (accounts st) session = Some a ->
                          is_admin a = false).
  { intros a Ha. destruct session as [s|]; [|discriminate].
    cbn in Ha. destruct (get_Some _ _ _ Ha) as [Hin Hid].
    apply (Hcust s r a); [now left | assumption | exact Hid]. }
  pose proof (site_handle_customer_effect st session r Hna) as Hstep.
  apply (customer_effect_trans _ _ _ Hstep).
  apply IH. intros s r' a Hreq Ha Hid.
  destruct Hstep as [[extra [Hacc Hextra]] _]. rewrite Hacc in Ha.
  apply in_app_iff in Ha. destruct Ha as [Ha|Ha].
  - apply (Hcust s r' a); [now right | assumption | assumption].
  - rewrite Forall_forall in Hextra. now apply Hextra.
Qed.

(** * How one request changes each table *)

Lemma same_pk_map (A : Type) (model : Model A) (l l' : list A) :
  Forall2 (fun a a' => pk a' = pk a) l l' -> map pk l' = map pk l.
Proof. induction 1 as [|a a' l l' E _ IH]; cbn [map]; congruence. Qed.

Lemma same_pk_get (A : Type) (model : Model A) (l l' : list A) (id : Z) (a : A) :
  Forall2 (fun a a' => pk a' = pk a) l l' ->
  get id l = Some a -> exists a', get id l' = Some a'.
Proof.
  unfold get. induction 1 as [|x x' l l' E _ IH]; cbn [find]; [discriminate|].
  rewrite E. destruct (pk x =? id); [intros _; now eexists | exact IH].
Qed.

Lemma get_app_stays (A : Type) (model : Model A) (l extra : list A) (id : Z) (a : A) :
  get id l = Some a -> get id (l ++ extra) = Some a.
Proof. unfold get. intros Hg. now rewrite find_app, Hg. Qed.

Lemma restocked_same_id (l l' : list Product) :
  Forall2 restocked l l' -> Forall2 (fun p p' => pk p' = pk p) l l'.
Proof.
  intros H. eapply Forall2_impl; [|exact H]. intros p p' [n ->]. reflexivity.
Qed.

Lemma handle_products_shape (db : Database) (req : option User * request) :
  Forall2 (fun p p' => pk p' = pk p) (products db) (products (handle db req)) \/
  exists new,
    pk new = next_id (products db) /\
    products (handle db req) = products db ++ [new].
Proof.
  assert (Hsame : forall db' : Database, products db' = products db ->
            Forall2 (fun p p' => pk p' = pk p) (products db) (products db')).
  { intros db' ->. now apply Forall2_refl. }
  destruct req as [actor r]. unfold handle. cbn [fst snd].
  destruct (cart_views_frame actor db) as [Hadd [Hupd Hrem]].
  destruct (admin_views_frame actor db) as [_ Hstatus].
  destruct r; cbn [dispatch].
  - left. apply Hsame, Hadd.
  - left. apply Hsame, Hupd.
  - left. apply Hsame, Hrem.
  - left. apply restocked_same_id. apply checkout_customer_effect.
  - left. unfold order_history, login_required. destruct actor; now apply Hsame.
  - unfold admin_add_product, login_required, admin_required.
    destruct actor as [a|]; [|left; now apply Hsame].
    destruct (is_admin a); cbn [negb]; [|left; now apply Hsame].
    destruct m; [left; now apply Hsame|].
    destruct (storable form); [|left; now apply Hsame]. right.
    eexists. split; [|reflexivity]. reflexivity.
  - left. unfold admin_edit_product, login_required, admin_required.
    destruct actor as [a|]; [|now apply Hsame].
    destruct (is_admin a); cbn [negb]; [|now apply Hsame].
    destruct (get product_id (products db)) as [product|]; [|now apply Hsame].
    destruct m; [now apply Hsame|].
    destruct (storable form); [|now apply Hsame].
    cbn [snd products with_products].
    unfold update. apply Forall2_map_r. intros p.
    destruct (pk p =? p_id product); reflexivity.
  - left. apply Hsame, Hstatus.
Qed.

Lemma handle_product_stays (db : Database) (req : option User * request)
    (pid : Z) (p : Product) :
  get pid (products db) = Some p ->
  exists p', get pid (products (handle db req)) = Some p'.
Proof.
  intros Hp. destruct (handle_products_shape db req) as [Hs|[new [_ ->]]].
  - apply (same_pk_get _ _ _ _ _ _ Hs Hp).
  - exists p. now apply get_app_stays.
Qed.

Lemma handle_orders_shape (db : Database) (actor : option User) (r : request) :
  Forall2 (fun o o' => o_id o' = o_id o /\ o_user_id o' = o_user_id o)
    (orders db) (orders (handle db (actor, r))) \/
  exists u new,
    actor = Some u /\ o_id new = next_id (orders db) /\
    o_user_id new = u_id u /\
    orders (handle db (actor, r)) = orders db ++ [new].
Proof.
  assert (Hsame : forall db' : Database, orders db' = orders db ->
            Forall2 (fun o o' => o_id o' = o_id o /\ o_user_id o' = o_user_id o)
              (orders db) (orders db')).
  { intros db' ->. now apply Forall2_refl. }
  unfold handle. cbn [fst snd].
  destruct (cart_views_frame actor db) as [Hadd [Hupd Hrem]].
  destruct (admin_views_frame actor db) as [Hnew _].
  destruct r; cbn [dispatch].
  - left. apply Hsame, Hadd.
  - left. apply Hsame, Hupd.
  - left. apply Hsame, Hrem.
  - destruct actor as [u|]; [|left; now apply Hsame].
    destruct (is_success (fst (checkout utcnow (Some u) db))) eqn:Hok.
    + right. destruct (checkout_success_inv _ _ _ Hok)
        as [totals [db2 [items [_ [_ [-> [Horders _]]]]]]].
      exists u. eexists. cbn [orders with_cart_items].
      split; [reflexivity|]. split; [|split; [|exact Horders]]; reflexivity.
    + left. apply Hsame.
      destruct (checkout_outcome utcnow u db)
        as [[_ Hr]|[[_ Hr]|[db' [_ [_ Hr]]]]]; rewrite Hr in Hok |- *;
        [reflexivity | reflexivity | discriminate].
  - left. unfold order_history, login_required. destruct actor; now apply Hsame.
  - left. apply Hsame, Hnew.
  - left. apply Hsame, admin_edit_product_frame.
  - left. unfold admin_update_order_status, login_required, admin_required.
    destruct actor as [a|]; [|now apply Hsame].
    destruct (is_admin a); cbn [negb]; [|now apply Hsame].
    destruct (get order_id (orders db)) as [order|]; [|now apply Hsame].
    cbn [snd orders with_orders]. unfold update. apply Forall2_map_r.
    intros o. destruct (pk o =? o_id order); split; reflexivity.
Qed.

Lemma foldM_place_item_item_ids (oid : Z) (cart : list CartItem) :
  forall db db',
  foldM (place_item oid) cart db = Some db' ->
  NoDup (map oi_id (order_items db)) -> NoDup (map oi_id (order_items db')).
Proof.
  induction cart as [|c cart IH]; intros db db' E Hnd.
  - now inversion E; subst.
  - cbn [foldM] in E. unfold bind in E.
    destruct (place_item oid db c) as [db1|] eqn:E1; [|discriminate].
    apply (IH _ _ E).
    destruct (place_item_inv _ _ _ _ E1) as [product [_ [_ ->]]].
    cbn [order_items with_products with_order_items].
    change (@map OrderItem Z oi_id) with (@map OrderItem Z pk).
    now apply NoDup_pk_insert.
Qed.

Lemma handle_items_shape (db : Database) (req : option User * request) :
  exists new,
    order_items (handle db req) = order_items db ++ new /\
    (NoDup (map oi_id (order_items db)) ->
     NoDup (map oi_id (order_items (handle db req)))) /\
    (forall it, In it new ->
       exists p, get (oi_product_id it) (products db) = Some p).
Proof.
  assert (Hsame : forall db' : Database, order_items db' = order_items db ->
            exists new,
              order_items db' = order_items db ++ new /\
              (NoDup (map oi_id (order_items db)) ->
               NoDup (map oi_id (order_items db'))) /\
              (forall it, In it new ->
                 exists p, get (oi_product_id it) (products db) = Some p)).
  { intros db' ->. exists []. rewrite app_nil_r.
    split; [reflexivity|]. split; [tauto | intros it []]. }
  destruct req as [actor r]. unfold handle. cbn [fst snd].
  destruct (cart_views_frame actor db) as [Hadd [Hupd Hrem]].
  destruct (admin_views_frame actor db) as [Hnew Hstatus].
  destruct r; cbn [dispatch].
  - apply Hsame, Hadd.
  - apply Hsame, Hupd.
  - apply Hsame, Hrem.
  - destruct actor as [u|]; [|now apply Hsame].
    destruct (is_success (fst (checkout utcnow (Some u) db))) eqn:Hok.
    + destruct (checkout_success_inv _ _ _ Hok)
        as [totals [db2 [items [_ [Hfold [-> [_ [Hitems Hsnap]]]]]]]].
      exists items. cbn [order_items with_cart_items].
      split; [exact Hitems|]. split.
      * intros Hnd. now apply (foldM_place_item_item_ids _ _ _ _ Hfold).
      * intros it Hit.
        destruct (Forall2_in_r _ _ _ _ _ Hsnap it Hit)
          as [c [_ [_ [Hprod [_ [p [Hp _]]]]]]].
        exists p. now rewrite Hprod.
    + apply Hsame.
      destruct (checkout_outcome utcnow u db)
        as [[_ Hr]|[[_ Hr]|[db' [_ [_ Hr]]]]]; rewrite Hr in Hok |- *;
        [reflexivity | reflexivity | discriminate].
  - unfold order_history, login_required. destruct actor; now apply Hsame.
  - apply Hsame, Hnew.
  - apply Hsame, admin_edit_product_frame.
  - apply Hsame, Hstatus.
Qed.

Lemma In_update_quantity (id q : Z) (t : list CartItem) (c : CartItem) :
  In c (update id (set_quantity q) t) ->
  exists r, In r t /\ c_user_id c = c_user_id r /\ (c = r \/ c_quantity c = q).
Proof.
  unfold update. intros Hc. apply in_map_iff in Hc. destruct Hc as [r [<- Hr]].
  exists r. split; [assumption|].
  destruct (pk r =? id); split; try reflexivity; [now right | now left].
Qed.

Lemma handle_cart_lines (db : Database) (actor : option User) (r : request)
    (c : CartItem) :
  In c (cart_items (handle db (actor, r))) ->
  ((exists r0, In r0 (cart_items db) /\ c_user_id c = c_user_id r0) \/
   (exists u, actor = Some u /\ c_user_id c = u_id u)) /\
  ((exists r1, In r1 (cart_items db) /\ c_quantity r1 <= c_quantity c) \/
   1 <= c_quantity c).
Proof.
  assert (Hold : forall c0, In c0 (cart_items db) ->
            ((exists r0, In r0 (cart_items db) /\ c_user_id c0 = c_user_id r0) \/
             (exists u, actor = Some u /\ c_user_id c0 = u_id u)) /\
            ((exists r1, In r1 (cart_items db) /\ c_quantity r1 <= c_quantity c0) \/
             1 <= c_quantity c0)).
  { intros c0 Hc0. split; left; exists c0; split; [assumption | reflexivity
                                                   | assumption | lia]. }
  unfold handle. cbn [fst snd].
  destruct (admin_views_keep_cart actor db) as [Hnew [Hedit Hstatus]].
  destruct r; cbn [dispatch]; rewrite ?Hnew, ?Hedit, ?Hstatus; try now apply Hold.
  - destruct actor as [a|]; [|now apply Hold].
    destruct (add_to_cart_cases product_id a db)
      as [[_ ->]|[[product [item [G [F [_ [_ ->]]]]]]|[product [G [F [_ ->]]]]]];
      [now apply Hold| |]; cbn [cart_items with_cart_items].
    + intros Hc. apply In_update_quantity in Hc.
      destruct Hc as [r0 [Hr0 [Hu [->|Hq]]]]; [now apply Hold|].
      split; [left; now exists r0|]. left. exists item.
      split; [apply (find_some _ _ F) | lia].
    + unfold insert. intros Hc. apply in_app_iff in Hc.
      destruct Hc as [Hc|[<-|[]]]; [now apply Hold|].
      split; [right; now exists a | right; cbn; lia].
  - destruct actor as [a|]; [|now apply Hold].
    destruct (update_cart_cases item_id quantity a db)
      as [[_ ->]|[line [_ [_ [_ [[_ ->]|[Hq [_ ->]]]]]]]];
      [now apply Hold| |]; cbn [cart_items with_cart_items].
    + intros Hc. apply filter_In in Hc. now apply Hold.
    + intros Hc. apply In_update_quantity in Hc.
      destruct Hc as [r0 [Hr0 [Hu [->|Hq']]]]; [now apply Hold|].
      split; [left; now exists r0|]. right. lia.
  - destruct actor as [a|]; [|now apply Hold].
    destruct (remove_from_cart_cases item_id a db)
      as [[_ ->]|[line [_ [_ [_ ->]]]]]; [now apply Hold|].
    cbn [cart_items with_cart_items].
    intros Hc. apply filter_In in Hc. now apply Hold.
  - destruct actor as [a|]; [|now apply Hold].
    rewrite checkout_cart_items. destruct (is_success _); [|now apply Hold].
    intros Hc. apply filter_In in Hc. now apply Hold.
  - unfold order_history, login_required. destruct actor; now apply Hold.
Qed.

(** * The schema along a run *)

Lemma NoDup_pk_next (A : Type) (model : Model A) (l : list A) (new : A) :
  pk new = next_id l -> NoDup (map pk l) -> NoDup (map pk (l ++ [new])).
Proof.
  intros Hnew Hnd. rewrite map_app. cbn [map].
  apply NoDup_snoc; [assumption|]. rewrite Hnew.
  intros Hin. apply in_map_iff in Hin. destruct Hin as [r [Hr Hin]].
  apply pk_lt_next_id in Hin. lia.
Qed.

Lemma core_product_ids (db : Database) (req : option User * request) :
  NoDup (map p_id (products db)) -> NoDup (map p_id (products (handle db req))).
Proof.
  intros Hnd. change (@map Product Z p_id) with (@map Product Z pk) in *.
  destruct (handle_products_shape db req) as [Hs|[new [Hid ->]]].
  - now rewrite (same_pk_map _ _ _ _ Hs).
  - now apply NoDup_pk_next.
Qed.

Lemma core_order_ids (db : Database) (req : option User * request) :
  NoDup (map o_id (orders db)) -> NoDup (map o_id (orders (handle db req))).
Proof.
  intros Hnd. destruct req as [actor r].
  change (@map Order Z o_id) with (@map Order Z pk) in *.
  destruct (handle_orders_shape db actor r) as [Hs|[u [new [_ [Hid [_ ->]]]]]].
  - rewrite (same_pk_map _ _ (orders db)); [assumption|].
    eapply Forall2_impl; [|exact Hs]. intros o o' [E _]. exact E.
  - now apply NoDup_pk_next.
Qed.

Lemma core_item_ids (db : Database) (req : option User * request) :
  NoDup (map oi_id (order_items db)) ->
  NoDup (map oi_id (order_items (handle db req))).
Proof.
  destruct (handle_items_shape db req) as [new [_ [Hnd _]]]. exact Hnd.
Qed.

Lemma core_item_product_fk (db : Database) (req : option User * request) :
  (forall it, In it (order_items db) ->
     exists p, get (oi_product_id it) (products db) = Some p) ->
  forall it, In it (order_items (handle db req)) ->
    exists p, get (oi_product_id it) (products (handle db req)) = Some p.
Proof.
  intros Hfk it Hit.
  destruct (handle_items_shape db req) as [new [Hitems [_ Hnew]]].
  rewrite Hitems in Hit. apply in_app_iff in Hit.
  destruct Hit as [Hit|Hit]; [destruct (Hfk it Hit) as [p Hp]
                             | destruct (Hnew it Hit) as [p Hp]];
    apply (handle_product_stays db req _ p Hp).
Qed.

Lemma core_order_owner (users : list User) (db : Database) (actor : option User)
    (r : request) :
  (forall u, actor = Some u -> has_account users (u_id u)) ->
  (forall o, In o (orders db) -> has_account users (o_user_id o)) ->
  forall o, In o (orders (handle db (actor, r))) -> has_account users (o_user_id o).
Proof.
  intros Hactor Hfk o Ho.
  destruct (handle_orders_shape db actor r) as [Hs|[u [new [Ha [_ [Hu Horders]]]]]].
  - destruct (Forall2_in_r _ _ _ _ _ Hs o Ho) as [o0 [Ho0 [_ E]]].
    rewrite E. now apply Hfk.
  - rewrite Horders in Ho. apply in_app_iff in Ho.
    destruct Ho as [Ho|[<-|[]]]; [now apply Hfk|]. rewrite Hu. now apply Hactor.
Qed.

Lemma core_cart_owner (users : list User) (db : Database) (actor : option User)
    (r : request) :
  (forall u, actor = Some u -> has_account users (u_id u)) ->
  (forall c, In c (cart_items db) -> has_account users (c_user_id c)) ->
  forall c, In c (cart_items (handle db (actor, r))) ->
    has_account users (c_user_id c).
Proof.
  intros Hactor Hfk c Hc.
  destruct (handle_cart_lines db actor r c Hc) as [[[r0 [Hr0 E]]|[u [Ha E]]] _];
    rewrite E; [now apply Hfk | now apply Hactor].
Qed.

Lemma current_user_has_account (users : list User) (session : option Z) (u : User) :
  current_user users session = Some u -> has_account users (u_id u).
Proof.
  destruct session as [s|]; [|discriminate]. cbn. intros Hg.
  destruct (get_Some _ _ _ Hg) as [Hin _]. now exists u.
Qed.

Lemma has_account_app (users extra : list User) (id : Z) :
  has_account users id -> has_account (users ++ extra) id.
Proof.
  intros [u [Hu E]]. exists u. split; [apply in_app_iff; now left | exact E].
Qed.

Lemma register_facts (m : method) (form : register_form) (generated_hash : string)
    (users : list User) :
  accounts_wf users ->
  accounts_wf (snd (register m form generated_hash users)) /\
  (exists extra,
     snd (register m form generated_hash users) = users ++ extra /\
     (List.length extra <= 1)%nat /\
     Forall (fun u => is_admin u = false) extra) /\
  (In (rf_username form) (map username users) \/
   In (rf_email form) (map email users) ->
   snd (register m form generated_hash users) = users).
Proof.
  intros [Hid [Hname Hmail]].
  destruct m.
  { cbn. repeat split; try assumption.
    exists []. rewrite app_nil_r. repeat split; [cbn; lia | constructor]. }
  destruct (register_cases form generated_hash users)
    as [[-> Hu]|[[-> [Hu He]]|[-> [Hu He]]]]; cbn [snd].
  - repeat split; try assumption.
    exists []. rewrite app_nil_r. repeat split; [cbn; lia | constructor].
  - repeat split; try assumption.
    exists []. rewrite app_nil_r. repeat split; [cbn; lia | constructor].
  - split; [|split].
    + split; [|split].
      * now apply (NoDup_ids_insert (new_user form generated_hash)).
      * rewrite map_app. now apply NoDup_snoc.
      * rewrite map_app. now apply NoDup_snoc.
    + eexists. split; [reflexivity|]. split; [cbn; lia|].
      constructor; [reflexivity | constructor].
    + tauto.
Qed.

Lemma admin_delete_product_effect (pid : Z) (actor : option User) (db : Database) :
  snd (admin_delete_product pid actor db) = db \/
  (product_in_use pid db = false /\
   snd (admin_delete_product pid actor db) =
     with_products db (delete pid (products db))).
Proof.
  unfold admin_delete_product, page_login_required, page_admin_required.
  destruct actor as [a|]; [|now left].
  destruct (is_admin a); cbn [negb]; [|now left].
  destruct (get pid (products db)) as [product|] eqn:G; [|now left].
  destruct (get_Some _ _ _ G) as [_ Hpk]. cbn in Hpk. rewrite Hpk.
  destruct (product_in_use pid db); [now left | right; split; reflexivity].
Qed.

Lemma admin_edit_order_effect (m : method) (oid : Z) (form : order_form)
    (actor : option User) (db : Database) :
  snd (admin_edit_order m oid form actor db) = db \/
  snd (admin_edit_order m oid form actor db) =
    with_orders db (update oid (edit_order form) (orders db)).
Proof.
  unfold admin_edit_order, page_login_required, page_admin_required.
  destruct actor as [a|]; [|now left].
  destruct (is_admin a); cbn [negb]; [|now left].
  destruct (get oid (orders db)) as [order|] eqn:G; [|now left].
  destruct (get_Some _ _ _ G) as [_ Hpk]. cbn in Hpk. rewrite Hpk.
  destruct m; [now left|].
  destruct (storable_total _); [now right | now left].
Qed.

Lemma admin_create_order_effect (m : method) (form : create_order_form)
    (utcnow : datetime) (users : list User) (actor : option User) (db : Database) :
  snd (admin_create_order m form utcnow users actor db) = db \/
  exists usr new,
    get (co_user_id form) users = Some usr /\
    o_id new = next_id (orders db) /\ o_user_id new = co_user_id form /\
    snd (admin_create_order m form utcnow users actor db) =
      with_orders db (orders db ++ [new]).
Proof.
  unfold admin_create_order, page_login_required, page_admin_required.
  destruct actor as [a|]; [|now left].
  destruct (is_admin a); cbn [negb]; [|now left].
  destruct m; [now left|].
  destruct (get (co_user_id form) users) as [usr|]; [|now left].
  destruct (isnan _); [now left|].
  right. exists usr. eexists. split; [reflexivity|].
  split; [|split; [|reflexivity]]; reflexivity.
Qed.

Lemma admin_delete_order_effect (oid : Z) (actor : option User) (db : Database) :
  snd (admin_delete_order oid actor db) = db \/
  snd (admin_delete_order oid actor db) =
    with_order_items (with_orders db (delete oid (orders db)))
      (filter (fun it => negb (oi_order_id it =? oid)) (order_items db)).
Proof.
  unfold admin_delete_order, page_login_required, page_admin_required.
  destruct actor as [a|]; [|now left].
  destruct (is_admin a); cbn [negb]; [|now left].
  destruct (get oid (orders db)) as [order|] eqn:G; [|now left].
  destruct (get_Some _ _ _ G) as [_ Hpk]. cbn in Hpk. rewrite Hpk. now right.
Qed.

Lemma delete_order_item_fk (oid : Z) (db : Database) :
  order_item_fk db ->
  order_item_fk
    (with_order_items (with_orders db (delete oid (orders db)))
       (filter (fun it => negb (oi_order_id it =? oid)) (order_items db))).
Proof.
  intros Hfk it Hit.
  cbn [orders order_items with_orders with_order_items] in *.
  apply filter_In in Hit. destruct Hit as [Hit Hne].
  apply negb_true_iff, Z.eqb_neq in Hne.
  destruct (Hfk it Hit) as [o' [Ho' Hid]]. exists o'. split; [|exact Hid].
  unfold delete. apply filter_In. split; [assumption|].
  apply negb_true_iff, Z.eqb_neq. cbn [pk Order_Model]. congruence.
Qed.

Lemma site_handle_wf (st : Store) (req : option Z * site_request) :
  site_wf st -> site_wf (site_handle st req).
Proof.
  intros [Hacc [Hpid [Hoid [Hiid [Hdb [Hipfk [Houfk Hcufk]]]]]]].
  destruct req as [session r]. unfold site_handle. cbn [fst snd].
  set (actor := current_user (accounts st) session).
  assert (Hactor : forall u, actor = Some u -> has_account (accounts st) (u_id u))
    by (intros u; apply current_user_has_account).
  destruct r as [r|m form h|pid|m oid form|m form t|oid].
  - unfold site_wf. cbn [accounts database].
    split; [exact Hacc|]. split; [now apply core_product_ids|].
    split; [now apply core_order_ids|].
    split; [now apply core_item_ids|].
    split; [now apply handle_db_wf|].
    split; [now apply core_item_product_fk|].
    split; [now apply core_order_owner | now apply core_cart_owner].
  - destruct (register_facts m form h (accounts st) Hacc)
      as [Hacc' [[extra [Hext _]] _]].
    unfold site_wf. cbn [accounts database].
    split; [exact Hacc'|]. split; [exact Hpid|]. split; [exact Hoid|].
    split; [exact Hiid|]. split; [exact Hdb|]. split; [exact Hipfk|].
    rewrite Hext. split.
    + intros o Ho. apply has_account_app. now apply Houfk.
    + intros c Hc. apply has_account_app. now apply Hcufk.
  - destruct Hdb as [Hcw [Hcfk Hofk]].
    destruct (admin_delete_product_effect pid actor (database st))
      as [->|[Huse ->]];
      [unfold site_wf, db_wf; tauto|].
    assert (Hfree : forall j p, j <> pid ->
              get j (products (database st)) = Some p ->
              get j (delete pid (products (database st))) = Some p)
      by (intros j p Hj Hp; now rewrite get_delete_other).
    unfold product_in_use in Huse. apply orb_false_iff in Huse.
    destruct Huse as [Hc Hi].
    unfold site_wf, db_wf, cart_fk.
    cbn [accounts database products orders order_items cart_items with_products].
    split; [exact Hacc|]. split; [now apply NoDup_map_filter|].
    split; [exact Hoid|]. split; [exact Hiid|].
    split; [split; [exact Hcw|]; split; [|exact Hofk]|].
    + intros c Hin. destruct (Hcfk c Hin) as [p Hp]. exists p.
      apply Hfree; [|exact Hp]. intros E.
      assert (Hex : existsb (fun c => c_product_id c =? pid)
                      (cart_items (database st)) = true)
        by (apply existsb_exists; exists c; split; [assumption | now apply Z.eqb_eq]).
      congruence.
    + split; [|split; assumption].
      intros it Hin. destruct (Hipfk it Hin) as [p Hp]. exists p.
      apply Hfree; [|exact Hp]. intros E.
      assert (Hex : existsb (fun it => oi_product_id it =? pid)
                      (order_items (database st)) = true)
        by (apply existsb_exists; exists it; split; [assumption | now apply Z.eqb_eq]).
      congruence.
  - destruct Hdb as [Hcw [Hcfk Hofk]].
    destruct (admin_edit_order_effect m oid form actor (database st)) as [-> | ->];
      [unfold site_wf, db_wf; tauto|].
    unfold site_wf, db_wf.
    cbn [accounts database products orders order_items cart_items with_orders].
    split; [exact Hacc|]. split; [exact Hpid|].
    split; [change (@map Order Z o_id) with (@map Order Z pk);
            now rewrite map_pk_update|].
    split; [exact Hiid|].
    split; [split; [exact Hcw|]; split; [exact Hcfk|]|].
    + intros it Hit. destruct (Hofk it Hit) as [o [Ho Hid]].
      cbn [orders order_items with_orders].
      exists (if pk o =? oid then edit_order form o else o). split.
      * unfold update. apply in_map_iff. now exists o.
      * rewrite <- Hid. destruct (pk o =? oid); reflexivity.
    + split; [exact Hipfk|]. split; [|exact Hcufk].
      intros o Ho. unfold update in Ho. apply in_map_iff in Ho.
      destruct Ho as [o0 [<- Ho0]].
      destruct (pk o0 =? oid); exact (Houfk o0 Ho0).
  - destruct Hdb as [Hcw [Hcfk Hofk]].
    destruct (admin_create_order_effect m form t (accounts st) actor (database st))
      as [->|[usr [new [Husr [Hid [Huid ->]]]]]];
      [unfold site_wf, db_wf; tauto|].
    unfold site_wf, db_wf.
    cbn [accounts database products orders order_items cart_items with_orders].
    split; [exact Hacc|]. split; [exact Hpid|].
    split; [change (@map Order Z o_id) with (@map Order Z pk);
            now apply NoDup_pk_next|].
    split; [exact Hiid|].
    split; [split; [exact Hcw|]; split; [exact Hcfk|]|].
    + intros it Hit. destruct (Hofk it Hit) as [o [Ho Hoid']].
      exists o. cbn [orders order_items with_orders].
      split; [apply in_app_iff; now left | exact Hoid'].
    + split; [exact Hipfk|]. split; [|exact Hcufk].
      intros o Ho. apply in_app_iff in Ho.
      destruct Ho as [Ho|[<-|[]]]; [now apply Houfk|].
      rewrite Huid. destruct (get_Some _ _ _ Husr) as [Hin Hpk].
      exists usr. split; [assumption | exact Hpk].
  - destruct Hdb as [Hcw [Hcfk Hofk]].
    destruct (admin_delete_order_effect oid actor (database st)) as [-> | ->];
      [unfold site_wf, db_wf; tauto|].
    unfold site_wf, db_wf.
    split; [exact Hacc|].
    cbn [accounts database products orders order_items cart_items
         with_orders with_order_items].
    split; [exact Hpid|]. split; [now apply NoDup_map_filter|].
    split; [now apply NoDup_map_filter|].
    split; [split; [exact Hcw|]; split; [exact Hcfk|];
            now apply delete_order_item_fk|].
    split; [intros it Hit; apply filter_In in Hit; now apply Hipfk|].
    split; [|exact Hcufk].
    intros o Ho. unfold delete in Ho. apply filter_In in Ho. now apply Houfk.
Qed.

(** X21. Every route keeps what the schema declares: ids of each table
    distinct, usernames and emails distinct, one cart line per user and
    product, and every reference (cart line to product and to user,
    order item to order and to product, order to user) pointing at a
    stored row.  So it holds in every state the site reaches from one
    where it holds, the empty one included. *)
Theorem schema_holds_along_runs
    (reqs : list (option Z * site_request)) (st : Store) :
  site_wf st -> site_wf (site_serve reqs st).
Proof.
  revert st. induction reqs as [|req reqs IH]; intros st Hwf; [exact Hwf|].
  apply IH. now apply site_handle_wf.
Qed.

Lemma site_handle_cart_positive (st : Store) (req : option Z * site_request) :
  cart_positive (database st) -> cart_positive (database (site_handle st req)).
Proof.
  intros Hpos. destruct req as [session r]. unfold site_handle. cbn [fst snd].
  set (actor := current_user (accounts st) session).
  destruct r as [r|m form h|pid|m oid form|m form t|oid]; cbn [database].
  - intros c Hc.
    destruct (handle_cart_lines _ _ _ c Hc) as [_ [[r1 [Hr1 Hle]]|Hq]];
      [specialize (Hpos r1 Hr1); lia | exact Hq].
  - exact Hpos.
  - destruct (admin_delete_product_effect pid actor (database st))
      as [->|[_ ->]]; exact Hpos.
  - destruct (admin_edit_order_effect m oid form actor (database st))
      as [-> | ->]; exact Hpos.
  - destruct (admin_create_order_effect m form t (accounts st) actor (database st))
      as [->|[usr [new [_ [_ [_ ->]]]]]]; exact Hpos.
  - destruct (admin_delete_order_effect oid actor (database st))
      as [-> | ->]; exact Hpos.
Qed.

(** X22. No route stores a cart line with a quantity below 1: adding
    starts a line at 1 or raises it by one, [update_cart] stores a
    quantity only when it is positive and deletes the line otherwise.
    Lines that are all at 1 or more stay so along every run. *)
Theorem cart_quantities_stay_positive
    (reqs : list (option Z * site_request)) (st : Store) :
  cart_positive (database st) ->
  cart_positive (database (site_serve reqs st)).
Proof.
  revert st. induction reqs as [|req reqs IH]; intros st Hpos; [exact Hpos|].
  apply IH. now apply site_handle_cart_positive.
Qed.

Lemma site_serve_wf (reqs : list (option Z * site_request)) :
  forall st, site_wf st -> site_wf (site_serve reqs st).
Proof.
  induction reqs as [|req reqs IH]; intros st Hwf; [exact Hwf|].
  apply (IH (site_handle st req)). now apply site_handle_wf.
Qed.

(** X23. In a state the site has reached from one that satisfies the
    schema, every cart line still has its product.  So the cart page
    never raises there, and a checkout of a non-empty cart raises only
    over what SQLite refuses to store: it succeeds exactly when the
    total is not NaN and every line's stock minus quantity is an integer
    SQLite holds. *)
Theorem reached_carts_check_out
    (reqs : list (option Z * site_request)) (st : Store)
    (u : User) (utcnow : datetime) :
  site_wf st ->
  (exists items total,
     cart (Some u) (database (site_serve reqs st)) =
       (page_render "cart.html" (cart_context items total),
        database (site_serve reqs st))) /\
  (cart_of (u_id u) (database (site_serve reqs st)) <> [] ->
   (is_success
      (fst (checkout utcnow (Some u) (database (site_serve reqs st)))) = true <->
    (exists totals,
       mapM (line_total (database (site_serve reqs st)))
            (cart_of (u_id u) (database (site_serve reqs st))) = Some totals /\
       isnan (py_sum totals) = false) /\
    (forall c p,
       In c (cart_of (u_id u) (database (site_serve reqs st))) ->
       get (c_product_id c) (products (database (site_serve reqs st))) = Some p ->
       sqlite_integer (p_stock p - c_quantity c) = true))).
Proof.
  intros Hwf.
  destruct (site_serve_wf reqs st Hwf)
    as [_ [_ [_ [_ [[[_ Hlines] [Hfk _]] _]]]]].
  set (db := database (site_serve reqs st)) in *.
  assert (Hhas : forall c, In c (cart_of (u_id u) db) ->
            exists p, get (c_product_id c) (products db) = Some p).
  { intros c Hc. apply Hfk. unfold cart_of in Hc. apply filter_In in Hc. tauto. }
  assert (Huniq : NoDup (map c_product_id (cart_of (u_id u) db)))
    by (apply NoDup_products_of_unique; exact (Hlines (u_id u))).
  split.
  - destruct (mapM_line_total db _ Hhas) as [totals [Hm _]].
    unfold cart, page_login_required. fold (cart_of (u_id u) db). rewrite Hm.
    eexists. eexists. reflexivity.
  - intros Hne. rewrite (checkout_succeeds_iff utcnow u db Hne Huniq). split.
    + intros [Ht Hd]. split; [exact Ht|]. intros c p Hc Hp.
      destruct (Hd c Hc) as [p' [Hp' Hfit]]. rewrite Hp in Hp'.
      inversion Hp'; subst p'. exact Hfit.
    + intros [Ht Hd]. split; [exact Ht|]. intros c Hc.
      destruct (Hhas c Hc) as [p Hp]. exists p. split; [exact Hp|].
      exact (Hd c p Hc Hp).
Qed.

(** * What is stored stays storable *)

Lemma In_update_inv (A : Type) (model : Model A) (id : Z) (f : A -> A)
    (t : list A) (r' : A) :
  In r' (update id f t) -> In r' t \/ exists r, In r t /\ r' = f r.
Proof.
  unfold update. intros H. apply in_map_iff in H. destruct H as [r [<- Hr]].
  destruct (pk r =? id); [right; now exists r | now left].
Qed.

Lemma In_delete_inv (A : Type) (model : Model A) (id : Z) (t : list A) (r : A) :
  In r (delete id t) -> In r t.
Proof. unfold delete. intros H. apply filter_In in H. tauto. Qed.

Lemma storable_inv (form : product_form) :
  storable form = true ->
  sqlite_integer (f_stock form) = true /\ isnan (f_price form) = false.
Proof.
  unfold storable. intros H. apply andb_true_iff in H. destruct H as [Hs Hp].
  split; [exact Hs | now apply negb_true_iff].
Qed.

Lemma place_item_storable (oid : Z) (db db' : Database) (c : CartItem) :
  place_item oid db c = Some db' ->
  (forall p, In p (products db) ->
     sqlite_integer (p_stock p) = true /\ isnan (p_price p) = false) ->
  forall p, In p (products db') ->
    sqlite_integer (p_stock p) = true /\ isnan (p_price p) = false.
Proof.
  intros E Hall p Hp. destruct (place_item_inv _ _ _ _ E) as [product [_ [Hfit ->]]].
  cbn [products with_products with_order_items] in Hp.
  apply In_update_inv in Hp. destruct Hp as [Hp|[r [Hr ->]]]; [now apply Hall|].
  cbn [p_stock p_price set_stock]. split; [exact Hfit | apply (Hall r Hr)].
Qed.

Lemma foldM_place_item_storable (oid : Z) (cart : list CartItem) :
  forall db db',
  foldM (place_item oid) cart db = Some db' ->
  (forall p, In p (products db) ->
     sqlite_integer (p_stock p) = true /\ isnan (p_price p) = false) ->
  forall p, In p (products db') ->
    sqlite_integer (p_stock p) = true /\ isnan (p_price p) = false.
Proof.
  induction cart as [|c cart IH]; intros db db' E Hall.
  - now inversion E; subst.
  - cbn [foldM] in E. unfold bind in E.
    destruct (place_item oid db c) as [db1|] eqn:E1; [|discriminate].
    apply (IH _ _ E). now apply (place_item_storable _ _ _ _ E1).
Qed.

Lemma checkout_storable (utcnow : datetime) (actor : option User) (db : Database) :
  storable_db db -> storable_db (snd (checkout utcnow actor db)).
Proof.
  intros Hst. destruct actor as [a|]; [|exact Hst].
  destruct (checkout_outcome utcnow a db)
    as [[_ ->]|[[_ ->]|[db' [_ [Htxn ->]]]]]; cbn [snd]; try exact Hst.
  destruct Hst as [Hp [Ho [Hi Hc]]].
  destruct (checkout_txn_steps _ _ _ _ _ Htxn) as [totals [db2 [_ [Hnan [F ->]]]]].
  destruct (foldM_place_item_frame _ _ _ _ F) as [Hcart Horders].
  destruct (foldM_place_item_items _ _ _ _ F) as [items [Hitems Hsnap]].
  cbn [cart_items orders order_items with_orders] in Hcart, Horders, Hitems.
  unfold storable_db. cbn [products orders order_items cart_items with_cart_items].
  split; [|split; [|split]].
  - apply (foldM_place_item_storable _ _ _ _ F). exact Hp.
  - intros o Hin. rewrite Horders in Hin. apply in_app_iff in Hin.
    destruct Hin as [Hin|[<-|[]]]; [now apply Ho | exact Hnan].
  - intros it Hin. rewrite Hitems in Hin. apply in_app_iff in Hin.
    destruct Hin as [Hin|Hin]; [now apply Hi|].
    destruct (Forall2_in_r _ _ _ _ _ Hsnap it Hin)
      as [c [Hcin [_ [_ [Hq [p [Hget Hprice]]]]]]].
    rewrite Hq, Hprice. split.
    + apply Hc. unfold cart_of in Hcin. apply filter_In in Hcin. tauto.
    + cbn [products with_orders] in Hget.
      destruct (get_Some _ _ _ Hget) as [Hpin _]. apply (Hp p Hpin).
  - intros c Hin. apply filter_In in Hin. rewrite Hcart in Hin. now apply Hc.
Qed.

Lemma handle_storable (db : Database) (req : option User * request) :
  storable_db db -> storable_db (handle db req).
Proof.
  intros Hst. destruct req as [actor r]. unfold handle. cbn [fst snd].
  destruct r; cbn [dispatch]; [| | |now apply checkout_storable| | | |].
  - destruct actor as [a|]; [|exact Hst].
    destruct (add_to_cart_cases product_id a db)
      as [[_ ->]|[[product [item [_ [_ [Hfit [_ ->]]]]]]|[product [_ [_ [_ ->]]]]]];
      [exact Hst| |]; destruct Hst as [Hp [Ho [Hi Hc]]];
      (split; [exact Hp|]; split; [exact Ho|]; split; [exact Hi|]);
      cbn [cart_items with_cart_items]; intros c Hin.
    + apply In_update_inv in Hin.
      destruct Hin as [Hin|[r [_ ->]]]; [now apply Hc | exact Hfit].
    + unfold insert in Hin. apply in_app_iff in Hin.
      destruct Hin as [Hin|[<-|[]]]; [now apply Hc | reflexivity].
  - destruct actor as [a|]; [|exact Hst].
    destruct (update_cart_cases item_id quantity a db)
      as [[_ ->]|[line [_ [_ [_ [[_ ->]|[_ [Hfit ->]]]]]]]];
      [exact Hst| |]; destruct Hst as [Hp [Ho [Hi Hc]]];
      (split; [exact Hp|]; split; [exact Ho|]; split; [exact Hi|]);
      cbn [cart_items with_cart_items]; intros c Hin.
    + apply In_delete_inv in Hin. now apply Hc.
    + apply In_update_inv in Hin.
      destruct Hin as [Hin|[r [_ ->]]]; [now apply Hc | exact Hfit].
  - destruct actor as [a|]; [|exact Hst].
    destruct (remove_from_cart_cases item_id a db)
      as [[_ ->]|[line [_ [_ [_ ->]]]]]; [exact Hst|].
    destruct Hst as [Hp [Ho [Hi Hc]]].
    split; [exact Hp|]. split; [exact Ho|]. split; [exact Hi|].
    cbn [cart_items with_cart_items]. intros c Hin.
    apply In_delete_inv in Hin. now apply Hc.
  - unfold order_history, login_required. destruct actor; exact Hst.
  - unfold admin_add_product, login_required, admin_required.
    destruct actor as [a|]; [|exact Hst].
    destruct (is_admin a); cbn [negb]; [|exact Hst].
    destruct m; [exact Hst|].
    destruct (storable form) eqn:Hform; [|exact Hst].
    destruct Hst as [Hp [Ho [Hi Hc]]]. cbn [snd].
    split; [|split; [exact Ho|]; split; [exact Hi | exact Hc]].
    cbn [products with_products]. intros p Hin. unfold insert in Hin.
    apply in_app_iff in Hin. destruct Hin as [Hin|[<-|[]]]; [now apply Hp|].
    now apply storable_inv.
  - unfold admin_edit_product, login_required, admin_required.
    destruct actor as [a|]; [|exact Hst].
    destruct (is_admin a); cbn [negb]; [|exact Hst].
    destruct (get product_id (products db)) as [product|]; [|exact Hst].
    destruct m; [exact Hst|].
    destruct (storable form) eqn:Hform; [|exact Hst].
    destruct Hst as [Hp [Ho [Hi Hc]]]. cbn [snd].
    split; [|split; [exact Ho|]; split; [exact Hi | exact Hc]].
    cbn [products with_products]. intros p Hin. apply In_update_inv in Hin.
    destruct Hin as [Hin|[r [_ ->]]]; [now apply Hp|].
    now apply storable_inv.
  - unfold admin_update_order_status, login_required, admin_required.
    destruct actor as [a|]; [|exact Hst].
    destruct (is_admin a); cbn [negb]; [|exact Hst].
    destruct (get order_id (orders db)) as [order|]; [|exact Hst].
    destruct Hst as [Hp [Ho [Hi Hc]]]. cbn [snd].
    split; [exact Hp|]. split; [|split; [exact Hi | exact Hc]].
    cbn [orders with_orders]. intros o Hin. apply In_update_inv in Hin.
    destruct Hin as [Hin|[r [Hr ->]]]; [now apply Ho|].
    cbn [total_amount set_status]. now apply Ho.
Qed.

Lemma site_handle_storable (st : Store) (req : option Z * site_request) :
  storable_db (database st) -> storable_db (database (site_handle st req)).
Proof.
  intros Hst. destruct req as [session r]. unfold site_handle. cbn [fst snd].
  set (actor := current_user (accounts st) session).
  destruct r as [r|m form h|pid|m oid form|m form t|oid]; cbn [database].
  - now apply handle_storable.
  - exact Hst.
  - destruct (admin_delete_product_effect pid actor (database st))
      as [->|[_ ->]]; [exact Hst|].
    destruct Hst as [Hp [Ho [Hi Hc]]].
    split; [|split; [exact Ho|]; split; [exact Hi | exact Hc]].
    cbn [products with_products]. intros p Hin.
    apply In_delete_inv in Hin. now apply Hp.
  - unfold admin_edit_order, page_login_required, page_admin_required.
    destruct actor as [a|]; [|exact Hst].
    destruct (is_admin a); cbn [negb]; [|exact Hst].
    destruct (get oid (orders (database st))) as [order|]; [|exact Hst].
    destruct m; [exact Hst|].
    destruct (storable_total (of_total_amount form)) eqn:Hform; [|exact Hst].
    destruct Hst as [Hp [Ho [Hi Hc]]]. cbn [snd].
    split; [exact Hp|]. split; [|split; [exact Hi | exact Hc]].
    cbn [orders with_orders]. intros o Hin. apply In_update_inv in Hin.
    destruct Hin as [Hin|[r [Hr ->]]]; [now apply Ho|].
    cbn [total_amount edit_order]. unfold storable_total in Hform.
    destruct (of_total_amount form) as [total|];
      [now apply negb_true_iff | now apply Ho].
  - unfold admin_create_order, page_login_required, page_admin_required.
    destruct actor as [a|]; [|exact Hst].
    destruct (is_admin a); cbn [negb]; [|exact Hst].
    destruct m; [exact Hst|].
    destruct (get (co_user_id form) (accounts st)); [|exact Hst].
    destruct (isnan (co_total_amount form)) eqn:Hform; [exact Hst|].
    destruct Hst as [Hp [Ho [Hi Hc]]]. cbn [snd].
    split; [exact Hp|]. split; [|split; [exact Hi | exact Hc]].
    cbn [orders with_orders]. intros o Hin. unfold insert in Hin.
    apply in_app_iff in Hin. destruct Hin as [Hin|[<-|[]]]; [now apply Ho|].
    exact Hform.
  - destruct (admin_delete_order_effect oid actor (database st)) as [-> | ->];
      [exact Hst|].
    destruct Hst as [Hp [Ho [Hi Hc]]].
    split; [exact Hp|].
    cbn [products orders order_items cart_items with_orders with_order_items].
    split; [intros o Hin; apply In_delete_inv in Hin; now apply Ho|].
    split; [|exact Hc].
    intros it Hin. apply filter_In in Hin. now apply Hi.
Qed.

(** X26. What is stored stays storable.  When every stored quantity and
    stock is within 64 bits and no stored price or total is NaN, the
    same holds after any sequence of requests: every route either writes
    values SQLite takes or raises and writes nothing, whatever the forms
    and the URLs carry. *)
Theorem stored_values_stay_storable
    (reqs : list (option Z * site_request)) (st : Store) :
  storable_db (database st) ->
  storable_db (database (site_serve reqs st)).
Proof.
  revert st. induction reqs as [|req reqs IH]; intros st Hst; [exact Hst|].
  apply (IH (site_handle st req)). now apply site_handle_storable.
Qed.

(** * Admin: the catalogue *)

Lemma storable_true (form : product_form) :
  sqlite_integer (f_stock form) = true -> isnan (f_price form) = false ->
  storable form = true.
Proof. unfold storable. intros -> ->. reflexivity. Qed.

Lemma storable_false (form : product_form) :
  sqlite_integer (f_stock form) = false \/ isnan (f_price form) = true ->
  storable form = false.
Proof.
  unfold storable. intros [-> | ->]; [reflexivity|].
  cbn [negb]. apply andb_false_r.
Qed.

(** X24. What an admin posts to [admin_add_product] is what a lookup
    under the new id returns, field for field, with no check of price or
    stock beyond what SQLite takes (a negative price or stock is
    stored); the id is one no stored product has, and every stored
    product, order, item and cart line is as before.  A stock outside
    64 bits or a NaN price makes the commit raise, and nothing is
    added. *)
Theorem admin_add_product_round_trip
    (admin : User) (form : product_form) (utcnow : datetime) (db : Database) :
  is_admin admin = true ->
  (sqlite_integer (f_stock form) = true -> isnan (f_price form) = false ->
   exists db' p,
     admin_add_product POST form utcnow (Some admin) db =
       (redirect "admin_products" [("Product added successfully!", "success")], db') /\
     get (p_id p) (products db) = None /\
     get (p_id p) (products db') = Some p /\
     p_name p = f_name form /\ p_description p = f_description form /\
     p_price p = f_price form /\ p_stock p = f_stock form /\
     p_image_url p = f_image_url form /\ p_created_at p = utcnow /\
     products db' = products db ++ [p] /\
     (forall j q, get j (products db) = Some q -> get j (products db') = Some q) /\
     orders db' = orders db /\ order_items db' = order_items db /\
     cart_items db' = cart_items db) /\
  (sqlite_integer (f_stock form) = false \/ isnan (f_price form) = true ->
   admin_add_product POST form utcnow (Some admin) db = (abort 500, db)).
Proof.
  intros Hadmin. unfold admin_add_product, login_required, admin_required.
  rewrite Hadmin. cbn [negb]. split.
  - intros Hstock Hprice. rewrite (storable_true form Hstock Hprice). eexists.
    exists {| p_id := next_id (products db); p_name := f_name form;
              p_description := f_description form; p_price := f_price form;
              p_stock := f_stock form; p_image_url := f_image_url form;
              p_created_at := utcnow |}.
    split; [reflexivity|].
    cbn [products orders order_items cart_items with_products p_id].
    split; [apply (get_next_id (products db))|].
    split.
    { unfold insert, get. rewrite find_app.
      fold (get (next_id (products db)) (products db)).
      rewrite get_next_id. cbn [find pk Product_Model p_id]. now rewrite Z.eqb_refl. }
    do 6 (split; [reflexivity|]). split; [reflexivity|].
    split; [intros j q Hq; now apply get_app_stays|]. repeat split.
  - intros Hbad. now rewrite (storable_false form Hbad).
Qed.

(** X25. An admin's post to [admin_edit_product] for a stored product
    overwrites name, description, price, stock and image with the form,
    stock included and whatever it was, as long as SQLite takes the
    form; the row keeps its id and creation time, and every other
    product and every cart line is as before.  A stock outside 64 bits
    or a NaN price makes the commit raise, and the row stays as it
    was. *)
Theorem admin_edit_product_overwrites
    (admin : User) (product_id : Z) (form : product_form) (p : Product)
    (db : Database) :
  is_admin admin = true ->
  get product_id (products db) = Some p ->
  (sqlite_integer (f_stock form) = true -> isnan (f_price form) = false ->
   exists db' p',
     admin_edit_product POST product_id form (Some admin) db =
       (redirect "admin_products"
          [("Product updated successfully!", "success")], db') /\
     get product_id (products db') = Some p' /\
     p_name p' = f_name form /\ p_description p' = f_description form /\
     p_price p' = f_price form /\ p_stock p' = f_stock form /\
     p_image_url p' = f_image_url form /\
     p_id p' = p_id p /\ p_created_at p' = p_created_at p /\
     (forall j, j <> product_id -> get j (products db') = get j (products db)) /\
     cart_items db' = cart_items db) /\
  (sqlite_integer (f_stock form) = false \/ isnan (f_price form) = true ->
   admin_edit_product POST product_id form (Some admin) db = (abort 500, db)).
Proof.
  intros Hadmin Hget. unfold admin_edit_product, login_required, admin_required.
  rewrite Hadmin, Hget. cbn [negb].
  destruct (get_Some _ _ _ Hget) as [_ Hpk]. cbn in Hpk. split.
  - intros Hstock Hprice. rewrite (storable_true form Hstock Hprice).
    eexists. exists (edit_product form p). split; [reflexivity|].
    cbn [products cart_items with_products]. rewrite Hpk.
    split; [rewrite get_update_same by reflexivity; now rewrite Hget|].
    do 7 (split; [first [reflexivity | exact Hpk]|]).
    split; [intros j Hj; now apply get_update_other | reflexivity].
  - intros Hbad. now rewrite (storable_false form Hbad).
Qed.

End SiteFacts.

(** * The concrete shop, run *)

#[local] Existing Instance Q_float.

(** The end-to-end scenario of the spec: price 10, stock 5, two adds. *)
Example shop_cart : cart_items (shop 5) = [alice_line].
Proof. reflexivity. Qed.

Example shop_checkout :
  checkout 100 (Some alice) (shop 5) =
  (redirect "order_history" [("Order placed successfully!", "success")],
   {| products :=
        [ {| p_id := 1; p_name := "Laptop";
             p_description := "High-performance laptop";
             p_price := (10 # 1)%Q; p_stock := 3; p_image_url := "";
             p_created_at := 0 |} ];
      orders :=
        [ {| o_id := 1; o_user_id := 2; total_amount := (20 # 1)%Q;
             status := "pending"; created_at := 100 |} ];
      order_items :=
        [ {| oi_id := 1; oi_order_id := 1; oi_product_id := 1;
             oi_quantity := 2; oi_price := (10 # 1)%Q |} ];
      cart_items := [] |}).
Proof. vm_compute. reflexivity. Qed.

(** A second checkout finds the cart empty. *)
Example shop_checkout_twice :
  checkout 101 (Some alice) after_checkout =
  (redirect "cart" [("Your cart is empty.", "error")], after_checkout).
Proof. vm_compute. reflexivity. Qed.

(** A cart line whose product row is gone makes the view raise. *)
Example checkout_dangling_line :
  checkout 100 (Some alice)
    (with_products (shop 5) []) =
  (abort 500, with_products (shop 5) []).
Proof. vm_compute. reflexivity. Qed.

(** A stock at the bottom of SQLite's range, which the admin form
    accepts, makes the next checkout raise: the debit cannot be
    written, and nothing is. *)
Example checkout_below_sqlite :
  let db := snd (admin_edit_product POST 1 (laptop (-9223372036854775808))
                   (Some root) (shop 5)) in
  option_map p_stock (get 1 (products db)) = Some (-9223372036854775808) /\
  checkout 100 (Some alice) db = (abort 500, db).
Proof. vm_compute. split; reflexivity. Qed.

(** An id beyond SQLite's range is a 500, not a 404. *)
Example update_cart_far_id :
  update_cart 9223372036854775808 1 (Some alice) (shop 5) = (abort 500, shop 5) /\
  update_cart 9223372036854775807 1 (Some alice) (shop 5) = (abort 404, shop 5).
Proof. vm_compute. split; reflexivity. Qed.

Example busy_shop_checkout :
  products (snd (checkout 100 (Some alice) busy_shop)) =
    map (fun p => if p_id p =? 1 then set_stock 3 p else p) (products busy_shop).
Proof. vm_compute. reflexivity. Qed.

(** A NaN is refused wherever a column is [nullable=False]: as the price
    of a product, as the total of an order, posted or edited. *)
Example nan_is_refused :
  admin_add_product POST (pen not_a_number) 2 (Some root) stationer =
    (abort 500, stationer) /\
  admin_edit_product POST 1 (pen not_a_number) (Some root) stationer =
    (abort 500, stationer) /\
  admin_edit_order POST 1 (nan_total "paid") (Some root) stationer =
    (page_abort 500, stationer) /\
  admin_create_order POST (nan_order 2) 2 [root; alice] (Some root) stationer =
    (page_abort 500, stationer) /\
  map (fun o => (o_id o, total_amount o)) (orders stationer) =
    [(1, rational (3 # 1)%Q)].
Proof. vm_compute. repeat split. Qed.

(** ** The theorems at the shop *)

Lemma checkout_converts_cart_witness :
  cart_of 2 (shop 5) = [alice_line] /\
  option_map p_stock (get 1 (products (shop 5))) = Some 5 /\
  is_success (fst (checkout 100 (Some alice) (shop 5))) = true /\
  exists db' order p',
    checkout 100 (Some alice) (shop 5) =
      (redirect "order_history" [("Order placed successfully!", "success")], db') /\
    orders db' = orders (shop 5) ++ [order] /\
    get 1 (products db') = Some p' /\
    p_stock p' = 3 /\
    cart_of 2 db' = [].
Proof.
  split; [reflexivity|]. split; [reflexivity|].
  assert (Hne : cart_of (u_id alice) (shop 5) <> []) by (vm_compute; discriminate).
  destruct (served_checkout_ready (shop_requests 5) (u_id alice))
    as [Hfk [Huniq Hofk]].
  destruct (checkout_converts_cart 100 alice (shop 5) Hne Hfk Huniq Hofk)
    as [Hiff Hconv].
  assert (Hok : is_success (fst (checkout 100 (Some alice) (shop 5))) = true).
  { apply Hiff. split.
    - eexists. split; [vm_compute; reflexivity | reflexivity].
    - intros c p Hc Hp. vm_compute in Hc. destruct Hc as [<-|[]].
      vm_compute in Hp. inversion Hp. reflexivity. }
  split; [exact Hok|].
  destruct (Hconv Hok) as [db' [order [items [totals [Hc [Horders Hrest]]]]]].
  do 10 (destruct Hrest as [_ Hrest]). destruct Hrest as [Hstock Hempty].
  destruct (get 1 (products (shop 5))) as [p|] eqn:Hp;
    [|vm_compute in Hp; discriminate].
  destruct (Hstock alice_line p (or_introl eq_refl) Hp) as [p' [Hget [Hst _]]].
  exists db', order, p'. split; [exact Hc|]. split; [exact Horders|].
  split; [exact Hget|]. split; [|exact Hempty].
  rewrite Hst. vm_compute in Hp. inversion Hp. reflexivity.
Defined.

Lemma checkout_stock_after_witness :
  option_map p_stock (get 1 (products (shop 5))) = Some 5 /\
  exists p',
    get 1 (products (snd (checkout 100 (Some alice) (shop 5)))) = Some p' /\
    p_stock p' = 3.
Proof.
  split; [reflexivity|].
  destruct (get 1 (products (shop 5))) as [p|] eqn:Hp; [|vm_compute in Hp; discriminate].
  destruct (checkout_stock_after 100 alice (shop 5) 1 p Hp)
    as [p' [Hget [Hok _]]].
  exists p'. split; [exact Hget|].
  rewrite (Hok eq_refl). vm_compute in Hp. inversion Hp. reflexivity.
Defined.

(** C2, as stated, fails: with one laptop in stock and two in Alice's
    cart, checkout leaves the stock at -1. *)
Lemma checkout_oversells : ~ stock_never_negative.
Proof.
  intros Hclaim.
  assert (Hbad : 0 <= -1).
  { refine (Hclaim (shop_requests 1) alice 100 1
              {| p_id := 1; p_name := "Laptop";
                 p_description := "High-performance laptop";
                 p_price := (10 # 1)%Q; p_stock := 1; p_image_url := "";
                 p_created_at := 0 |}
              {| p_id := 1; p_name := "Laptop";
                 p_description := "High-performance laptop";
                 p_price := (10 # 1)%Q; p_stock := -1; p_image_url := "";
                 p_created_at := 0 |} _ _ _).
    - vm_compute. reflexivity.
    - cbn. lia.
    - vm_compute. reflexivity. }
  lia.
Qed.

Lemma checkout_empty_cart_witness :
  cart_of 2 empty_db = [] /\
  checkout 100 (Some alice) empty_db =
    (redirect "cart" [("Your cart is empty.", "error")], empty_db).
Proof.
  split; [reflexivity|].
  apply (checkout_empty_cart 100 alice empty_db). reflexivity.
Defined.

Lemma cart_line_unique_and_counted_witness :
  cart_wf empty_db /\
  (List.length (lines_of 2 1 (shop 5)) <= 1)%nat /\
  line_quantity 2 1 (shop 5) = Some 2 /\
  cart_events 2 1 (brimming_requests ++ [(Some alice, AddToCart 1)]) empty_db =
    [Untouched; Added; Added; Overwritten 9223372036854775807; Untouched] /\
  line_quantity 2 1
    (serve (brimming_requests ++ [(Some alice, AddToCart 1)]) empty_db) =
    Some 9223372036854775807.
Proof.
  assert (Hwf : cart_wf (@empty_db Q_float)).
  { split; [constructor | intros u p; cbn; lia]. }
  split; [exact Hwf|].
  destruct (cart_line_unique_and_counted (shop_requests 5) empty_db 2 1 Hwf)
    as [Huniq [_ Hcount]].
  destruct (cart_line_unique_and_counted
              (brimming_requests ++ [(Some alice, AddToCart 1)]) empty_db 2 1 Hwf)
    as [_ [Htally _]].
  split; [exact Huniq|]. split.
  { refine (Hcount eq_refl _ 1%nat eq_refl).
    vm_compute.
    repeat (apply Forall_cons; [first [now left | now right]|]). apply Forall_nil. }
  split; [vm_compute; reflexivity|].
  rewrite Htally. vm_compute. reflexivity.
Defined.

(** C4, as stated, fails: with Alice's line at the largest quantity
    SQLite holds, her next add is answered 500 and the quantity stays,
    one short of the tally of the calls. *)
Lemma cart_tally_misses_refused_add : ~ quantity_counts_calls.
Proof.
  intros Hclaim.
  specialize (Hclaim (brimming_requests ++ [(Some alice, AddToCart 1)]) 2 1).
  vm_compute in Hclaim. discriminate.
Qed.

(** C5, as stated, fails: on that line an add does not raise the
    quantity by one. *)
Lemma add_to_cart_stuck_at_largest : ~ add_increments_any_line.
Proof.
  intros Hclaim.
  assert (Hbad : Some 9223372036854775807 = Some (9223372036854775807 + 1)).
  { refine (Hclaim brimming_requests alice 1
              {| p_id := 1; p_name := "Laptop";
                 p_description := "High-performance laptop";
                 p_price := (10 # 1)%Q; p_stock := 5; p_image_url := "";
                 p_created_at := 0 |}
              brimming_line _ _).
    - vm_compute. reflexivity.
    - vm_compute. reflexivity. }
  discriminate.
Qed.

(** C6, as stated, fails: a quantity of 2^63 is not stored, and the line
    keeps its 2. *)
Lemma update_cart_refuses_beyond_sqlite : ~ set_quantity_stores_any.
Proof.
  intros Hclaim.
  assert (Hbad : Some 2 = Some 9223372036854775808).
  { refine (Hclaim (shop_requests 5) alice 1 9223372036854775808 alice_line _ _ _).
    - vm_compute. reflexivity.
    - reflexivity.
    - lia. }
  discriminate.
Qed.

Lemma add_to_cart_increments_or_creates_witness :
  add_to_cart 7 (Some alice) (shop 5) = (abort 404, shop 5) /\
  add_to_cart 9223372036854775808 (Some alice) (shop 5) = (abort 500, shop 5) /\
  line_quantity 2 1 (snd (add_to_cart 1 (Some alice) (shop 5))) = Some 3 /\
  add_to_cart 1 (Some alice) brimming_shop = (abort 500, brimming_shop) /\
  line_quantity 3 1 (snd (add_to_cart 1 (Some bob) (shop 5))) = Some 1 /\
  fst (add_to_cart 1 (Some alice) (shop 0)) =
    redirect "home" [("Laptop added to cart!", "success")].
Proof.
  destruct (add_to_cart_increments_or_creates alice 7 (shop 5)) as [Hmissing _].
  destruct (add_to_cart_increments_or_creates alice 9223372036854775808 (shop 5))
    as [Hfar _].
  destruct (add_to_cart_increments_or_creates alice 1 (shop 5)) as [_ [Hinc _]].
  destruct (add_to_cart_increments_or_creates alice 1 brimming_shop)
    as [_ [Htop _]].
  destruct (add_to_cart_increments_or_creates bob 1 (shop 5)) as [_ [Hnew _]].
  destruct (add_to_cart_increments_or_creates alice 1 (shop 5)) as [_ [_ Hstock]].
  split; [apply Hmissing; reflexivity|].
  split; [apply Hfar; reflexivity|].
  split.
  { destruct (Hinc _ eq_refl) as [Hline _].
    destruct (Hline alice_line eq_refl) as [Hplus _].
    destruct Hplus as [db' [item' [Hr [_ [_ [_ [Hf [Hq _]]]]]]]]; [cbn; lia|].
    rewrite Hr. unfold line_quantity. cbn [snd].
    change (u_id alice) with 2 in Hf. rewrite Hf. cbn [option_map].
    now rewrite Hq. }
  split.
  { destruct (Htop _ eq_refl) as [Hline _].
    destruct (Hline brimming_line eq_refl) as [_ Hstuck].
    apply Hstuck. cbn. lia. }
  split.
  { destruct (Hnew _ eq_refl) as [_ Hline].
    destruct (Hline eq_refl) as [db' [Hr [_ [_ [_ Hcart]]]]].
    rewrite Hr. unfold line_quantity. cbn [snd].
    rewrite Hcart. reflexivity. }
  destruct (Hstock 0) as [Hresp _].
  etransitivity; [|etransitivity; [exact Hresp|]]; reflexivity.
Defined.

Lemma update_cart_overwrites_or_deletes_witness :
  get 1 (cart_items (shop 5)) = Some alice_line /\
  (exists db' line',
     update_cart 1 7 (Some alice) (shop 5) =
       (redirect "cart" [("Cart updated!", "success")], db') /\
     get 1 (cart_items db') = Some line' /\ c_quantity line' = 7) /\
  (exists db',
     update_cart 1 0 (Some alice) (shop 5) =
       (redirect "cart" [("Cart updated!", "success")], db') /\
     get 1 (cart_items db') = None) /\
  update_cart 1 9223372036854775808 (Some alice) (shop 5) = (abort 500, shop 5).
Proof.
  split; [reflexivity|].
  destruct (update_cart_overwrites_or_deletes alice 1 7 alice_line (shop 5)
              eq_refl eq_refl) as [_ [Hset _]].
  destruct (update_cart_overwrites_or_deletes alice 1 0 alice_line (shop 5)
              eq_refl eq_refl) as [Hdel _].
  destruct (update_cart_overwrites_or_deletes alice 1 9223372036854775808
              alice_line (shop 5) eq_refl eq_refl) as [_ [_ Hfar]].
  split; [|split].
  - destruct Hset as [db' [line' [Hr [_ [_ [_ [_ [Hget [Hq _]]]]]]]]]; [lia|].
    exists db', line'. repeat split; assumption.
  - destruct Hdel as [db' [Hr [_ [_ [_ [_ [Hgone _]]]]]]]; [lia|].
    exists db'. split; assumption.
  - apply Hfar. lia.
Defined.

Lemma cart_ownership_enforced_witness :
  get 1 (cart_items (shop 5)) = Some alice_line /\
  c_user_id alice_line <> u_id bob /\
  update_cart 1 9 (Some bob) (shop 5) =
    (redirect "cart" [("Unauthorized access.", "error")], shop 5) /\
  remove_from_cart 1 (Some bob) (shop 5) =
    (redirect "cart" [("Unauthorized access.", "error")], shop 5).
Proof.
  assert (Hne : c_user_id alice_line <> u_id bob) by (cbn; lia).
  split; [reflexivity|]. split; [exact Hne|].
  apply (cart_ownership_enforced bob 1 9 alice_line (shop 5) eq_refl Hne).
Defined.

Lemma admin_edit_product_keeps_order_items_witness :
  option_map oi_price (get 1 (order_items after_checkout)) = Some (10 # 1)%Q /\
  order_items
    (snd (admin_edit_product POST 1 repriced_laptop (Some root) after_checkout)) =
    order_items after_checkout /\
  exists p',
    get 1 (products
             (snd (admin_edit_product POST 1 repriced_laptop (Some root)
                     after_checkout))) = Some p' /\
    p_price p' = (12 # 1)%Q.
Proof.
  split; [vm_compute; reflexivity|].
  destruct (admin_edit_product_keeps_order_items POST 1 repriced_laptop
              (Some root) after_checkout) as [Hitems [_ Hprice]].
  split; [exact Hitems|].
  destruct (get 1 (products after_checkout)) as [p|] eqn:Hp;
    [|vm_compute in Hp; discriminate].
  exact (Hprice root p eq_refl eq_refl eq_refl eq_refl).
Defined.

Lemma admin_update_order_status_overwrites_witness :
  is_admin root = true /\
  option_map status (get 1 (orders after_checkout)) = Some "pending" /\
  exists db' o',
    admin_update_order_status 1 "teleported" (Some root) after_checkout =
      (redirect "admin_orders" [("Order status updated!", "success")], db') /\
    status o' = "teleported" /\
    In o' (listing (u_id alice) db').
Proof.
  split; [reflexivity|]. split; [vm_compute; reflexivity|].
  destruct (get 1 (orders after_checkout)) as [o|] eqn:Ho;
    [|vm_compute in Ho; discriminate].
  destruct (admin_update_order_status_overwrites root 1 "teleported" o
              after_checkout eq_refl Ho)
    as [db' [o' [Hr [_ [Hs [_ [_ [_ [_ [_ [_ [_ [_ Hlist]]]]]]]]]]]]].
  exists db', o'. split; [exact Hr|]. split; [exact Hs|].
  apply Hlist. vm_compute in Ho. inversion Ho. reflexivity.
Defined.

Lemma checkout_frame_witness :
  Forall2 (stock_only (cart_of 2 busy_shop))
    (products busy_shop)
    (products (snd (checkout 100 (Some alice) busy_shop))) /\
  cart_of 3 (snd (checkout 100 (Some alice) busy_shop)) =
    [ {| c_id := 2; c_user_id := 3; c_product_id := 2; c_quantity := 1 |} ].
Proof.
  destruct (checkout_frame 100 alice busy_shop) as [Hproducts Hcarts].
  split; [exact Hproducts|].
  rewrite (Hcarts 3) by (cbn; lia). reflexivity.
Defined.

(** * The concrete site, run *)

#[local] Existing Instance Toy_werkzeug.

Ltac distinct :=
  repeat (constructor; [cbn; intuition (try discriminate; try lia)|]);
  try constructor.

Lemma members_wf : accounts_wf members.
Proof. repeat split; cbn; distinct. Qed.

Lemma opened_eq :
  startup Q_of_literal (toy_hash "123456") 0 empty_store = Some opened.
Proof. reflexivity. Qed.

Lemma opened_wf : site_wf opened.
Proof.
  unfold site_wf, accounts_wf, db_wf, cart_wf, cart_fk, order_item_fk, lines_of.
  repeat split; try (cbn; distinct; fail); try (intros x []; fail).
  intros u p. cbn. lia.
Qed.

(** Mallory's registration goes through, and her username then logs
    nobody in, while her email does. *)
Example mallory_shadowed :
  fst (register POST mallory_form (toy_hash "letmein") members) =
    flash_redirect "login" [("Registration successful!", "success")] /\
  login POST {| lf_email_or_username := "alice@example.com";
                lf_password := "letmein" |}
    (snd (register POST mallory_form (toy_hash "letmein") members)) None =
    (flash_render "login.html"
       [("Invalid email/username or password.", "error")], None) /\
  snd (login POST {| lf_email_or_username := "mallory@example.com";
                     lf_password := "letmein" |}
         (snd (register POST mallory_form (toy_hash "letmein") members)) None) =
    Some 4.
Proof. repeat split. Qed.

(** Carol's day leaves one order, her two laptops, and a new line. *)
Example carol_day_orders :
  map (fun o => (o_id o, o_user_id o, status o))
      (orders (database (site_serve carol_day opened))) = [(1, 2, "shipped")] /\
  map p_id (products (database (site_serve carol_day opened))) = [1; 3; 4] /\
  cart_items (database (site_serve carol_day opened)) =
    [{| c_id := 1; c_user_id := 2; c_product_id := 3; c_quantity := 1 |}].
Proof. vm_compute. repeat split. Qed.

(** ** The further theorems at the site *)

Lemma remove_is_update_to_nothing_witness :
  snd (remove_from_cart 1 (Some alice) (shop 5)) =
    snd (update_cart 1 (-3) (Some alice) (shop 5)) /\
  cart_items (snd (remove_from_cart 1 (Some alice) (shop 5))) = [].
Proof.
  split; [|reflexivity].
  apply (remove_is_update_to_nothing 1 (-3) (Some alice) (shop 5)). lia.
Defined.

Lemma checkout_twice_witness :
  is_success (fst (checkout 100 (Some alice) (shop 5))) = true /\
  checkout 101 (Some alice) after_checkout =
    (redirect "cart" [("Your cart is empty.", "error")], after_checkout).
Proof.
  split; [reflexivity|].
  apply (checkout_twice 100 101 alice (shop 5)). reflexivity.
Defined.

Lemma checkout_moves_stock_into_order_witness :
  option_map p_stock (get 1 (products (shop 5))) = Some 5 /\
  exists p' items,
    order_items after_checkout = order_items (shop 5) ++ items /\
    get 1 (products after_checkout) = Some p' /\
    5 - p_stock p' = ordered_quantity 1 items.
Proof.
  split; [reflexivity|].
  exact (checkout_moves_stock_into_order 100 alice (shop 5) 1 _ eq_refl eq_refl).
Defined.

Lemma checkout_total_matches_items_witness :
  is_success (fst (checkout 100 (Some alice) (shop 5))) = true /\
  exists order items,
    orders after_checkout = orders (shop 5) ++ [order] /\
    order_items after_checkout = order_items (shop 5) ++ items /\
    Forall (fun it => oi_order_id it = o_id order) items /\
    total_amount order = items_total items.
Proof.
  split; [reflexivity|].
  exact (checkout_total_matches_items 100 alice (shop 5) eq_refl).
Defined.

Lemma price_edit_reaches_next_checkout_witness :
  option_map p_price (get 1 (products (shop 5))) = Some (10 # 1)%Q /\
  exists items,
    order_items
      (snd (checkout 100 (Some alice)
              (snd (admin_edit_product POST 1 repriced_laptop (Some root) (shop 5))))) =
      order_items (shop 5) ++ items /\
    List.length items = List.length (cart_of (u_id alice) (shop 5)) /\
    forall it, In it items -> oi_product_id it = 1 ->
               oi_price it = f_price repriced_laptop.
Proof.
  split; [reflexivity|].
  exact (price_edit_reaches_next_checkout root alice 1 repriced_laptop 100
           (shop 5) _ eq_refl eq_refl eq_refl).
Defined.

Lemma admin_orders_restrict_to_history_witness :
  is_admin root = true /\
  exists all,
    admin_orders (Some root) after_checkout =
      (page_render "admin/orders.html" (order_list_context all), after_checkout) /\
    Permutation all (orders after_checkout) /\
    StronglySorted newest_first all /\
    order_history (Some alice) after_checkout =
      (render_template "order_history.html"
         (orders_context (filter (fun o => o_user_id o =? u_id alice) all)),
       after_checkout).
Proof.
  split; [reflexivity|].
  exact (admin_orders_restrict_to_history root alice after_checkout eq_refl).
Defined.

Lemma cart_page_total_is_charged_witness :
  cart (Some alice) (shop 5) =
    (page_render "cart.html" (cart_context [alice_line] (py_flt (20 # 1)%Q)),
     shop 5) /\
  is_success (fst (checkout 100 (Some alice) (shop 5))) = true /\
  (exists order,
     orders (snd (checkout 100 (Some alice) (shop 5))) = orders (shop 5) ++ [order] /\
     total_amount order = (20 # 1)%Q) /\
  (cart (Some alice) (with_products (shop 5) []) =
     (page_abort 500, with_products (shop 5) []) ->
   checkout 100 (Some alice) (with_products (shop 5) []) =
     (abort 500, with_products (shop 5) [])).
Proof.
  assert (Hpage : cart (Some alice) (shop 5) =
            (page_render "cart.html" (cart_context [alice_line] (py_flt (20 # 1)%Q)),
             shop 5)) by (vm_compute; reflexivity).
  split; [exact Hpage|]. split; [reflexivity|].
  destruct (cart_page_total_is_charged 100 alice (shop 5)) as [Hcharged _].
  destruct (cart_page_total_is_charged 100 alice (with_products (shop 5) []))
    as [_ Hraises].
  split; [|exact Hraises].
  destruct (Hcharged [alice_line] _ Hpage) as [t [Ht [Hok _]]]; [discriminate|].
  destruct (Hok eq_refl) as [order [Horders Htotal]].
  exists order. split; [exact Horders|]. rewrite Htotal.
  inversion Ht. reflexivity.
Defined.

Lemma admin_delete_order_cascades_witness :
  is_admin root = true /\
  option_map o_user_id (get 1 (orders after_checkout)) = Some 2 /\
  exists db',
    admin_delete_order 1 (Some root) after_checkout =
      (page_redirect "admin_orders" [("Order deleted successfully!", "success")], db') /\
    get 1 (orders db') = None /\
    order_items db' = [] /\
    products db' = products after_checkout.
Proof.
  split; [reflexivity|]. split; [reflexivity|].
  destruct (admin_delete_order_cascades root 1 _ after_checkout eq_refl eq_refl)
    as [db' [Hr [Hgone [_ [Hitems [Hprod _]]]]]].
  exists db'. split; [exact Hr|]. split; [exact Hgone|]. split; [|exact Hprod].
  destruct (order_items db') as [|it l] eqn:E; [reflexivity|].
  exfalso. destruct (proj1 (Hitems it) (or_introl eq_refl)) as [Hin Hne].
  vm_compute in Hin. destruct Hin as [<-|[]]. now apply Hne.
Defined.

Lemma admin_delete_product_unless_referenced_witness :
  admin_delete_product 1 (Some root) after_checkout = (page_abort 500, after_checkout) /\
  exists db',
    admin_delete_product 2 (Some root) (database opened) =
      (page_redirect "admin_products"
         [("Product deleted successfully!", "success")], db') /\
    get 2 (products db') = None.
Proof.
  destruct (admin_delete_product_unless_referenced root 1 _ after_checkout
              eq_refl eq_refl) as [Hrefuse _].
  destruct (admin_delete_product_unless_referenced root 2 _ (database opened)
              eq_refl eq_refl) as [_ Hdelete].
  split.
  - apply Hrefuse. right. eexists. split; [left; reflexivity | reflexivity].
  - destruct Hdelete as [db' [Hr [Hgone _]]]; [intros c [] | intros it [] |].
    exists db'. split; assumption.
Defined.

Lemma admin_edit_order_overrides_witness :
  snd (admin_edit_order POST 1
         shipped
         (Some root) after_checkout) =
    snd (admin_update_order_status 1 "shipped" (Some root) after_checkout) /\
  exists db' o',
    admin_edit_order POST 1
      shipped_for_one
      (Some root) after_checkout =
      (page_redirect "admin_orders" [("Order updated successfully!", "success")], db') /\
    get 1 (orders db') = Some o' /\
    total_amount o' = (1 # 1)%Q /\
    oi_price (nth 0 (order_items db')
                no_item) = (10 # 1)%Q.
Proof.
  destruct (admin_edit_order_overrides 1 "shipped" (Some root) after_checkout)
    as [Hsame Hover].
  split; [exact Hsame|].
  destruct (Hover root _ (1 # 1)%Q eq_refl eq_refl eq_refl) as [Hnumber _].
  destruct (Hnumber eq_refl)
    as [db' [o' [Hr [Hget [_ [Htotal [_ [_ [_ Hitems]]]]]]]]].
  exists db', o'. split; [exact Hr|]. split; [exact Hget|]. split; [exact Htotal|].
  rewrite Hitems. reflexivity.
Defined.

Lemma admin_create_order_without_items_witness :
  is_admin root = true /\
  admin_create_order POST
    (order_for 9)
    7 members (Some root) after_checkout =
    (page_redirect "admin_create_order" [("User not found.", "error")],
     after_checkout) /\
  exists db' order,
    admin_create_order POST
      (order_for 3)
      7 members (Some root) after_checkout =
      (page_redirect "admin_orders" [("Order created successfully!", "success")], db') /\
    orders db' = orders after_checkout ++ [order] /\
    total_amount order = (5 # 1)%Q /\
    order_items db' = order_items after_checkout.
Proof.
  split; [reflexivity|].
  destruct (admin_create_order_without_items root
              (order_for 9) 7 members after_checkout eq_refl)
    as [Hunknown _].
  destruct (admin_create_order_without_items root
              (order_for 3) 7 members after_checkout eq_refl)
    as [_ Hknown].
  split; [apply Hunknown; reflexivity|].
  destruct (Hknown bob eq_refl) as [Hnumber _].
  destruct (Hnumber eq_refl)
    as [db' [order [Hr [Horders [_ [_ [Htotal [_ [_ [Hitems _]]]]]]]]]].
  exists db', order. repeat split; assumption.
Defined.


Lemma register_keeps_accounts_unique_witness :
  accounts_wf members /\
  accounts_wf (snd (register POST carol_form (toy_hash "s3cret") members)) /\
  snd (register POST
         {| rf_username := "alice"; rf_email := "other@example.com";
            rf_password := "x" |} (toy_hash "x") members) = members.
Proof.
  split; [exact members_wf|].
  destruct (register_keeps_accounts_unique POST carol_form (toy_hash "s3cret")
              members members_wf) as [Hwf _].
  destruct (register_keeps_accounts_unique POST
              {| rf_username := "alice"; rf_email := "other@example.com";
                 rf_password := "x" |} (toy_hash "x") members members_wf)
    as [_ [_ Hrefused]].
  split; [exact Hwf|]. apply Hrefused. left. cbn. tauto.
Defined.

Lemma register_then_login_witness :
  check_password_hash (toy_hash "s3cret") (rf_password carol_form) = true /\
  login POST {| lf_email_or_username := "carol"; lf_password := "s3cret" |}
    (snd (register POST carol_form (toy_hash "s3cret") members)) None =
    (flash_redirect "home" [("Login successful!", "success")], Some 4) /\
  login POST {| lf_email_or_username := "carol@example.com";
                lf_password := "s3cret" |}
    (snd (register POST carol_form (toy_hash "s3cret") members)) None =
    (flash_redirect "home" [("Login successful!", "success")], Some 4).
Proof.
  split; [reflexivity|].
  destruct (register_then_login (werkzeug := Toy_werkzeug) carol_form (toy_hash "s3cret") members
              (snd (register POST carol_form (toy_hash "s3cret") members)) None
              eq_refl eq_refl) as [Hname [Hmail _]].
  split.
  - apply Hname. intros v Hv. cbn in Hv.
    destruct Hv as [<-|[<-|[<-|[]]]]; discriminate.
  - apply Hmail. intros v Hv. cbn in Hv.
    destruct Hv as [<-|[<-|[<-|[]]]]; discriminate.
Defined.

Lemma register_shadowed_by_email_witness :
  In alice members /\
  email alice = rf_username mallory_form /\
  (login POST {| lf_email_or_username := rf_username mallory_form;
                 lf_password := "letmein" |}
     (snd (register POST mallory_form (toy_hash "letmein") members)) None =
     (flash_render "login.html"
        [("Invalid email/username or password.", "error")], None) \/
   exists w,
     In w members /\ u_id w <> next_id members /\
     snd (login POST {| lf_email_or_username := rf_username mallory_form;
                        lf_password := "letmein" |}
            (snd (register POST mallory_form (toy_hash "letmein") members)) None) =
       Some (u_id w)).
Proof.
  assert (Hin : In alice members) by (cbn; tauto).
  split; [exact Hin|]. split; [reflexivity|].
  exact (register_shadowed_by_email (werkzeug := Toy_werkzeug) mallory_form (toy_hash "letmein") "letmein"
           members _ alice None eq_refl Hin eq_refl).
Defined.

Lemma create_admin_user_once_witness :
  create_admin_user (toy_hash "123456") [] = Some (accounts opened) /\
  create_admin_user (toy_hash "again") (accounts opened) = Some (accounts opened) /\
  create_admin_user (toy_hash "123456")
    [{| u_id := 1; username := "admin"; email := "me@example.com";
        password_hash := "x"; is_admin := false |}] = None.
Proof.
  destruct (create_admin_user_once (toy_hash "123456") []) as [Hfacts _].
  destruct (Hfacts (accounts opened) eq_refl) as [_ [_ [Hagain _]]].
  destruct (create_admin_user_once (toy_hash "123456")
              [{| u_id := 1; username := "admin"; email := "me@example.com";
                  password_hash := "x"; is_admin := false |}]) as [_ Hraises].
  split; [reflexivity|]. split; [apply Hagain|].
  apply Hraises. split; reflexivity.
Defined.

Lemma startup_once_witness :
  startup Q_of_literal (toy_hash "123456") 0 empty_store = Some opened /\
  startup Q_of_literal (toy_hash "another") 86400 opened = Some opened /\
  map p_id (products (database opened)) = [1; 2; 3; 4].
Proof.
  destruct (startup_once (py_float := Q_float) Q_of_literal (toy_hash "123456") 0 empty_store opened
              opened_eq) as [Hagain [_ [_ [Hseed _]]]].
  split; [exact opened_eq|]. split; [apply Hagain|].
  apply (Hseed eq_refl).
Defined.

Lemma gated_routes_write_nothing_witness :
  site_handle site (Some 9, Core (AddToCart 1)) = site /\
  site_handle site (Some 2, AdminDeleteOrder 1) = site /\
  site_handle site (None, Core (AdminEditProduct POST 1 repriced_laptop)) = site.
Proof.
  destruct (gated_routes_write_nothing site (Some 9) (Core (AddToCart 1)))
    as [Hunknown _].
  destruct (gated_routes_write_nothing site (Some 2) (AdminDeleteOrder 1))
    as [_ Hcustomer].
  destruct (gated_routes_write_nothing site None
              (Core (AdminEditProduct POST 1 repriced_laptop))) as [_ Hanonymous].
  split; [apply Hunknown; [reflexivity | discriminate]|].
  split; [apply Hcustomer; [reflexivity|]; intros a Ha; cbn in Ha;
          inversion Ha; reflexivity|].
  apply Hanonymous; [reflexivity | discriminate].
Defined.

Lemma customers_cannot_escalate_witness :
  customer_effect opened (site_serve customers_day opened) /\
  List.length (orders (database (site_serve customers_day opened))) = 1%nat.
Proof.
  split; [|reflexivity].
  apply (customers_cannot_escalate customers_day opened).
  intros s r a Hreq Ha Hid. cbn in Ha. destruct Ha as [<-|[]]. cbn in Hid.
  subst s. cbn in Hreq.
  repeat (destruct Hreq as [Hreq|Hreq]; [discriminate|]). destruct Hreq.
Defined.

Lemma schema_holds_along_runs_witness :
  site_wf opened /\ site_wf (site_serve carol_day opened).
Proof.
  split; [exact opened_wf|].
  apply (schema_holds_along_runs carol_day opened). exact opened_wf.
Defined.

Lemma cart_quantities_stay_positive_witness :
  cart_positive (database opened) /\
  cart_positive (database (site_serve carol_day opened)).
Proof.
  assert (Hpos : cart_positive (database opened)) by (intros c []).
  split; [exact Hpos|].
  apply (cart_quantities_stay_positive carol_day opened). exact Hpos.
Defined.

Lemma reached_carts_check_out_witness :
  site_wf opened /\
  (exists items total,
     cart (Some (new_user carol_form (toy_hash "s3cret") 2))
       (database (site_serve carol_day opened)) =
       (page_render "cart.html" (cart_context items total),
        database (site_serve carol_day opened))) /\
  is_success
    (fst (checkout 30 (Some (new_user carol_form (toy_hash "s3cret") 2))
            (database (site_serve carol_day opened)))) = true.
Proof.
  split; [exact opened_wf|].
  destruct (reached_carts_check_out carol_day opened
              (new_user carol_form (toy_hash "s3cret") 2) 30 opened_wf)
    as [Hpage Hiff].
  split; [exact Hpage|].
  apply Hiff; [vm_compute; discriminate|]. split.
  - eexists. split; [vm_compute; reflexivity | reflexivity].
  - intros c p Hc Hp. vm_compute in Hc. destruct Hc as [<-|[]].
    vm_compute in Hp. inversion Hp. reflexivity.
Defined.

Lemma admin_add_product_round_trip_witness :
  is_admin root = true /\
  (exists db' p,
    admin_add_product POST tablet 9 (Some root) (shop 5) =
      (redirect "admin_products" [("Product added successfully!", "success")], db') /\
    get (p_id p) (products (shop 5)) = None /\
    get (p_id p) (products db') = Some p /\
    p_name p = "Tablet" /\ p_stock p = 20) /\
  admin_add_product POST (laptop 9223372036854775808) 9 (Some root) (shop 5) =
    (abort 500, shop 5).
Proof.
  split; [reflexivity|].
  destruct (admin_add_product_round_trip root tablet 9 (shop 5) eq_refl)
    as [Htaken _].
  destruct (admin_add_product_round_trip root (laptop 9223372036854775808) 9
              (shop 5) eq_refl) as [_ Hrefused].
  split; [|apply Hrefused; left; reflexivity].
  destruct (Htaken eq_refl eq_refl)
    as [db' [p [Hr [Hnew [Hget [Hname [_ [_ [Hstock _]]]]]]]]].
  exists db', p. repeat split; assumption.
Defined.

Lemma admin_edit_product_overwrites_witness :
  is_admin root = true /\
  option_map p_stock (get 1 (products after_checkout)) = Some 3 /\
  (exists db' p',
    admin_edit_product POST 1 (laptop (-4)) (Some root) after_checkout =
      (redirect "admin_products" [("Product updated successfully!", "success")], db') /\
    get 1 (products db') = Some p' /\
    p_stock p' = -4) /\
  admin_edit_product POST 1 (laptop (-9223372036854775809)) (Some root)
    after_checkout = (abort 500, after_checkout).
Proof.
  split; [reflexivity|]. split; [reflexivity|].
  destruct (admin_edit_product_overwrites root 1 (laptop (-4)) _ after_checkout
              eq_refl eq_refl) as [Htaken _].
  destruct (admin_edit_product_overwrites root 1 (laptop (-9223372036854775809)) _
              after_checkout eq_refl eq_refl) as [_ Hrefused].
  split; [|apply Hrefused; left; reflexivity].
  destruct (Htaken eq_refl eq_refl)
    as [db' [p' [Hr [Hget [_ [_ [_ [Hstock _]]]]]]]].
  exists db', p'. repeat split; assumption.
Defined.

(** A day of forms that SQLite refuses leaves the stationer's tables
    storable; the one order it adds is Alice's last checkout. *)
Example careless_day_orders :
  map (fun o => (o_id o, total_amount o, status o))
      (orders (database (site_serve careless_day stationery))) =
    [ (1, rational (3 # 1)%Q, "pending");
      (2, rational (27670116110564327421 # 1)%Q, "pending") ] /\
  map p_stock (products (database (site_serve careless_day stationery))) =
    [-9223372036854775803].
Proof. vm_compute. split; reflexivity. Qed.

Lemma stored_values_stay_storable_witness :
  storable_db stationer /\
  storable_db (database (site_serve careless_day stationery)).
Proof.
  assert (Hst : storable_db stationer).
  { unfold storable_db.
    split; [|split; [|split]]; intros x Hx; vm_compute in Hx;
      repeat (destruct Hx as [<-|Hx];
              [first [reflexivity | split; reflexivity]|]);
      destruct Hx. }
  split; [exact Hst|].
  apply (stored_values_stay_storable careless_day stationery). exact Hst.
Defined.
